(** * Byte Bistro REST API: the order lifecycle of [api/views.py]

    A shallow embedding of the views of [api/views.py] and of the
    serializers of [api/serializers.py] that the cart and the order
    endpoints use.  The database is an explicit record of tables; every
    view is a computation in a state-and-exception monad over it.  Django
    runs in autocommit mode and no view opens a transaction, so a write
    that happened before an exception is raised stays in the store. *)

From Stdlib Require Import ZArith String List Bool Lia.
From Stdlib Require Import Permutation.
Import ListNotations.
Open Scope string_scope.
Open Scope list_scope.
Open Scope Z_scope.

(** ** Data model *)

(** A [Decimal] with two decimal places, held as its number of
    hundredths: [9.50] is [950].  Sums and products by an integer are
    exact on this representation, as they are on Python's [Decimal]. *)
Definition Decimal := Z.

(** The digits of a decimal column.  [api/models.py], which declares
    the columns, is not among the sources; [serializers.py] declares
    [max_digits=6, decimal_places=2] for the unit price it reads from the
    menu item, and the columns are taken to hold as much: six digits, two
    of them decimal places, so amounts up to [9999.99].  Saving a row
    with a decimal that needs more digits raises
    [decimal.InvalidOperation], before anything is written. *)
Definition max_digits : Z := 6.

Definition fits_decimal (v : Decimal) : bool := Z.abs v <? 10 ^ max_digits.

Module User.
(** [django.contrib.auth.models.User], with the names of the groups
    the user belongs to. *)
Record t := mk {
  id : Z;
  username : string;
  is_staff : bool;
  is_superuser : bool;
  groups : list string
}.
End User.

Module MenuItem.
Record t := mk {
  id : Z;
  title : string;
  price : Decimal;
  featured : bool
}.
End MenuItem.

Module Cart.
Record t := mk {
  id : Z;
  user : Z;
  menuitem_id : Z;
  quantity : Z;
  unit_price : Decimal;
  price : Decimal
}.
End Cart.

Module Order.
Record t := mk {
  id : Z;
  user : Z;
  delivery_crew : option Z;
  status : bool;
  total : Decimal;
  date : Z
}.
End Order.

Module OrderItem.
Record t := mk {
  id : Z;
  order_id : Z;
  menuitem_id : Z;
  quantity : Z
}.
End OrderItem.

(** The store: one list of rows per table, in insertion order, and the
    next primary key of each table that the views insert into. *)
Record DB := mkDB {
  users : list User.t;
  menuitems : list MenuItem.t;
  carts : list Cart.t;
  orders : list Order.t;
  orderitems : list OrderItem.t;
  cart_seq : Z;
  order_seq : Z;
  orderitem_seq : Z
}.

Definition set_menuitems (ms : list MenuItem.t) (db : DB) : DB :=
  mkDB (users db) ms (carts db) (orders db) (orderitems db)
       (cart_seq db) (order_seq db) (orderitem_seq db).

Definition set_carts (cs : list Cart.t) (seq : Z) (db : DB) : DB :=
  mkDB (users db) (menuitems db) cs (orders db) (orderitems db)
       seq (order_seq db) (orderitem_seq db).

Definition set_orders (os : list Order.t) (seq : Z) (db : DB) : DB :=
  mkDB (users db) (menuitems db) (carts db) os (orderitems db)
       (cart_seq db) seq (orderitem_seq db).

Definition set_orderitems (ois : list OrderItem.t) (seq : Z) (db : DB) : DB :=
  mkDB (users db) (menuitems db) (carts db) (orders db) ois
       (cart_seq db) (order_seq db) seq.

(** ** Exceptions and responses *)

Inductive Exception :=
| ValidationError          (* rest_framework: 400 *)
| NotAuthenticated         (* rest_framework: 401 *)
| PermissionDenied         (* rest_framework: 403 *)
| Http404                  (* django.http: 404 *)
| DoesNotExist             (* Model.DoesNotExist, unhandled: 500 *)
| MultipleObjectsReturned  (* unhandled: 500 *)
| KeyError                 (* unhandled: 500 *)
| IntegrityError           (* django.db, unhandled: 500 *)
| InvalidOperation         (* decimal, unhandled: 500 *)
| ValueError.              (* unhandled: 500 *)

(** The status code the framework answers with when a view raises. *)
Definition exception_status (e : Exception) : Z :=
  match e with
  | ValidationError => 400
  | NotAuthenticated => 401
  | PermissionDenied => 403
  | Http404 => 404
  | DoesNotExist | MultipleObjectsReturned | KeyError | IntegrityError
  | InvalidOperation | ValueError => 500
  end.

(** The ['message'] payloads of the views, with the values they are
    formatted from. *)
Inductive Message :=
| ItemAddedToCart          (* 'Item added to cart!' *)
| ItemRemovedFromCart      (* 'Item removed from cart' *)
| AllItemsRemovedFromCart  (* 'All Items removed from cart' *)
| ExceptionText (e : Exception)            (* f'{e}' *)
| OrderPlaced (order_id : Z)
    (* 'Your order has been placed! Your order number is {}' *)
| StatusChanged (order_id : Z) (status : bool)
    (* 'Status of order #{} changed to {}' *)
| CrewAssigned (username : string) (order_id : Z)
    (* '{} was assigned to order #{}' *)
| OrderDeleted (order_id : Z).             (* 'Order #{} was deleted' *)

Record JsonResponse := mkJsonResponse {
  status_code : Z;
  message : Message
}.

(** ** The state-and-exception monad of the views *)

Inductive Outcome (A : Type) :=
| Returned (a : A)
| Raised (e : Exception).
Arguments Returned {A} a.
Arguments Raised {A} e.

Definition ORM (A : Type) := DB -> Outcome A * DB.

Definition ret {A} (a : A) : ORM A := fun db => (Returned a, db).

Definition raise {A} (e : Exception) : ORM A := fun db => (Raised e, db).

Definition bind {A B} (c : ORM A) (k : A -> ORM B) : ORM B :=
  fun db =>
    match c db with
    | (Returned a, db') => k a db'
    | (Raised e, db') => (Raised e, db')
    end.

(** [try: c except Exception as e: h e] *)
Definition try_except {A} (c : ORM A) (h : Exception -> ORM A) : ORM A :=
  fun db =>
    match c db with
    | (Returned a, db') => (Returned a, db')
    | (Raised e, db') => h e db'
    end.

Definition query {A} (f : DB -> A) : ORM A := fun db => (Returned (f db), db).

Definition modify (f : DB -> DB) : ORM unit := fun db => (Returned tt, f db).

Declare Scope orm_scope.
Delimit Scope orm_scope with orm.
Notation "x <- c ;; k" := (bind c (fun x => k))
  (at level 100, c at next level, right associativity) : orm_scope.
Notation "c ;;; k" := (bind c (fun _ => k))
  (at level 100, right associativity) : orm_scope.
Open Scope orm_scope.

(** The store a computation leaves, and what it returned or raised. *)
Definition exec {A} (c : ORM A) (db : DB) : DB := snd (c db).
Definition result {A} (c : ORM A) (db : DB) : Outcome A := fst (c db).

(** ** The ORM calls the views make *)

(** [user.groups.filter(name=name).exists()] *)
Definition in_group (name : string) (u : User.t) : bool :=
  existsb (String.eqb name) (User.groups u).

(** [get_object_or_404(MenuItem, id=id)] *)
Definition get_MenuItem_or_404 (id : Z) : ORM MenuItem.t :=
  ms <- query menuitems ;;
  match find (fun m => MenuItem.id m =? id) ms with
  | Some m => ret m
  | None => raise Http404
  end.

(** [get_object_or_404(User, pk=pk)] *)
Definition get_User_or_404 (pk : Z) : ORM User.t :=
  us <- query users ;;
  match find (fun u => User.id u =? pk) us with
  | Some u => ret u
  | None => raise Http404
  end.

(** The row of the order table with primary key [pk]. *)
Definition find_order (pk : Z) (os : list Order.t) : option Order.t :=
  find (fun o => Order.id o =? pk) os.

(** [Order.objects.get(pk=pk)] *)
Definition Order_objects_get (pk : Z) : ORM Order.t :=
  os <- query orders ;;
  match find_order pk os with
  | Some o => ret o
  | None => raise DoesNotExist
  end.

(** [get_object_or_404(Order, pk=pk)] *)
Definition get_Order_or_404 (pk : Z) : ORM Order.t :=
  try_except (Order_objects_get pk)
    (fun e => match e with DoesNotExist => raise Http404 | _ => raise e end).

(** [Cart.objects.filter(user=user)], evaluated *)
Definition user_lines (user : Z) (cs : list Cart.t) : list Cart.t :=
  filter (fun c => Cart.user c =? user) cs.

Definition Cart_objects_filter (user : Z) : ORM (list Cart.t) :=
  query (fun db => user_lines user (carts db)).

(** [Cart.objects.filter(user=user).delete()] *)
Definition Cart_objects_filter_delete (user : Z) : ORM unit :=
  modify (fun db =>
    set_carts (filter (fun c => negb (Cart.user c =? user)) (carts db))
              (cart_seq db) db).

Definition same_line (user menuitem : Z) (c : Cart.t) : bool :=
  (Cart.user c =? user) && (Cart.menuitem_id c =? menuitem).

(** Modelled from the spec: the constraint of the [Cart] model that
    [api/models.py] (not among the sources) declares.  The data model
    has "at most one line per (user, menu item) pair", so the table
    refuses a second row of a pair: the insert raises [IntegrityError]. *)
Definition Cart_unique_together (cs : list Cart.t) (user menuitem : Z) : bool :=
  negb (existsb (same_line user menuitem) cs).

(** [Cart.objects.create(user=, quantity=, unit_price=, price=, menuitem_id=)]:
    the values are prepared for their columns first, then the row is
    inserted. *)
Definition Cart_objects_create
    (user quantity : Z) (unit_price price : Decimal) (menuitem_id : Z)
    : ORM Cart.t :=
  if fits_decimal unit_price && fits_decimal price then
    cs <- query carts ;;
    if Cart_unique_together cs user menuitem_id then
      seq <- query cart_seq ;;
      let c := Cart.mk seq user menuitem_id quantity unit_price price in
      modify (set_carts (cs ++ [c]) (seq + 1)) ;;;
      ret c
    else raise IntegrityError
  else raise InvalidOperation.

(** [get_object_or_404(Cart, user=user, menuitem=menuitem)] *)
Definition get_Cart_or_404 (user menuitem : Z) : ORM Cart.t :=
  cs <- query carts ;;
  match filter (same_line user menuitem) cs with
  | [] => raise Http404
  | [c] => ret c
  | _ => raise MultipleObjectsReturned
  end.

(** [cart.delete()] *)
Definition Cart_delete (c : Cart.t) : ORM unit :=
  modify (fun db =>
    set_carts (filter (fun r => negb (Cart.id r =? Cart.id c)) (carts db))
              (cart_seq db) db).

(** [Order.objects.create(user=, status=, total=, date=)]; the column
    [delivery_crew] is left at its default, null. *)
Definition Order_objects_create
    (user : Z) (status : bool) (total : Decimal) (date : Z) : ORM Order.t :=
  if fits_decimal total then
    seq <- query order_seq ;;
    let o := Order.mk seq user None status total date in
    modify (fun db => set_orders (orders db ++ [o]) (seq + 1) db) ;;;
    ret o
  else raise InvalidOperation.

(** [order.save()] of a row that has a primary key: an update of the
    row of that key. *)
Definition saved (o : Order.t) (os : list Order.t) : list Order.t :=
  map (fun r => if Order.id r =? Order.id o then o else r) os.

Definition Order_save (o : Order.t) : ORM unit :=
  modify (fun db => set_orders (saved o (orders db)) (order_seq db) db).

(** [OrderItem.objects.create(order=, menuitem=, quantity=)] *)
Definition OrderItem_objects_create
    (order : Order.t) (menuitem : MenuItem.t) (quantity : Z)
    : ORM OrderItem.t :=
  seq <- query orderitem_seq ;;
  let oi := OrderItem.mk seq (Order.id order) (MenuItem.id menuitem) quantity in
  modify (fun db => set_orderitems (orderitems db ++ [oi]) (seq + 1) db) ;;;
  ret oi.

(** [orderitem.save()] *)
Definition OrderItem_save (oi : OrderItem.t) : ORM unit :=
  modify (fun db =>
    set_orderitems
      (map (fun r => if OrderItem.id r =? OrderItem.id oi then oi else r)
           (orderitems db))
      (orderitem_seq db) db).

(** [OrderItem.objects.filter(order_id=pk)] *)
Definition OrderItem_objects_filter (pk : Z) : ORM (list OrderItem.t) :=
  query (fun db => filter (fun oi => OrderItem.order_id oi =? pk) (orderitems db)).

(** A saved change of a menu item's price: what the update of
    [SingleItemView] (a [RetrieveUpdateDestroyAPIView]) and the admin
    site end in. *)
Definition repriced (id : Z) (p : Decimal) (m : MenuItem.t) : MenuItem.t :=
  if MenuItem.id m =? id
  then MenuItem.mk (MenuItem.id m) (MenuItem.title m) p (MenuItem.featured m)
  else m.

Definition MenuItem_save_price (id : Z) (p : Decimal) : ORM unit :=
  modify (fun db => set_menuitems (map (repriced id p) (menuitems db)) db).

(** ** Permissions *)

Inductive Method := GET | POST | PUT | PATCH | DELETE.

Definition Method_eqb (a b : Method) : bool :=
  match a, b with
  | GET, GET | POST, POST | PUT, PUT | PATCH, PATCH | DELETE, DELETE => true
  | _, _ => false
  end.

(** [request.user]: a row of the user table, or [AnonymousUser]. *)
Inductive Requester :=
| AnonymousUser
| Authenticated (u : User.t).

(** The permission classes of the views; [OR a b] is [a | b]. *)
Inductive Permission :=
| AllowAny
| IsAuthenticated
| IsAdminUser
| IsManager
| IsDeliveryCrew
| OR (a b : Permission).

(** Modelled from the spec: [IsManager] and [IsDeliveryCrew] come from
    [api/permissions.py], which is not among the sources.  The Role
    Authority resolves roles "from group membership"; the groups are the
    ones the views name, ['Manager'] and ['Delivery Crew']. *)
Definition is_manager (u : User.t) : bool := in_group "Manager" u.
Definition is_delivery_crew (u : User.t) : bool := in_group "Delivery Crew" u.

Fixpoint has_permission (p : Permission) (r : Requester) : bool :=
  match p, r with
  | AllowAny, _ => true
  | OR a b, _ => has_permission a r || has_permission b r
  | _, AnonymousUser => false
  | IsAuthenticated, Authenticated _ => true
  | IsAdminUser, Authenticated u => User.is_staff u
  | IsManager, Authenticated u => is_manager u
  | IsDeliveryCrew, Authenticated u => is_delivery_crew u
  end.

(** [APIView.check_permissions]: the first class that refuses ends the
    request, with 401 for an anonymous requester and 403 otherwise. *)
Definition check_permissions (ps : list Permission) (r : Requester) : ORM unit :=
  if forallb (fun p => has_permission p r) ps then ret tt
  else match r with
       | AnonymousUser => raise NotAuthenticated
       | Authenticated _ => raise PermissionDenied
       end.

(** [self.request.user == order.user] *)
Definition is_owner (r : Requester) (o : Order.t) : bool :=
  match r with
  | AnonymousUser => false
  | Authenticated u => User.id u =? Order.user o
  end.

(** [request.data[key]]: the value of a key of the request body, a
    [KeyError] when the body does not hold the key. *)
Definition data_item {A} (v : option A) : ORM A :=
  match v with
  | Some a => ret a
  | None => raise KeyError
  end.

(** ** The cart: [class Customer_Cart] *)

Module Customer_Cart.

(** [request.data] of the cart endpoint: the keys it may hold.
    [quantity] is the integer the serializer reads; [quantity_int] tells
    whether Python's [int()] accepts the value as the body has it: it
    does for a JSON integer, and does not for a text such as ['1.0'],
    which the serializer reads as 1. *)
Record Data := mk {
  menuitem : option Z;
  quantity : option Z;
  quantity_int : bool
}.

(** A body whose quantity, if any, is a JSON integer. *)
Definition mkData (menuitem quantity : option Z) : Data :=
  mk menuitem quantity true.

(** [int(quantity)] *)
Definition int_quantity (d : Data) (quantity : Z) : ORM Z :=
  if quantity_int d then ret quantity else raise ValueError.

(** A [menuitem] field of a [ModelSerializer] over [Cart]: required,
    and the primary key of an existing menu item. *)
Definition valid_menuitem (d : Data) (db : DB) : bool :=
  match menuitem d with
  | Some id => existsb (fun m => MenuItem.id m =? id) (menuitems db)
  | None => false
  end.

(** [AddToCartSerializer(data=request.data).is_valid(raise_exception=True)] *)
Definition AddToCartSerializer_is_valid (d : Data) : ORM unit :=
  ok <- query (valid_menuitem d) ;;
  match ok, quantity d with
  | true, Some _ => ret tt
  | _, _ => raise ValidationError
  end.

(** [RemoveFromCartSerializer(data=request.data).is_valid(raise_exception=True)] *)
Definition RemoveFromCartSerializer_is_valid (d : Data) : ORM unit :=
  ok <- query (valid_menuitem d) ;;
  if ok then ret tt else raise ValidationError.

Definition get_queryset (request_user : User.t) : ORM (list Cart.t) :=
  Cart_objects_filter (User.id request_user).

Definition post (request_user : User.t) (request_data : Data)
    : ORM JsonResponse :=
  AddToCartSerializer_is_valid request_data ;;;
  id <- data_item (menuitem request_data) ;;
  quantity <- data_item (quantity request_data) ;;
  item <- get_MenuItem_or_404 id ;;
  n <- int_quantity request_data quantity ;;
  let price := n * MenuItem.price item in
  try_except
    (Cart_objects_create (User.id request_user) quantity
                         (MenuItem.price item) price id ;;;
     ret (mkJsonResponse 201 ItemAddedToCart))
    (fun e => ret (mkJsonResponse 200 (ExceptionText e))).

Definition delete (request_user : User.t) (request_data : Data)
    : ORM JsonResponse :=
  match menuitem request_data with
  | Some menuitem =>
      RemoveFromCartSerializer_is_valid request_data ;;;
      cart <- get_Cart_or_404 (User.id request_user) menuitem ;;
      Cart_delete cart ;;;
      ret (mkJsonResponse 200 ItemRemovedFromCart)
  | None =>
      Cart_objects_filter_delete (User.id request_user) ;;;
      ret (mkJsonResponse 201 AllItemsRemovedFromCart)
  end.

End Customer_Cart.

(** ** Orders: [class OrdersView] *)

Module OrdersView.

Definition get_queryset (request_user : User.t) : ORM (list Order.t) :=
  if in_group "Manager" request_user
     || Bool.eqb (User.is_superuser request_user) true
  then query orders
  else if in_group "Delivery Crew" request_user
  then query (fun db =>
         filter (fun o => match Order.delivery_crew o with
                          | Some c => c =? User.id request_user
                          | None => false
                          end) (orders db))
  else query (fun db =>
         filter (fun o => Order.user o =? User.id request_user) (orders db)).

(** [self.request.method == 'GET' or 'POST'] is truthy for every
    method: the string ['POST'] is. *)
Definition get_permissions (method : Method) : list Permission :=
  if Method_eqb method GET || true
  then [IsAuthenticated]
  else [IsAuthenticated; OR IsManager IsAdminUser].

Definition calculate_total (cart_items : list Cart.t) : Decimal :=
  fold_left (fun total item => total + Cart.price item) cart_items 0.

(** The body of [for i in cart_items.values(): ...] *)
Fixpoint create_items (order : Order.t) (values : list Cart.t) : ORM unit :=
  match values with
  | [] => ret tt
  | i :: rest =>
      menuitem <- get_MenuItem_or_404 (Cart.menuitem_id i) ;;
      orderitem <- OrderItem_objects_create order menuitem (Cart.quantity i) ;;
      OrderItem_save orderitem ;;;
      create_items order rest
  end.

(** [cart_items] is a lazy queryset: the total, the loop and the
    delete each run it against the store as it is at that point. *)
Definition post (request_user : User.t) (today : Z) : ORM JsonResponse :=
  let cart_items := Cart_objects_filter (User.id request_user) in
  lines <- cart_items ;;
  let total := calculate_total lines in
  order <- Order_objects_create (User.id request_user) false total today ;;
  values <- cart_items ;;
  create_items order values ;;;
  Cart_objects_filter_delete (User.id request_user) ;;;
  ret (mkJsonResponse 201 (OrderPlaced (Order.id order))).

End OrdersView.

(** ** One order: [class SingleOrderSerializer], [class SingleOrderView] *)

Fixpoint for_each {A B} (f : A -> ORM B) (l : list A) : ORM (list B) :=
  match l with
  | [] => ret []
  | a :: rest =>
      b <- f a ;;
      bs <- for_each f rest ;;
      ret (b :: bs)
  end.

Module SingleOrderSerializer.

(** The fields of [Meta.fields]; [menuitem] is the nested
    [SingleHelperSerializer], a title and a price. *)
Record t := mk {
  quantity : Z;
  menuitem : string * Decimal;
  unit_price : Decimal;
  price : Decimal;
  name : string
}.

(** [obj.menuitem]: the row the foreign key points to. *)
Definition obj_menuitem (obj : OrderItem.t) : ORM MenuItem.t :=
  ms <- query menuitems ;;
  match find (fun m => MenuItem.id m =? OrderItem.menuitem_id obj) ms with
  | Some m => ret m
  | None => raise DoesNotExist
  end.

Definition get_price (obj : OrderItem.t) : ORM Decimal :=
  menuitem <- obj_menuitem obj ;;
  ret (OrderItem.quantity obj * MenuItem.price menuitem).

(** [unit_price] has [source='menuitem.price'], [name] has
    [source='menuitem.title']. *)
Definition to_representation (obj : OrderItem.t) : ORM t :=
  menuitem <- obj_menuitem obj ;;
  price <- get_price obj ;;
  ret (mk (OrderItem.quantity obj)
          (MenuItem.title menuitem, MenuItem.price menuitem)
          (MenuItem.price menuitem)
          price
          (MenuItem.title menuitem)).

End SingleOrderSerializer.

Module SingleOrderView.

Record Data := mkData {
  delivery_crew : option Z
}.

Definition get_permissions (method : Method) (request_user : Requester)
    (pk : Z) : ORM (list Permission) :=
  order <- Order_objects_get pk ;;
  if is_owner request_user order && Method_eqb method GET
  then ret [IsAuthenticated]
  else if Method_eqb method PUT || Method_eqb method DELETE
  then ret [IsAuthenticated; OR IsManager IsAdminUser]
  else ret [IsAuthenticated; OR (OR IsDeliveryCrew IsManager) IsAdminUser].

(** [APIView.initial], run before the handler of the method. *)
Definition initial (method : Method) (request_user : Requester) (pk : Z)
    : ORM unit :=
  ps <- get_permissions method request_user pk ;;
  check_permissions ps request_user.

Definition get_queryset (pk : Z) : ORM (list OrderItem.t) :=
  OrderItem_objects_filter pk.

(** [ListCreateAPIView.get]: the queryset through the serializer. *)
Definition get (pk : Z) : ORM (list SingleOrderSerializer.t) :=
  queryset <- get_queryset pk ;;
  for_each SingleOrderSerializer.to_representation queryset.

Definition set_status (o : Order.t) (s : bool) : Order.t :=
  Order.mk (Order.id o) (Order.user o) (Order.delivery_crew o) s
           (Order.total o) (Order.date o).

Definition set_delivery_crew (o : Order.t) (c : option Z) : Order.t :=
  Order.mk (Order.id o) (Order.user o) c (Order.status o)
           (Order.total o) (Order.date o).

Definition patch (pk : Z) : ORM JsonResponse :=
  order <- Order_objects_get pk ;;
  let order := set_status order (negb (Order.status order)) in
  Order_save order ;;;
  ret (mkJsonResponse 200 (StatusChanged (Order.id order) (Order.status order))).

(** [OrderPutSerializer(data=request.data).is_valid(raise_exception=True)]:
    the column is nullable, so the key may be absent; a key that is
    there has to be the primary key of a user. *)
Definition OrderPutSerializer_is_valid (d : Data) : ORM unit :=
  match delivery_crew d with
  | None => ret tt
  | Some crew_pk =>
      us <- query users ;;
      if existsb (fun u => User.id u =? crew_pk) us then ret tt
      else raise ValidationError
  end.

Definition put (pk : Z) (request_data : Data) : ORM JsonResponse :=
  OrderPutSerializer_is_valid request_data ;;;
  let order_pk := pk in
  crew_pk <- data_item (delivery_crew request_data) ;;
  order <- get_Order_or_404 order_pk ;;
  crew <- get_User_or_404 crew_pk ;;
  let order := set_delivery_crew order (Some (User.id crew)) in
  Order_save order ;;;
  ret (mkJsonResponse 201 (CrewAssigned (User.username crew) (Order.id order))).

(** The requests of the endpoint: permissions first, then the
    handler. *)
Definition GetOrderDetail (request_user : Requester) (pk : Z)
    : ORM (list SingleOrderSerializer.t) :=
  initial GET request_user pk ;;; get pk.

Definition ToggleDeliveryStatus (request_user : Requester) (pk : Z)
    : ORM JsonResponse :=
  initial PATCH request_user pk ;;; patch pk.

Definition AssignDeliveryCrew (request_user : Requester) (pk : Z)
    (request_data : Data) : ORM JsonResponse :=
  initial PUT request_user pk ;;; put pk request_data.

End SingleOrderView.

(** * Further views of [api/views.py] *)

(** A [JsonResponse] whose message is a text. *)
Record TextResponse := mkTextResponse {
  text_status : Z;
  text : string
}.

(** [str(b)] of a Python [bool]. *)
Definition str_bool (b : bool) : string := if b then "True" else "False".

Definition set_users (us : list User.t) (db : DB) : DB :=
  mkDB us (menuitems db) (carts db) (orders db) (orderitems db)
       (cart_seq db) (order_seq db) (orderitem_seq db).

(** ** The menu: [class SingleItemView], [class CategoryView],
    [class MenuItemView] *)

Module SingleItemView.

Definition get_permissions (method : Method) : list Permission :=
  let permission_classes := [IsAuthenticated] in
  let permission_classes :=
    if Method_eqb method PATCH
    then [IsAuthenticated; OR IsManager IsAdminUser]
    else permission_classes in
  let permission_classes :=
    if Method_eqb method DELETE
    then [IsAuthenticated; IsAdminUser]
    else permission_classes in
  permission_classes.

(** [MenuItem.objects.get(pk=pk)] *)
Definition MenuItem_objects_get (pk : Z) : ORM MenuItem.t :=
  ms <- query menuitems ;;
  match find (fun m => MenuItem.id m =? pk) ms with
  | Some m => ret m
  | None => raise DoesNotExist
  end.

Definition set_featured (m : MenuItem.t) (f : bool) : MenuItem.t :=
  MenuItem.mk (MenuItem.id m) (MenuItem.title m) (MenuItem.price m) f.

(** [menuitem.save()] of a row that has a primary key. *)
Definition MenuItem_save (m : MenuItem.t) : ORM unit :=
  modify (fun db =>
    set_menuitems
      (map (fun r => if MenuItem.id r =? MenuItem.id m then m else r)
           (menuitems db))
      db).

Definition patch (pk : Z) : ORM TextResponse :=
  menuitem <- MenuItem_objects_get pk ;;
  let menuitem := set_featured menuitem (negb (MenuItem.featured menuitem)) in
  MenuItem_save menuitem ;;;
  ret (mkTextResponse 200
         ("Featured status of " ++ MenuItem.title menuitem
          ++ " changed to " ++ str_bool (MenuItem.featured menuitem))).

End SingleItemView.

Module CategoryView.

Definition get_permissions (method : Method) : list Permission :=
  if Method_eqb method POST then [IsAdminUser] else [AllowAny].

End CategoryView.

Module MenuItemView.

Definition get_permissions (method : Method) : list Permission :=
  if Method_eqb method POST then [IsAdminUser] else [AllowAny].

End MenuItemView.

(** ** Groups: [class ManagerUsersView], [class ManagerSingleUserView],
    [class Delivery_crew_management],
    [class Delivery_crew_management_single_view] *)

(** [request.data] of the group endpoints. *)
Record GroupData := mkGroupData {
  username : option string
}.

(** [Group.objects.get(name=name)], over the names of the rows of the
    group table. *)
Definition Group_objects_get (auth_group : list string) (name : string)
    : ORM string :=
  if existsb (String.eqb name) auth_group then ret name
  else raise DoesNotExist.

(** [get_object_or_404(User, username=username)] *)
Definition get_User_by_username_or_404 (username : string) : ORM User.t :=
  us <- query users ;;
  match find (fun u => String.eqb (User.username u) username) us with
  | Some u => ret u
  | None => raise Http404
  end.

(** A user with one more group; the same user when already in it. *)
Definition with_group (name : string) (u : User.t) : User.t :=
  if in_group name u then u
  else User.mk (User.id u) (User.username u) (User.is_staff u)
               (User.is_superuser u) (User.groups u ++ [name]).

(** [group.user_set.add(user)]: the membership of the user of that
    primary key. *)
Definition Group_user_set_add (name : string) (user : User.t) : ORM unit :=
  modify (fun db =>
    set_users
      (map (fun r => if User.id r =? User.id user then with_group name r else r)
           (users db))
      db).

(** [User.objects.filter(groups=group)] *)
Definition User_objects_filter_groups (name : string) : ORM (list User.t) :=
  query (fun db => filter (in_group name) (users db)).

Module ManagerUsersView.

Definition permission_classes : list Permission :=
  [IsAuthenticated; OR IsManager IsAdminUser].

Definition get_queryset (auth_group : list string) : ORM (list User.t) :=
  manager_group <- Group_objects_get auth_group "Manager" ;;
  User_objects_filter_groups manager_group.

(** The handler returns nothing, [None], when the username is empty. *)
Definition post (auth_group : list string) (request_data : GroupData)
    : ORM (option TextResponse) :=
  username <- data_item (username request_data) ;;
  if negb (String.eqb username "") then
    user <- get_User_by_username_or_404 username ;;
    managers <- Group_objects_get auth_group "Manager" ;;
    Group_user_set_add managers user ;;;
    ret (Some (mkTextResponse 201 "User added to Managers group"))
  else ret None.

End ManagerUsersView.

Module ManagerSingleUserView.

Definition permission_classes : list Permission := [IsAdminUser].

Definition get_queryset (auth_group : list string) : ORM (list User.t) :=
  manager_group <- Group_objects_get auth_group "Manager" ;;
  User_objects_filter_groups manager_group.

End ManagerSingleUserView.

Module Delivery_crew_management.

Definition permission_classes : list Permission :=
  [IsAuthenticated; OR IsManager IsAdminUser].

Definition post (auth_group : list string) (request_data : GroupData)
    : ORM (option TextResponse) :=
  username <- data_item (username request_data) ;;
  if negb (String.eqb username "") then
    user <- get_User_by_username_or_404 username ;;
    delivery_crew <- Group_objects_get auth_group "Delivery Crew" ;;
    Group_user_set_add delivery_crew user ;;;
    ret (Some (mkTextResponse 201 "User added to Delivery Crew"))
  else ret None.

End Delivery_crew_management.

Module Delivery_crew_management_single_view.

Definition permission_classes : list Permission := [IsAdminUser; IsManager].

Definition get_queryset (auth_group : list string) : ORM (list User.t) :=
  delivery_crew <- Group_objects_get auth_group "Delivery Crew" ;;
  User_objects_filter_groups delivery_crew.

End Delivery_crew_management_single_view.

(** ** Logging out everywhere: [class LogoutAllView] *)

(** The two token tables of [rest_framework_simplejwt.token_blacklist]:
    an outstanding token belongs to a user, or to none; a blacklisted
    token points to one outstanding token. *)
Module OutstandingToken.
Record t := mk {
  id : Z;
  user_id : option Z
}.
End OutstandingToken.

Module BlacklistedToken.
Record t := mk {
  id : Z;
  token_id : Z
}.
End BlacklistedToken.

Record TokenDB := mkTokenDB {
  outstanding : list OutstandingToken.t;
  blacklisted : list BlacklistedToken.t;
  blacklisted_seq : Z
}.

(** [OutstandingToken.objects.filter(user_id=user_id)] *)
Definition OutstandingToken_objects_filter (user_id : Z) (tdb : TokenDB)
    : list OutstandingToken.t :=
  filter (fun t => match OutstandingToken.user_id t with
                   | Some i => i =? user_id
                   | None => false
                   end)
         (outstanding tdb).

(** [BlacklistedToken.objects.get_or_create(token=token)]: the row and
    whether it was created, and the store after it. *)
Definition BlacklistedToken_objects_get_or_create (token : OutstandingToken.t)
    (tdb : TokenDB) : (BlacklistedToken.t * bool) * TokenDB :=
  match find (fun b => BlacklistedToken.token_id b =? OutstandingToken.id token)
             (blacklisted tdb) with
  | Some b => ((b, false), tdb)
  | None =>
      let b := BlacklistedToken.mk (blacklisted_seq tdb)
                                   (OutstandingToken.id token) in
      ((b, true),
       mkTokenDB (outstanding tdb) (blacklisted tdb ++ [b])
                 (blacklisted_seq tdb + 1))
  end.

Module LogoutAllView.

Definition permission_classes : list Permission := [IsAuthenticated].

(** The loop [for token in tokens: ...] *)
Fixpoint blacklist_each (tokens : list OutstandingToken.t) (tdb : TokenDB)
    : TokenDB :=
  match tokens with
  | [] => tdb
  | token :: rest =>
      let '(_, tdb') := BlacklistedToken_objects_get_or_create token tdb in
      blacklist_each rest tdb'
  end.

Definition post (request_user : User.t) (tdb : TokenDB)
    : TextResponse * TokenDB :=
  let tokens := OutstandingToken_objects_filter (User.id request_user) tdb in
  let tdb' := blacklist_each tokens tdb in
  (mkTextResponse 205 "Logout successful from all devices", tdb').

End LogoutAllView.

(** ** Listing the cart: [class CartSerializer] *)

Module CartSerializer.

(** The fields of [Meta.fields]; [menuitem] is the nested
    [CartHelpSerializer]: id, title and price of the menu item, or
    [None]. *)
Record t := mk {
  menuitem : option (Z * string * Decimal);
  quantity : Z;
  price : Decimal
}.

(** The attribute [menuitem] as the nested field gets it: the row the
    foreign key points to; the field turns the [DoesNotExist] of a row
    that is gone into [None]. *)
Definition get_attribute_menuitem (obj : Cart.t) : ORM (option MenuItem.t) :=
  ms <- query menuitems ;;
  ret (find (fun m => MenuItem.id m =? Cart.menuitem_id obj) ms).

(** [CartHelpSerializer]: the fields id, title and price. *)
Definition CartHelpSerializer (m : MenuItem.t) : Z * string * Decimal :=
  (MenuItem.id m, MenuItem.title m, MenuItem.price m).

Definition to_representation (obj : Cart.t) : ORM t :=
  menuitem <- get_attribute_menuitem obj ;;
  ret (mk (option_map CartHelpSerializer menuitem)
          (Cart.quantity obj)
          (Cart.price obj)).

End CartSerializer.

(** [ListCreateAPIView.get] of [Customer_Cart]: the queryset of the
    user through [CartSerializer]. *)
Definition Customer_Cart_get (request_user : User.t)
    : ORM (list CartSerializer.t) :=
  queryset <- Customer_Cart.get_queryset request_user ;;
  for_each CartSerializer.to_representation queryset.

(** * Sample data, and the vocabulary of the properties *)

(** ** Sample data *)

Definition alice : User.t := User.mk 1 "alice" false false [].
Definition bob : User.t := User.mk 2 "bob" false false [].
Definition carol : User.t := User.mk 3 "carol" false false ["Delivery Crew"].
Definition dave : User.t := User.mk 4 "dave" false false ["Delivery Crew"].
Definition mallory : User.t := User.mk 5 "mallory" false false ["Manager"].
Definition root : User.t := User.mk 6 "root" true true [].

Definition item_A : MenuItem.t := MenuItem.mk 1 "Item A" 950 false.
Definition item_B : MenuItem.t := MenuItem.mk 2 "Item B" 300 false.

(** A store with users and a menu, and nothing else yet. *)
Definition db0 : DB :=
  mkDB [alice; bob; carol; dave; mallory; root] [item_A; item_B] [] [] []
       1 1 1.

(** [db0] after alice has put two of item A and one of item B in her
    cart. *)
Definition db_cart : DB :=
  exec (Customer_Cart.post alice (Customer_Cart.mkData (Some 2) (Some 1)))
    (exec (Customer_Cart.post alice (Customer_Cart.mkData (Some 1) (Some 2)))
       db0).

(** [db0] after alice has put a thousand of item A and a thousand of
    item B in her cart. *)
Definition db_bulk : DB :=
  exec (Customer_Cart.post alice (Customer_Cart.mkData (Some 2) (Some 1000)))
    (exec (Customer_Cart.post alice
             (Customer_Cart.mkData (Some 1) (Some 1000)))
       db0).

(** [db_cart] after alice has placed her order, on day 20000. *)
Definition db_order : DB := exec (OrdersView.post alice 20000) db_cart.

(** [db_order] after a manager has assigned carol to the order. *)
Definition db_assigned : DB :=
  exec (SingleOrderView.AssignDeliveryCrew (Authenticated mallory) 1
          (SingleOrderView.mkData (Some 3)))
       db_order.

(** ** Vocabulary of the properties *)

(** Two rows of the order table that agree on everything but the
    status, and on everything but the delivery crew. *)
Definition same_but_status (o o' : Order.t) : Prop :=
  Order.id o' = Order.id o /\ Order.user o' = Order.user o /\
  Order.total o' = Order.total o /\ Order.date o' = Order.date o /\
  Order.delivery_crew o' = Order.delivery_crew o.

Definition same_but_delivery_crew (o o' : Order.t) : Prop :=
  Order.id o' = Order.id o /\ Order.user o' = Order.user o /\
  Order.total o' = Order.total o /\ Order.date o' = Order.date o /\
  Order.status o' = Order.status o.

(** The tables other than the order table, and the other orders. *)
Definition rest_untouched (pk : Z) (db db' : DB) : Prop :=
  orderitems db' = orderitems db /\ carts db' = carts db /\
  menuitems db' = menuitems db /\ users db' = users db /\
  forall pk', pk' <> pk ->
    find_order pk' (orders db') = find_order pk' (orders db).

(** A customer: a user with none of the other roles. *)
Definition is_customer (u : User.t) : bool :=
  negb (is_manager u || is_delivery_crew u
        || User.is_staff u || User.is_superuser u).

(** The menu holds an item of primary key [id]. *)
Definition menu_has (ms : list MenuItem.t) (id : Z) : bool :=
  existsb (fun m => MenuItem.id m =? id) ms.

(** The lines the loop of [post] gets through: the ones before the
    first line whose menu item is not in the menu. *)
Fixpoint placed (ms : list MenuItem.t) (values : list Cart.t) : list Cart.t :=
  match values with
  | [] => []
  | i :: rest =>
      if menu_has ms (Cart.menuitem_id i) then i :: placed ms rest else []
  end.

(** The rows of [OrderItem] made from cart lines, for the order
    [order_id], with primary keys from [seq] on. *)
Fixpoint items_from (order_id seq : Z) (lines : list Cart.t)
    : list OrderItem.t :=
  match lines with
  | [] => []
  | c :: rest =>
      OrderItem.mk seq order_id (Cart.menuitem_id c) (Cart.quantity c)
      :: items_from order_id (seq + 1) rest
  end.

(** Primary keys come from the sequence: the keys in the table are
    below the next one. *)
Definition orderitem_keys_below (seq : Z) (ois : list OrderItem.t) : bool :=
  forallb (fun oi => OrderItem.id oi <? seq) ois.

Definition fresh_orderitem_seq (db : DB) : bool :=
  orderitem_keys_below (orderitem_seq db) (orderitems db).

(** The lines of everybody but [user]. *)
Definition other_lines (user : Z) (cs : list Cart.t) : list Cart.t :=
  filter (fun c => negb (Cart.user c =? user)) cs.

(** Every line names a menu item that is in the menu. *)
Definition menu_complete (ms : list MenuItem.t) (lines : list Cart.t) : bool :=
  forallb (fun c => menu_has ms (Cart.menuitem_id c)) lines.

(** The Pricing Calculator, in the words of the spec. *)
Definition LineTotal (quantity : Z) (unitPrice : Decimal) : Decimal :=
  quantity * unitPrice.

Definition CartTotal (lines : list Cart.t) : Decimal :=
  fold_right Z.add 0
    (map (fun l => LineTotal (Cart.quantity l) (Cart.unit_price l)) lines).

(** The stored price of every line is its quantity times its unit
    price: what [post] of [Customer_Cart] stores. *)
Definition lines_priced (lines : list Cart.t) : bool :=
  forallb (fun c =>
             Cart.price c =? LineTotal (Cart.quantity c) (Cart.unit_price c))
          lines.

(** The lines of a user for a menu item. *)
Definition lines_of_pair (user menuitem : Z) (cs : list Cart.t) : list Cart.t :=
  filter (same_line user menuitem) cs.

(** The invariant of the cart table. *)
Definition at_most_one_line (cs : list Cart.t) : Prop :=
  forall user menuitem, (length (lines_of_pair user menuitem cs) <= 1)%nat.

(** The same, as a check that runs. *)
Fixpoint one_line_per_pair (cs : list Cart.t) : bool :=
  match cs with
  | [] => true
  | c :: rest =>
      negb (existsb (same_line (Cart.user c) (Cart.menuitem_id c)) rest)
      && one_line_per_pair rest
  end.

(** The requests that write to the cart table. *)
Inductive CartRequest :=
| AddLine (u : User.t) (d : Customer_Cart.Data)
| RemoveLines (u : User.t) (d : Customer_Cart.Data)
| PlaceOrder (u : User.t) (today : Z).

Definition handle (db : DB) (r : CartRequest) : DB :=
  match r with
  | AddLine u d => exec (Customer_Cart.post u d) db
  | RemoveLines u d => exec (Customer_Cart.delete u d) db
  | PlaceOrder u today => exec (OrdersView.post u today) db
  end.


(** The price of a menu item once the price of item [id] is [p]. *)
Definition price_after (id : Z) (p : Decimal) (m : MenuItem.t) : Decimal :=
  if MenuItem.id m =? id then p else MenuItem.price m.


(** The items of the order [pk]. *)
Definition order_items (pk : Z) (db : DB) : list OrderItem.t :=
  filter (fun oi => OrderItem.order_id oi =? pk) (orderitems db).

(** No order item belongs to an order that is yet to be made. *)
Definition fresh_order_seq (db : DB) : bool :=
  forallb (fun oi => OrderItem.order_id oi <? order_seq db) (orderitems db).



(** * Further views and properties: vocabulary *)

(** No two rows of the cart table share a primary key. *)
Fixpoint distinct_cart_ids (cs : list Cart.t) : bool :=
  match cs with
  | [] => true
  | c :: rest =>
      negb (existsb (fun r => Cart.id r =? Cart.id c) rest)
      && distinct_cart_ids rest
  end.

(** The keys of the cart table are below the next key of its sequence. *)
Definition fresh_cart_seq (db : DB) : bool :=
  forallb (fun c => Cart.id c <? cart_seq db) (carts db).

(** The user a cart request comes from. *)
Definition request_user (r : CartRequest) : User.t :=
  match r with
  | AddLine u _ | RemoveLines u _ | PlaceOrder u _ => u
  end.

(** No two rows of the order table share a primary key. *)
Fixpoint distinct_order_ids (os : list Order.t) : bool :=
  match os with
  | [] => true
  | o :: rest =>
      negb (existsb (fun r => Order.id r =? Order.id o) rest)
      && distinct_order_ids rest
  end.

(** The row of the menu after [m'] is saved. *)
Definition featured_saved (m' : MenuItem.t) (r : MenuItem.t) : MenuItem.t :=
  if MenuItem.id r =? MenuItem.id m' then m' else r.

(** The row of a user after the user [user] has been added to the
    group [name]. *)
Definition granted (name : string) (user : User.t) (r : User.t) : User.t :=
  if User.id r =? User.id user then with_group name r else r.

(** The lookup of [get_object_or_404(User, username=...)]. *)
Definition find_username (name : string) (us : list User.t) : option User.t :=
  find (fun u => String.eqb (User.username u) name) us.

(** The outstanding token of primary key [x] is blacklisted. *)
Definition is_blacklisted (x : Z) (tdb : TokenDB) : bool :=
  existsb (fun b => BlacklistedToken.token_id b =? x) (blacklisted tdb).

(** A token store with three tokens of alice and one of bob, one of
    alice's blacklisted already. *)
Definition tokens0 : TokenDB :=
  mkTokenDB [OutstandingToken.mk 1 (Some 1); OutstandingToken.mk 2 (Some 2);
             OutstandingToken.mk 3 (Some 1); OutstandingToken.mk 4 (Some 1)]
            [BlacklistedToken.mk 1 3]
            2.


(** A cart line and the row of the cart list made from it: the row has
    the quantity and the stored price of the line, and the price that
    [price_of] gives its menu item. *)
Definition listed_with (price_of : MenuItem.t -> Decimal)
    (ms : list MenuItem.t) (line : Cart.t) (row : CartSerializer.t) : Prop :=
  exists m,
    find (fun m => MenuItem.id m =? Cart.menuitem_id line) ms = Some m /\
    CartSerializer.quantity row = Cart.quantity line /\
    CartSerializer.price row = Cart.price line /\
    CartSerializer.menuitem row
      = Some (MenuItem.id m, MenuItem.title m, price_of m).

(** Every primary key in the order table is below the next one of its
    sequence. *)
Definition fresh_order_keys (db : DB) : bool :=
  forallb (fun o => Order.id o <? order_seq db) (orders db).

(** No two rows of the order item table share a primary key. *)
Fixpoint distinct_orderitem_ids (ois : list OrderItem.t) : bool :=
  match ois with
  | [] => true
  | oi :: rest =>
      negb (existsb (fun r => OrderItem.id r =? OrderItem.id oi) rest)
      && distinct_orderitem_ids rest
  end.

(** The foreign key of the cart: every line names an item of the
    menu. *)
Definition carts_in_menu (db : DB) : bool :=
  menu_complete (menuitems db) (carts db).

(** The conditions on keys that the properties assume, in one: in each
    of the tables of cart lines, orders and order items the primary keys
    are distinct and below the next key of the sequence, no order item
    belongs to an order that is yet to be made, and every cart line names
    an item of the menu. *)
Definition keys_well_formed (db : DB) : bool :=
  fresh_cart_seq db && distinct_cart_ids (carts db)
  && fresh_order_keys db && distinct_order_ids (orders db)
  && fresh_orderitem_seq db && distinct_orderitem_ids (orderitems db)
  && fresh_order_seq db && carts_in_menu db.


(** * Properties *)

(** ** Lookups in the order table after a save *)

Lemma find_order_id (pk : Z) (os : list Order.t) (o : Order.t) :
  find_order pk os = Some o -> Order.id o = pk.
Proof.
  unfold find_order. intros H. apply find_some in H.
  destruct H as [_ H]. now apply Z.eqb_eq in H.
Qed.

Lemma find_order_saved_same (o o' : Order.t) (os : list Order.t) :
  find_order (Order.id o') os = Some o ->
  find_order (Order.id o') (saved o' os) = Some o'.
Proof.
  unfold find_order, saved. induction os as [|r os IH]; cbn; [discriminate|].
  destruct (Order.id r =? Order.id o') eqn:E; cbn.
  - rewrite Z.eqb_refl. reflexivity.
  - rewrite E. exact IH.
Qed.

Lemma find_order_saved (pk : Z) (o o' : Order.t) (os : list Order.t) :
  find_order pk os = Some o -> Order.id o' = pk ->
  find_order pk (saved o' os) = Some o'.
Proof.
  intros H Hid. subst pk. eapply find_order_saved_same. eassumption.
Qed.

Lemma find_order_saved_other (pk : Z) (o' : Order.t) (os : list Order.t) :
  pk <> Order.id o' ->
  find_order pk (saved o' os) = find_order pk os.
Proof.
  unfold find_order, saved. intros Hne.
  induction os as [|r os IH]; cbn; [reflexivity|].
  destruct (Order.id r =? Order.id o') eqn:E; cbn.
  - apply Z.eqb_eq in E.
    destruct (Order.id o' =? pk) eqn:E1; [apply Z.eqb_eq in E1; congruence|].
    destruct (Order.id r =? pk) eqn:E2; [apply Z.eqb_eq in E2; congruence|].
    exact IH.
  - destruct (Order.id r =? pk); [reflexivity|exact IH].
Qed.

(** What [patch] does to a store that holds the order. *)
Lemma patch_run (db : DB) (pk : Z) (o : Order.t) :
  find_order pk (orders db) = Some o ->
  let o' := SingleOrderView.set_status o (negb (Order.status o)) in
  SingleOrderView.patch pk db =
    (Returned (mkJsonResponse 200 (StatusChanged pk (negb (Order.status o)))),
     set_orders (saved o' (orders db)) (order_seq db) db).
Proof.
  intros H. pose proof (find_order_id _ _ _ H) as Hid.
  unfold SingleOrderView.patch, Order_objects_get, Order_save, bind, query,
    modify, ret. cbn.
  rewrite H. cbn. rewrite Hid. reflexivity.
Qed.

(** What [patch] does when the order is not there. *)
Lemma patch_missing (db : DB) (pk : Z) :
  find_order pk (orders db) = None ->
  SingleOrderView.patch pk db = (Raised DoesNotExist, db).
Proof.
  intros H.
  unfold SingleOrderView.patch, Order_objects_get, bind, query, raise. cbn.
  rewrite H. reflexivity.
Qed.

(** What [put] does: it returns only when the body names a user and
    the order is there, and then saves the order with that crew. *)
Lemma put_returns (db : DB) (pk : Z) (d : SingleOrderView.Data)
    (resp : JsonResponse) :
  result (SingleOrderView.put pk d) db = Returned resp ->
  exists o crew,
    find_order pk (orders db) = Some o /\
    SingleOrderView.delivery_crew d = Some (User.id crew) /\
    In crew (users db) /\
    SingleOrderView.put pk d db =
      (Returned (mkJsonResponse 201 (CrewAssigned (User.username crew) pk)),
       set_orders
         (saved (SingleOrderView.set_delivery_crew o (Some (User.id crew)))
                (orders db))
         (order_seq db) db).
Proof.
  unfold result, SingleOrderView.put, SingleOrderView.OrderPutSerializer_is_valid,
    get_Order_or_404, get_User_or_404, Order_objects_get, Order_save, data_item,
    try_except, bind, query, modify, ret, raise.
  destruct d as [[c|]]; cbn; [|discriminate].
  destruct (existsb (fun u => User.id u =? c) (users db)); cbn; [|discriminate].
  destruct (find_order pk (orders db)) as [o|] eqn:Ho; cbn; [|discriminate].
  destruct (find (fun u => User.id u =? c) (users db)) as [crew|] eqn:Hc; cbn;
    [|discriminate].
  intros _. apply find_some in Hc. destruct Hc as [Hin Hc].
  apply Z.eqb_eq in Hc. pose proof (find_order_id _ _ _ Ho) as Hid.
  exists o, crew. rewrite Hc, Hid. repeat split; assumption.
Qed.

(** ** C5: the toggle *)

(** C5.  For every order, [patch] (ToggleDeliveryStatus) flips the
    status whatever it is, there is no guard; applied twice in
    succession it brings the status back to what it was. *)
Theorem toggle_twice_restores_status (db : DB) (pk : Z) (o : Order.t) :
  find_order pk (orders db) = Some o ->
  let db1 := exec (SingleOrderView.patch pk) db in
  let db2 := exec (SingleOrderView.patch pk) db1 in
  result (SingleOrderView.patch pk) db =
    Returned (mkJsonResponse 200 (StatusChanged pk (negb (Order.status o)))) /\
  option_map Order.status (find_order pk (orders db1))
    = Some (negb (Order.status o)) /\
  result (SingleOrderView.patch pk) db1 =
    Returned (mkJsonResponse 200 (StatusChanged pk (Order.status o))) /\
  option_map Order.status (find_order pk (orders db2))
    = Some (Order.status o).
Proof.
  intros H db1 db2.
  pose proof (patch_run db pk o H) as R1. cbn zeta in R1.
  set (o1 := SingleOrderView.set_status o (negb (Order.status o))) in *.
  assert (Hid : Order.id o1 = pk) by (cbn; eapply find_order_id; eassumption).
  assert (H1 : find_order pk (orders db1) = Some o1).
  { unfold db1, exec. rewrite R1. cbn. rewrite <- Hid.
    eapply find_order_saved_same. rewrite Hid. eassumption. }
  pose proof (patch_run db1 pk o1 H1) as R2. cbn zeta in R2.
  assert (Hs : negb (Order.status o1) = Order.status o)
    by (cbn; apply negb_involutive).
  rewrite Hs in R2.
  set (o2 := SingleOrderView.set_status o1 (Order.status o)) in *.
  assert (Hid2 : Order.id o2 = pk) by (cbn; eapply find_order_id; eassumption).
  repeat split.
  - unfold result. rewrite R1. reflexivity.
  - rewrite H1. reflexivity.
  - unfold result. rewrite R2. reflexivity.
  - unfold db2, exec. rewrite R2. cbn [snd orders set_orders].
    rewrite <- Hid2 at 1.
    erewrite find_order_saved_same; [reflexivity|].
    rewrite Hid2. eassumption.
Qed.

Lemma toggle_twice_restores_status_witness :
  find_order 1 (orders db_order)
    = Some (Order.mk 1 1 None false 2200 20000) /\
  option_map Order.status
    (find_order 1 (orders (exec (SingleOrderView.patch 1) db_order)))
    = Some true /\
  option_map Order.status
    (find_order 1 (orders (exec (SingleOrderView.patch 1)
                             (exec (SingleOrderView.patch 1) db_order))))
    = Some false.
Proof.
  split; [reflexivity|].
  pose proof (toggle_twice_restores_status db_order 1
                (Order.mk 1 1 None false 2200 20000) eq_refl) as H.
  cbn zeta in H. destruct H as (_ & H1 & _ & H2).
  split; [exact H1 | exact H2].
Defined.

(** ** C10: what the two order mutations leave alone *)

(** C10.  A successful [patch] (ToggleDeliveryStatus) changes only the
    status of the order and a successful [put] (AssignDeliveryCrew) only
    its delivery crew: owner, total, date and the order's items stay as
    they are, and so does every other row of the store. *)
Theorem order_mutations_frame (db : DB) (pk : Z) :
  (forall o, find_order pk (orders db) = Some o ->
     exists o',
       find_order pk (orders (exec (SingleOrderView.patch pk) db)) = Some o' /\
       Order.status o' = negb (Order.status o) /\
       same_but_status o o' /\
       rest_untouched pk db (exec (SingleOrderView.patch pk) db)) /\
  (forall d resp,
     result (SingleOrderView.put pk d) db = Returned resp ->
     exists o o',
       find_order pk (orders db) = Some o /\
       find_order pk (orders (exec (SingleOrderView.put pk d) db)) = Some o' /\
       Order.delivery_crew o' = SingleOrderView.delivery_crew d /\
       same_but_delivery_crew o o' /\
       rest_untouched pk db (exec (SingleOrderView.put pk d) db)).
Proof.
  split.
  - intros o H. pose proof (patch_run db pk o H) as R. cbn zeta in R.
    pose proof (find_order_id _ _ _ H) as Hid.
    exists (SingleOrderView.set_status o (negb (Order.status o))).
    unfold exec. rewrite R. cbn [snd orders set_orders].
    split; [|split; [reflexivity|split]].
    + apply (find_order_saved pk o); [exact H|exact Hid].
    + repeat split.
    + repeat split. intros pk' Hne. apply find_order_saved_other.
      cbn. congruence.
  - intros d resp Hret.
    destruct (put_returns db pk d resp Hret) as (o & crew & Ho & Hd & _ & R).
    pose proof (find_order_id _ _ _ Ho) as Hid.
    exists o, (SingleOrderView.set_delivery_crew o (Some (User.id crew))).
    unfold exec. rewrite R. cbn [snd orders set_orders].
    split; [exact Ho|split; [|split; [|split]]].
    + apply (find_order_saved pk o); [exact Ho|exact Hid].
    + rewrite Hd. reflexivity.
    + repeat split.
    + repeat split. intros pk' Hne. apply find_order_saved_other.
      cbn. congruence.
Qed.

Lemma order_mutations_frame_witness :
  find_order 1 (orders db_order)
    = Some (Order.mk 1 1 None false 2200 20000) /\
  result (SingleOrderView.put 1 (SingleOrderView.mkData (Some 3))) db_order
    = Returned (mkJsonResponse 201 (CrewAssigned "carol" 1)) /\
  (exists o',
     find_order 1 (orders (exec (SingleOrderView.patch 1) db_order)) = Some o' /\
     Order.status o' = true /\
     same_but_status (Order.mk 1 1 None false 2200 20000) o' /\
     rest_untouched 1 db_order (exec (SingleOrderView.patch 1) db_order)) /\
  (exists o o',
     find_order 1 (orders db_order) = Some o /\
     find_order 1 (orders (exec (SingleOrderView.put 1
                                   (SingleOrderView.mkData (Some 3)))
                                db_order)) = Some o' /\
     Order.delivery_crew o' = Some 3 /\
     same_but_delivery_crew o o' /\
     rest_untouched 1 db_order
       (exec (SingleOrderView.put 1 (SingleOrderView.mkData (Some 3)))
             db_order)).
Proof.
  split; [reflexivity|]. split; [reflexivity|].
  destruct (order_mutations_frame db_order 1) as [Hpatch Hput].
  split.
  - exact (Hpatch (Order.mk 1 1 None false 2200 20000) eq_refl).
  - exact (Hput (SingleOrderView.mkData (Some 3))
                (mkJsonResponse 201 (CrewAssigned "carol" 1)) eq_refl).
Defined.

(** ** C7: which orders a user lists *)

Lemma in_filter_iff {A} (f : A -> bool) (P : A -> Prop) (l : list A) :
  (forall a, f a = true <-> P a) ->
  forall a, In a (filter f l) <-> In a l /\ P a.
Proof.
  intros Hf a. rewrite filter_In, Hf. reflexivity.
Qed.

(** C7.  [get_queryset] of [OrdersView] (ListOrders) reads the store
    and leaves it as it is.  A user in the Manager group, or a superuser,
    gets all orders; otherwise a user in the Delivery Crew group gets
    exactly the orders whose delivery crew is that user; every other user
    gets exactly the orders whose owner is that user. *)
Theorem list_orders_role_scoping (u : User.t) (db : DB) :
  exec (OrdersView.get_queryset u) db = db /\
  (is_manager u = true \/ User.is_superuser u = true ->
   result (OrdersView.get_queryset u) db = Returned (orders db)) /\
  (is_manager u = false -> User.is_superuser u = false ->
   is_delivery_crew u = true ->
   exists l, result (OrdersView.get_queryset u) db = Returned l /\
     forall o, In o l <->
       In o (orders db) /\ Order.delivery_crew o = Some (User.id u)) /\
  (is_manager u = false -> User.is_superuser u = false ->
   is_delivery_crew u = false ->
   exists l, result (OrdersView.get_queryset u) db = Returned l /\
     forall o, In o l <-> In o (orders db) /\ Order.user o = User.id u).
Proof.
  unfold OrdersView.get_queryset, is_manager, is_delivery_crew, exec, result.
  destruct (in_group "Manager" u) eqn:Em;
    destruct (User.is_superuser u) eqn:Es;
    destruct (in_group "Delivery Crew" u) eqn:Ed; cbn;
    (split; [reflexivity|]);
    (split; [intros [H|H]; (reflexivity || discriminate)|]);
    (split; intros H1 H2 H3; try discriminate).
  - eexists; split; [reflexivity|]. apply in_filter_iff. intros o.
    destruct (Order.delivery_crew o) as [c|].
    + rewrite Z.eqb_eq. split; congruence.
    + split; discriminate.
  - eexists; split; [reflexivity|]. apply in_filter_iff. intros o.
    apply Z.eqb_eq.
Qed.

Lemma list_orders_role_scoping_witness :
  result (OrdersView.get_queryset mallory) db_assigned
    = Returned (orders db_assigned) /\
  result (OrdersView.get_queryset root) db_assigned
    = Returned (orders db_assigned) /\
  (exists l, result (OrdersView.get_queryset carol) db_assigned = Returned l /\
     forall o, In o l <->
       In o (orders db_assigned) /\ Order.delivery_crew o = Some 3) /\
  (exists l, result (OrdersView.get_queryset bob) db_assigned = Returned l /\
     forall o, In o l <-> In o (orders db_assigned) /\ Order.user o = 2).
Proof.
  split; [|split; [|split]].
  - apply (list_orders_role_scoping mallory db_assigned). left; reflexivity.
  - apply (list_orders_role_scoping root db_assigned). right; reflexivity.
  - apply (list_orders_role_scoping carol db_assigned); reflexivity.
  - apply (list_orders_role_scoping bob db_assigned); reflexivity.
Defined.

(** ** C9: clearing the cart *)

Lemma user_lines_others (user : Z) (cs : list Cart.t) :
  user_lines user (filter (fun c => negb (Cart.user c =? user)) cs) = [].
Proof.
  unfold user_lines. induction cs as [|c cs IH]; cbn; [reflexivity|].
  destruct (Cart.user c =? user) eqn:E; cbn; [exact IH|].
  rewrite E. exact IH.
Qed.

Lemma filter_others_idem (user : Z) (cs : list Cart.t) :
  filter (fun c => negb (Cart.user c =? user))
         (filter (fun c => negb (Cart.user c =? user)) cs)
  = filter (fun c => negb (Cart.user c =? user)) cs.
Proof.
  induction cs as [|c cs IH]; cbn; [reflexivity|].
  destruct (Cart.user c =? user) eqn:E; cbn; [exact IH|].
  rewrite E. cbn. now rewrite IH.
Qed.

(** C9.  [delete] of [Customer_Cart] on a body without the key
    ['menuitem'] (ClearCart) answers 201 whatever the cart holds, removes
    every line of the user and no line of anybody else; a second call
    answers 201 again and finds nothing left to remove. *)
Theorem clear_cart_idempotent (db : DB) (u : User.t) (q : option Z) :
  let clear := Customer_Cart.delete u (Customer_Cart.mkData None q) in
  let db1 := exec clear db in
  result clear db = Returned (mkJsonResponse 201 AllItemsRemovedFromCart) /\
  user_lines (User.id u) (carts db1) = [] /\
  carts db1 = filter (fun c => negb (Cart.user c =? User.id u)) (carts db) /\
  result clear db1 = Returned (mkJsonResponse 201 AllItemsRemovedFromCart) /\
  user_lines (User.id u) (carts (exec clear db1)) = [] /\
  carts (exec clear db1) = carts db1.
Proof.
  cbn. repeat split.
  - apply user_lines_others.
  - rewrite filter_others_idem. apply user_lines_others.
  - apply filter_others_idem.
Qed.

(** ** C3: who may read the detail of an order *)

Lemma initial_run (db : DB) (method : Method) (r : Requester) (pk : Z)
    (o : Order.t) :
  find_order pk (orders db) = Some o ->
  SingleOrderView.initial method r pk db =
    check_permissions
      (if is_owner r o && Method_eqb method GET
       then [IsAuthenticated]
       else if Method_eqb method PUT || Method_eqb method DELETE
       then [IsAuthenticated; OR IsManager IsAdminUser]
       else [IsAuthenticated; OR (OR IsDeliveryCrew IsManager) IsAdminUser])
      r db.
Proof.
  intros H.
  unfold SingleOrderView.initial, SingleOrderView.get_permissions,
    Order_objects_get, bind, query, ret. cbn.
  rewrite H.
  destruct (is_owner r o && Method_eqb method GET); [reflexivity|].
  destruct (Method_eqb method PUT || Method_eqb method DELETE); reflexivity.
Qed.

(** C3, as the code has it.  On GetOrderDetail of an order that is
    there, a customer who is not the owner of the order is refused with
    403 and the store is left as it is; a user of the Delivery Crew group
    passes the permission check of every order, assigned to that user or
    not, and is answered with the detail. *)
Theorem order_detail_access (db : DB) (pk : Z) (o : Order.t) :
  find_order pk (orders db) = Some o ->
  (forall u, is_customer u = true -> User.id u <> Order.user o ->
     SingleOrderView.GetOrderDetail (Authenticated u) pk db
       = (Raised PermissionDenied, db)) /\
  (forall u, is_delivery_crew u = true ->
     result (SingleOrderView.initial GET (Authenticated u) pk) db
       = Returned tt /\
     SingleOrderView.GetOrderDetail (Authenticated u) pk db
       = SingleOrderView.get pk db).
Proof.
  intros H. split.
  - intros u Hc Hne.
    unfold SingleOrderView.GetOrderDetail, bind.
    rewrite (initial_run db GET _ pk o H).
    assert (Ho : is_owner (Authenticated u) o = false)
      by (cbn; now apply Z.eqb_neq).
    rewrite Ho. cbn.
    unfold is_customer in Hc. apply negb_true_iff in Hc.
    repeat (apply orb_false_iff in Hc; destruct Hc as [Hc ?]).
    unfold check_permissions. cbn.
    replace (is_delivery_crew u) with false by congruence.
    replace (is_manager u) with false by congruence.
    replace (User.is_staff u) with false by congruence.
    reflexivity.
  - intros u Hd.
    assert (R : SingleOrderView.initial GET (Authenticated u) pk db
                = (Returned tt, db)).
    { rewrite (initial_run db GET _ pk o H).
      unfold check_permissions.
      destruct (is_owner (Authenticated u) o); cbn; [reflexivity|].
      rewrite Hd. reflexivity. }
    split.
    + unfold result. rewrite R. reflexivity.
    + unfold SingleOrderView.GetOrderDetail, bind. rewrite R. reflexivity.
Qed.

Lemma order_detail_access_witness :
  find_order 1 (orders db_assigned)
    = Some (Order.mk 1 1 (Some 3) false 2200 20000) /\
  SingleOrderView.GetOrderDetail (Authenticated bob) 1 db_assigned
    = (Raised PermissionDenied, db_assigned) /\
  SingleOrderView.GetOrderDetail (Authenticated dave) 1 db_assigned
    = SingleOrderView.get 1 db_assigned.
Proof.
  split; [reflexivity|].
  destruct (order_detail_access db_assigned 1
              (Order.mk 1 1 (Some 3) false 2200 20000) eq_refl) as [Hc Hd].
  split.
  - apply (Hc bob); [reflexivity|discriminate].
  - apply (Hd dave). reflexivity.
Defined.

(** C3, as the spec has it, fails for the delivery crew: dave is in the
    Delivery Crew group, order 1 is assigned to carol and owned by alice,
    and dave is answered with its detail, not with 403. *)
Lemma unassigned_crew_reads_detail :
  is_delivery_crew dave = true /\
  option_map Order.delivery_crew (find_order 1 (orders db_assigned))
    = Some (Some (User.id carol)) /\
  option_map Order.user (find_order 1 (orders db_assigned))
    = Some (User.id alice) /\
  User.id dave <> User.id carol /\
  result (SingleOrderView.GetOrderDetail (Authenticated dave) 1) db_assigned
    = Returned [SingleOrderSerializer.mk 2 ("Item A", 950) 950 1900 "Item A";
                SingleOrderSerializer.mk 1 ("Item B", 300) 300 300 "Item B"] /\
  result (SingleOrderView.GetOrderDetail (Authenticated dave) 1) db_assigned
    <> Raised PermissionDenied.
Proof.
  split; [reflexivity|]. split; [reflexivity|]. split; [reflexivity|].
  split; [intros H; vm_compute in H; discriminate|].
  split; [reflexivity|].
  intros H; vm_compute in H; discriminate.
Qed.

(** ** Placing an order: what [post] of [OrdersView] does to the store *)

Lemma find_menu_has (ms : list MenuItem.t) (id : Z) :
  match find (fun m => MenuItem.id m =? id) ms with
  | Some m => menu_has ms id = true /\ MenuItem.id m = id
  | None => menu_has ms id = false
  end.
Proof.
  unfold menu_has. induction ms as [|m ms IH]; cbn; [reflexivity|].
  destruct (MenuItem.id m =? id) eqn:E; cbn.
  - split; [reflexivity|now apply Z.eqb_eq].
  - exact IH.
Qed.

Lemma save_fresh_item (oi : OrderItem.t) (ois : list OrderItem.t) :
  orderitem_keys_below (OrderItem.id oi) ois = true ->
  map (fun r => if OrderItem.id r =? OrderItem.id oi then oi else r)
      (ois ++ [oi])
  = ois ++ [oi].
Proof.
  unfold orderitem_keys_below. intros H. rewrite map_app. cbn.
  rewrite Z.eqb_refl. f_equal.
  induction ois as [|r ois IH]; cbn in *; [reflexivity|].
  apply andb_true_iff in H. destruct H as [Hr H].
  apply Z.ltb_lt in Hr.
  destruct (OrderItem.id r =? OrderItem.id oi) eqn:E;
    [apply Z.eqb_eq in E; lia|].
  now rewrite IH.
Qed.

Lemma keys_below_snoc (seq : Z) (oi : OrderItem.t) (ois : list OrderItem.t) :
  orderitem_keys_below seq ois = true -> OrderItem.id oi = seq ->
  orderitem_keys_below (seq + 1) (ois ++ [oi]) = true.
Proof.
  unfold orderitem_keys_below. intros H Hid. rewrite forallb_app. cbn.
  rewrite andb_true_r. apply andb_true_iff. split.
  - rewrite forallb_forall in *. intros x Hx. specialize (H x Hx).
    apply Z.ltb_lt in H. apply Z.ltb_lt. lia.
  - apply Z.ltb_lt. lia.
Qed.

Lemma set_orderitems_same (db : DB) :
  set_orderitems (orderitems db ++ []) (orderitem_seq db + 0) db = db.
Proof.
  destruct db. unfold set_orderitems. cbn.
  now rewrite app_nil_r, Z.add_0_r.
Qed.

(** The loop of [post]: it makes an item for every line it gets
    through, and raises 404 at the first line it cannot get through. *)
Lemma create_items_run (order : Order.t) (values : list Cart.t) (db : DB) :
  fresh_orderitem_seq db = true ->
  let done := placed (menuitems db) values in
  OrdersView.create_items order values db =
    (if (length done =? length values)%nat
     then Returned tt else Raised Http404,
     set_orderitems
       (orderitems db ++ items_from (Order.id order) (orderitem_seq db) done)
       (orderitem_seq db + Z.of_nat (length done)) db).
Proof.
  revert db. induction values as [|i rest IH]; intros db Hf; cbn zeta.
  - cbn. unfold ret. now rewrite set_orderitems_same.
  - cbn [OrdersView.create_items placed].
    unfold bind at 1. unfold get_MenuItem_or_404 at 1.
    unfold bind at 1. unfold query at 1.
    pose proof (find_menu_has (menuitems db) (Cart.menuitem_id i)) as Hm.
    destruct (find _ (menuitems db)) as [m|].
    + destruct Hm as [Hm Hid]. rewrite Hm. unfold ret at 1.
      unfold bind at 1. unfold OrderItem_objects_create.
      unfold bind at 1. unfold query at 1. unfold bind at 1.
      unfold modify at 1. unfold ret at 1.
      unfold bind at 1. unfold OrderItem_save. unfold modify at 1.
      cbn [orderitems set_orderitems orderitem_seq OrderItem.id].
      rewrite Hid.
      set (oi := OrderItem.mk (orderitem_seq db) (Order.id order)
                   (Cart.menuitem_id i) (Cart.quantity i)).
      pose proof (save_fresh_item oi (orderitems db) Hf) as Hs.
      change (OrderItem.id oi) with (orderitem_seq db) in Hs. rewrite Hs.
      match goal with |- OrdersView.create_items _ _ ?d = _ => set (db1 := d) end.
      assert (Hf1 : fresh_orderitem_seq db1 = true).
      { unfold fresh_orderitem_seq, db1. cbn.
        apply keys_below_snoc; [exact Hf|reflexivity]. }
      rewrite (IH db1 Hf1). cbn zeta.
      replace (menuitems db1) with (menuitems db) by reflexivity.
      cbn [length Nat.eqb items_from]. f_equal.
      unfold db1, set_orderitems. cbn. rewrite <- app_assoc. cbn.
      f_equal. lia.
    + rewrite Hm. unfold raise. cbn [length Nat.eqb items_from].
      now rewrite set_orderitems_same.
Qed.

Lemma Order_objects_create_run (db : DB) (user : Z) (status : bool)
    (total : Decimal) (date : Z) :
  Order_objects_create user status total date db =
    if fits_decimal total
    then (Returned (Order.mk (order_seq db) user None status total date),
          set_orders
            (orders db ++ [Order.mk (order_seq db) user None status total date])
            (order_seq db + 1) db)
    else (Raised InvalidOperation, db).
Proof.
  unfold Order_objects_create. destruct (fits_decimal total); reflexivity.
Qed.

(** [post], start to end: a total that does not fit its column ends
    it before anything is written; else the order is made first, and the
    cart is cleared only when the loop came through. *)
Lemma post_run (db : DB) (u : User.t) (today : Z) :
  fresh_orderitem_seq db = true ->
  let lines := user_lines (User.id u) (carts db) in
  let o := Order.mk (order_seq db) (User.id u) None false
                    (OrdersView.calculate_total lines) today in
  let done := placed (menuitems db) lines in
  let items :=
    orderitems db ++ items_from (order_seq db) (orderitem_seq db) done in
  let seq := orderitem_seq db + Z.of_nat (length done) in
  OrdersView.post u today db =
    if fits_decimal (OrdersView.calculate_total lines)
    then
      if (length done =? length lines)%nat
      then (Returned (mkJsonResponse 201 (OrderPlaced (order_seq db))),
            mkDB (users db) (menuitems db) (other_lines (User.id u) (carts db))
                 (orders db ++ [o]) items (cart_seq db) (order_seq db + 1) seq)
      else (Raised Http404,
            mkDB (users db) (menuitems db) (carts db)
                 (orders db ++ [o]) items (cart_seq db) (order_seq db + 1) seq)
    else (Raised InvalidOperation, db).
Proof.
  intros Hf. cbn zeta.
  unfold OrdersView.post, Cart_objects_filter, Cart_objects_filter_delete.
  unfold bind at 1. unfold query at 1.
  unfold bind at 1. rewrite Order_objects_create_run.
  destruct (fits_decimal _); [|reflexivity].
  unfold bind at 1. unfold query at 1.
  unfold bind at 1.
  match goal with
  | |- context [OrdersView.create_items ?o ?v ?d] =>
      set (order := o); set (db1 := d)
  end.
  assert (Hf1 : fresh_orderitem_seq db1 = true) by exact Hf.
  replace (carts db1) with (carts db) by reflexivity.
  rewrite (create_items_run order _ db1 Hf1). cbn zeta.
  replace (menuitems db1) with (menuitems db) by reflexivity.
  destruct (length _ =? length _)%nat; reflexivity.
Qed.

Lemma placed_complete (ms : list MenuItem.t) (lines : list Cart.t) :
  menu_complete ms lines = true -> placed ms lines = lines.
Proof.
  induction lines as [|c lines IH]; cbn; [reflexivity|].
  intros H. apply andb_true_iff in H. destruct H as [Hc H].
  rewrite Hc. now rewrite IH.
Qed.

(** The loop stops short exactly at a line whose menu item is gone. *)
Lemma placed_short (ms : list MenuItem.t) (lines : list Cart.t) :
  if (length (placed ms lines) =? length lines)%nat
  then placed ms lines = lines
  else exists i rest,
         lines = placed ms lines ++ i :: rest /\
         menu_has ms (Cart.menuitem_id i) = false.
Proof.
  induction lines as [|c lines IH]; cbn; [reflexivity|].
  destruct (menu_has ms (Cart.menuitem_id c)) eqn:Hc; cbn.
  - destruct (length (placed ms lines) =? length lines)%nat.
    + now rewrite IH.
    + destruct IH as (i & rest & Hl & Hi). exists i, rest.
      split; [now rewrite <- Hl|exact Hi].
  - exists c, lines. split; [reflexivity|exact Hc].
Qed.

Lemma placed_all (ms : list MenuItem.t) (lines : list Cart.t) :
  placed ms lines = lines -> menu_complete ms lines = true.
Proof.
  induction lines as [|c lines IH]; cbn; [reflexivity|].
  destruct (menu_has ms (Cart.menuitem_id c)); [|discriminate].
  intros H. injection H as H. now apply IH.
Qed.

(** When [post] returns, the total fitted its column, every line of
    the cart named an item of the menu, and the store is the one with the
    order, its items, and the cart of the user cleared. *)
Lemma post_returned (db : DB) (u : User.t) (today : Z) (r : JsonResponse) :
  fresh_orderitem_seq db = true ->
  result (OrdersView.post u today) db = Returned r ->
  let lines := user_lines (User.id u) (carts db) in
  fits_decimal (OrdersView.calculate_total lines) = true /\
  menu_complete (menuitems db) lines = true /\
  OrdersView.post u today db =
    (Returned (mkJsonResponse 201 (OrderPlaced (order_seq db))),
     mkDB (users db) (menuitems db) (other_lines (User.id u) (carts db))
          (orders db
             ++ [Order.mk (order_seq db) (User.id u) None false
                          (OrdersView.calculate_total lines) today])
          (orderitems db
             ++ items_from (order_seq db) (orderitem_seq db) lines)
          (cart_seq db) (order_seq db + 1)
          (orderitem_seq db + Z.of_nat (length lines))).
Proof.
  intros Hf Hr. cbn zeta.
  pose proof (post_run db u today Hf) as R. cbn zeta in R.
  pose proof (placed_short (menuitems db)
                (user_lines (User.id u) (carts db))) as Hp.
  unfold result in Hr. rewrite R in Hr.
  destruct (fits_decimal _); [|discriminate].
  destruct (length _ =? length _)%nat; [|discriminate].
  rewrite Hp in R.
  split; [reflexivity|]. split; [now apply placed_all|]. exact R.
Qed.

Lemma length_items_from (order_id seq : Z) (lines : list Cart.t) :
  length (items_from order_id seq lines) = length lines.
Proof.
  revert seq. induction lines as [|c lines IH]; intros seq; cbn;
    [reflexivity|].
  now rewrite IH.
Qed.

Lemma other_lines_none (user : Z) (cs : list Cart.t) :
  user_lines user cs = [] -> other_lines user cs = cs.
Proof.
  unfold user_lines, other_lines.
  induction cs as [|c cs IH]; cbn; [reflexivity|].
  destruct (Cart.user c =? user); cbn; [discriminate|].
  intros H. now rewrite IH.
Qed.

Lemma keys_below_mono (seq seq' : Z) (ois : list OrderItem.t) :
  seq <= seq' -> orderitem_keys_below seq ois = true ->
  orderitem_keys_below seq' ois = true.
Proof.
  unfold orderitem_keys_below. intros Hle H.
  rewrite forallb_forall in *. intros oi Hoi. specialize (H oi Hoi).
  apply Z.ltb_lt in H. apply Z.ltb_lt. lia.
Qed.

Lemma keys_below_items_from (order_id seq : Z) (lines : list Cart.t) :
  orderitem_keys_below (seq + Z.of_nat (length lines))
                       (items_from order_id seq lines) = true.
Proof.
  revert seq. induction lines as [|c lines IH]; intros seq; [reflexivity|].
  cbn [items_from length]. unfold orderitem_keys_below. cbn [forallb].
  apply andb_true_iff. split.
  - cbn [OrderItem.id]. apply Z.ltb_lt. lia.
  - replace (seq + Z.of_nat (S (length lines)))
      with (seq + 1 + Z.of_nat (length lines)) by lia.
    apply IH.
Qed.

Lemma order_ids_items_from (order_id seq bound : Z) (lines : list Cart.t) :
  order_id < bound ->
  forallb (fun oi => OrderItem.order_id oi <? bound)
          (items_from order_id seq lines) = true.
Proof.
  intros Hlt. revert seq. induction lines as [|c lines IH]; intros seq;
    [reflexivity|].
  cbn. rewrite IH. apply andb_true_iff. split; [|reflexivity].
  now apply Z.ltb_lt.
Qed.

(** The two conditions on the sequences hold in a store without order
    items, and [post] keeps them, whether it returns or raises. *)
Lemma post_keeps_sequences (db : DB) (u : User.t) (today : Z) :
  fresh_orderitem_seq db = true -> fresh_order_seq db = true ->
  fresh_orderitem_seq (exec (OrdersView.post u today) db) = true /\
  fresh_order_seq (exec (OrdersView.post u today) db) = true.
Proof.
  intros Hf Ho.
  pose proof (post_run db u today Hf) as R. cbn zeta in R.
  set (done := placed (menuitems db) (user_lines (User.id u) (carts db))) in *.
  assert (H1 : orderitem_keys_below
                 (orderitem_seq db + Z.of_nat (length done))
                 (orderitems db
                    ++ items_from (order_seq db) (orderitem_seq db) done)
               = true).
  { unfold orderitem_keys_below. rewrite forallb_app.
    apply andb_true_iff. split.
    - apply (keys_below_mono (orderitem_seq db)); [lia|exact Hf].
    - apply keys_below_items_from. }
  assert (H2 : forallb (fun oi => OrderItem.order_id oi <? order_seq db + 1)
                 (orderitems db
                    ++ items_from (order_seq db) (orderitem_seq db) done)
               = true).
  { rewrite forallb_app. apply andb_true_iff. split.
    - unfold fresh_order_seq in Ho. rewrite forallb_forall in *.
      intros oi Hoi. specialize (Ho oi Hoi). apply Z.ltb_lt in Ho.
      apply Z.ltb_lt. lia.
    - apply order_ids_items_from. lia. }
  unfold exec. rewrite R.
  destruct (fits_decimal _); [|split; assumption].
  destruct (length done =? length _)%nat; split; assumption.
Qed.

Lemma post_empty_run (db : DB) (u : User.t) (today : Z) :
  user_lines (User.id u) (carts db) = [] ->
  OrdersView.post u today db =
    (Returned (mkJsonResponse 201 (OrderPlaced (order_seq db))),
     mkDB (users db) (menuitems db) (carts db)
          (orders db
             ++ [Order.mk (order_seq db) (User.id u) None false 0 today])
          (orderitems db) (cart_seq db) (order_seq db + 1)
          (orderitem_seq db)).
Proof.
  intros He. pose proof (other_lines_none _ _ He) as Ho.
  unfold OrdersView.post, Cart_objects_filter, Cart_objects_filter_delete.
  unfold bind at 1, query at 1. rewrite He.
  unfold bind at 1. rewrite Order_objects_create_run.
  change (fits_decimal (OrdersView.calculate_total [])) with true.
  cbv iota.
  unfold bind at 1, query at 1. cbn [carts set_orders]. rewrite He.
  unfold bind, modify, ret. cbn. unfold other_lines in Ho. rewrite Ho.
  reflexivity.
Qed.

(** ** C6: placing an order from an empty cart *)

(** C6, as the code has it.  [post] has no guard on the cart: for a
    user whose cart is empty it answers 201 with the number of a new
    order, and the store gains that order, with total 0, and no item;
    the carts stay as they are. *)
Theorem place_order_empty_cart (db : DB) (u : User.t) (today : Z) :
  user_lines (User.id u) (carts db) = [] ->
  let db' := exec (OrdersView.post u today) db in
  result (OrdersView.post u today) db
    = Returned (mkJsonResponse 201 (OrderPlaced (order_seq db))) /\
  orders db' = orders db
                 ++ [Order.mk (order_seq db) (User.id u) None false 0 today] /\
  orderitems db' = orderitems db /\
  carts db' = carts db.
Proof.
  intros He. cbn zeta. unfold exec, result.
  rewrite (post_empty_run db u today He). repeat split.
Qed.

Lemma place_order_empty_cart_witness :
  user_lines (User.id bob) (carts db_cart) = [] /\
  result (OrdersView.post bob 20000) db_cart
    = Returned (mkJsonResponse 201 (OrderPlaced 1)) /\
  orders (exec (OrdersView.post bob 20000) db_cart)
    = [Order.mk 1 2 None false 0 20000] /\
  orderitems (exec (OrdersView.post bob 20000) db_cart) = [] /\
  carts (exec (OrdersView.post bob 20000) db_cart) = carts db_cart.
Proof.
  split; [reflexivity|].
  exact (place_order_empty_cart db_cart bob 20000 eq_refl).
Defined.

(** C6, as the spec has it, fails: bob's cart is empty, and [post]
    neither raises a validation error nor leaves the order table as it
    was. *)
Lemma empty_cart_order_is_placed :
  user_lines (User.id bob) (carts db0) = [] /\
  result (OrdersView.post bob 20000) db0
    = Returned (mkJsonResponse 201 (OrderPlaced 1)) /\
  result (OrdersView.post bob 20000) db0 <> Raised ValidationError /\
  orders db0 = [] /\
  orders (exec (OrdersView.post bob 20000) db0)
    = [Order.mk 1 2 None false 0 20000].
Proof.
  split; [reflexivity|]. split; [reflexivity|].
  split; [intros H; vm_compute in H; discriminate|].
  split; reflexivity.
Qed.

(** ** C4: the total of a placed order *)

Lemma calculate_total_from (lines : list Cart.t) (a : Decimal) :
  lines_priced lines = true ->
  fold_left (fun total item => total + Cart.price item) lines a
  = a + CartTotal lines.
Proof.
  revert a. induction lines as [|c lines IH]; intros a H; cbn in *; [lia|].
  apply andb_true_iff in H. destruct H as [Hc H]. apply Z.eqb_eq in Hc.
  rewrite IH by exact H. unfold CartTotal. lia.
Qed.

Lemma calculate_total_CartTotal (lines : list Cart.t) :
  lines_priced lines = true ->
  OrdersView.calculate_total lines = CartTotal lines.
Proof.
  intros H. unfold OrdersView.calculate_total.
  now rewrite calculate_total_from.
Qed.

Lemma post_overflow_run (db : DB) (u : User.t) (today : Z) :
  fits_decimal
    (OrdersView.calculate_total (user_lines (User.id u) (carts db))) = false ->
  OrdersView.post u today db = (Raised InvalidOperation, db).
Proof.
  intros H. unfold OrdersView.post, Cart_objects_filter.
  unfold bind at 1, query at 1.
  unfold bind at 1. rewrite Order_objects_create_run, H. reflexivity.
Qed.

(** C4, as the code has it.  When every line of the user's cart names
    an item of the menu and the sum over the lines of quantity times unit
    price fits the digits of the total, [post] (PlaceOrder) answers 201
    and appends one order whose total is that sum, appends one item per
    line, and leaves the user's cart empty.  In particular the cart of
    two A at 9.50 and one B at 3.00 gives an order of 22.00 with two
    items and an empty cart.  When the sum does not fit, [post] raises
    and leaves the store as it is: no order is made. *)
Theorem place_order_total :
  (forall (db : DB) (u : User.t) (today : Z),
     fresh_orderitem_seq db = true ->
     lines_priced (user_lines (User.id u) (carts db)) = true ->
     menu_complete (menuitems db) (user_lines (User.id u) (carts db)) = true ->
     fits_decimal (CartTotal (user_lines (User.id u) (carts db))) = true ->
     let lines := user_lines (User.id u) (carts db) in
     let db' := exec (OrdersView.post u today) db in
     result (OrdersView.post u today) db
       = Returned (mkJsonResponse 201 (OrderPlaced (order_seq db))) /\
     orders db' = orders db
                    ++ [Order.mk (order_seq db) (User.id u) None false
                                 (CartTotal lines) today] /\
     orderitems db' = orderitems db
                        ++ items_from (order_seq db) (orderitem_seq db) lines /\
     length (items_from (order_seq db) (orderitem_seq db) lines)
       = length lines /\
     user_lines (User.id u) (carts db') = []) /\
  (user_lines (User.id alice) (carts db_cart)
     = [Cart.mk 1 1 1 2 950 1900; Cart.mk 2 1 2 1 300 300] /\
   result (OrdersView.post alice 20000) db_cart
     = Returned (mkJsonResponse 201 (OrderPlaced 1)) /\
   orders db_order = [Order.mk 1 1 None false 2200 20000] /\
   orderitems db_order = [OrderItem.mk 1 1 1 2; OrderItem.mk 2 1 2 1] /\
   carts db_order = []) /\
  (forall (db : DB) (u : User.t) (today : Z),
     lines_priced (user_lines (User.id u) (carts db)) = true ->
     fits_decimal (CartTotal (user_lines (User.id u) (carts db))) = false ->
     OrdersView.post u today db = (Raised InvalidOperation, db)).
Proof.
  split; [|split; [repeat split|]].
  - intros db u today Hf Hp Hm Hfit. cbn zeta.
    pose proof (post_run db u today Hf) as R. cbn zeta in R.
    rewrite (placed_complete _ _ Hm) in R. rewrite Nat.eqb_refl in R.
    rewrite (calculate_total_CartTotal _ Hp) in R. rewrite Hfit in R.
    unfold exec, result. rewrite R. cbn [fst snd orders orderitems carts].
    repeat split.
    + apply length_items_from.
    + apply user_lines_others.
  - intros db u today Hp Hfit. apply post_overflow_run.
    now rewrite (calculate_total_CartTotal _ Hp).
Qed.

Lemma place_order_total_witness :
  fresh_orderitem_seq db_cart = true /\
  lines_priced (user_lines (User.id alice) (carts db_cart)) = true /\
  menu_complete (menuitems db_cart)
    (user_lines (User.id alice) (carts db_cart)) = true /\
  fits_decimal (CartTotal (user_lines (User.id alice) (carts db_cart))) = true /\
  orders (exec (OrdersView.post alice 20000) db_cart)
    = orders db_cart
        ++ [Order.mk (order_seq db_cart) (User.id alice) None false
              (CartTotal (user_lines (User.id alice) (carts db_cart))) 20000] /\
  user_lines (User.id alice) (carts (exec (OrdersView.post alice 20000) db_cart))
    = [].
Proof.
  split; [reflexivity|]. split; [reflexivity|]. split; [reflexivity|].
  split; [reflexivity|].
  destruct (proj1 place_order_total db_cart alice 20000
              eq_refl eq_refl eq_refl eq_refl) as (_ & Ho & _ & _ & Hc).
  split; [exact Ho|exact Hc].
Defined.

(** C4, as the spec has it, fails: alice has put a thousand of item A
    and a thousand of item B in her cart, 9500.00 and 3000.00, each of
    which fits; the sum, 12500.00, does not fit the total of an order,
    and [post] raises and makes no order. *)
Lemma bulk_order_not_placed :
  user_lines (User.id alice) (carts db_bulk)
    = [Cart.mk 1 1 1 1000 950 950000; Cart.mk 2 1 2 1000 300 300000] /\
  CartTotal (user_lines (User.id alice) (carts db_bulk)) = 1250000 /\
  result (OrdersView.post alice 20000) db_bulk = Raised InvalidOperation /\
  orders (exec (OrdersView.post alice 20000) db_bulk) = [] /\
  exec (OrdersView.post alice 20000) db_bulk = db_bulk.
Proof.
  repeat split.
Qed.

(** ** The cart: what [post] of [Customer_Cart] does to the store *)

Lemma cart_post_run (db : DB) (u : User.t) (d : Customer_Cart.Data) :
  Customer_Cart.post u d db =
    match Customer_Cart.menuitem d, Customer_Cart.quantity d with
    | Some id, Some q =>
        match find (fun m => MenuItem.id m =? id) (menuitems db) with
        | Some item =>
            if Customer_Cart.quantity_int d then
              if fits_decimal (MenuItem.price item)
                 && fits_decimal (q * MenuItem.price item)
              then
                if Cart_unique_together (carts db) (User.id u) id
                then (Returned (mkJsonResponse 201 ItemAddedToCart),
                      set_carts
                        (carts db
                           ++ [Cart.mk (cart_seq db) (User.id u) id q
                                 (MenuItem.price item)
                                 (q * MenuItem.price item)])
                        (cart_seq db + 1) db)
                else (Returned
                        (mkJsonResponse 200 (ExceptionText IntegrityError)),
                      db)
              else (Returned
                      (mkJsonResponse 200 (ExceptionText InvalidOperation)),
                    db)
            else (Raised ValueError, db)
        | None => (Raised ValidationError, db)
        end
    | _, _ => (Raised ValidationError, db)
    end.
Proof.
  unfold Customer_Cart.post, Customer_Cart.AddToCartSerializer_is_valid,
    Customer_Cart.valid_menuitem, Customer_Cart.int_quantity,
    get_MenuItem_or_404, Cart_objects_create,
    data_item, try_except, bind, query, modify, ret, raise.
  destruct d as [[id|] [q|] qi]; cbn; try reflexivity.
  - pose proof (find_menu_has (menuitems db) id) as Hm. unfold menu_has in Hm.
    destruct (find (fun m => MenuItem.id m =? id) (menuitems db))
      as [item|] eqn:Hfind.
    + destruct Hm as [Hm _]. rewrite Hm. cbn. rewrite Hfind.
      destruct qi; [|reflexivity].
      destruct (fits_decimal (MenuItem.price item)
                && fits_decimal (q * MenuItem.price item)); [|reflexivity].
      destruct (Cart_unique_together (carts db) (User.id u) id); reflexivity.
    + rewrite Hm. reflexivity.
  - destruct (existsb _ (menuitems db)); reflexivity.
Qed.

(** A line that [post] stores has the price of the menu item as its unit
    price and its quantity times that as its price: the cart stays a cart
    of priced lines. *)
Lemma add_line_priced (db : DB) (u : User.t) (d : Customer_Cart.Data) :
  lines_priced (carts db) = true ->
  lines_priced (carts (exec (Customer_Cart.post u d) db)) = true.
Proof.
  intros H. unfold exec. rewrite cart_post_run.
  destruct (Customer_Cart.menuitem d) as [id|]; [|exact H].
  destruct (Customer_Cart.quantity d) as [q|]; [|exact H].
  destruct (find _ (menuitems db)) as [item|]; [|exact H].
  destruct (Customer_Cart.quantity_int d); [|exact H].
  destruct (fits_decimal _ && fits_decimal _); [|exact H].
  destruct (Cart_unique_together (carts db) (User.id u) id); [|exact H].
  cbn. unfold lines_priced in *. rewrite forallb_app, H. cbn.
  unfold LineTotal. now rewrite Z.eqb_refl.
Qed.

Lemma lines_priced_filter (f : Cart.t -> bool) (cs : list Cart.t) :
  lines_priced cs = true -> lines_priced (filter f cs) = true.
Proof.
  unfold lines_priced. induction cs as [|c cs IH]; cbn; [reflexivity|].
  intros H. apply andb_true_iff in H. destruct H as [Hc H].
  destruct (f c); cbn; [rewrite Hc|]; now apply IH.
Qed.

(** ** C8: one line per user and menu item *)

Lemma same_line_eq (user menuitem : Z) (c : Cart.t) :
  same_line user menuitem c = true ->
  Cart.user c = user /\ Cart.menuitem_id c = menuitem.
Proof.
  unfold same_line. intros H. apply andb_true_iff in H.
  destruct H as [H1 H2]. now apply Z.eqb_eq in H1, H2.
Qed.

Lemma no_line_of_pair (user menuitem : Z) (cs : list Cart.t) :
  existsb (same_line user menuitem) cs = false ->
  lines_of_pair user menuitem cs = [].
Proof.
  unfold lines_of_pair. induction cs as [|c cs IH]; cbn; [reflexivity|].
  intros H. apply orb_false_iff in H. destruct H as [Hc H].
  rewrite Hc. now apply IH.
Qed.

Lemma some_line_of_pair (user menuitem : Z) (cs : list Cart.t) :
  lines_of_pair user menuitem cs <> [] ->
  existsb (same_line user menuitem) cs = true.
Proof.
  intros H. destruct (existsb (same_line user menuitem) cs) eqn:E;
    [reflexivity|].
  now apply no_line_of_pair in E.
Qed.

Lemma one_line_per_pair_sound (cs : list Cart.t) :
  one_line_per_pair cs = true -> at_most_one_line cs.
Proof.
  unfold at_most_one_line, lines_of_pair.
  induction cs as [|c cs IH]; cbn; intros H user menuitem; [lia|].
  apply andb_true_iff in H. destruct H as [Hc H].
  apply negb_true_iff in Hc.
  destruct (same_line user menuitem c) eqn:E.
  - apply same_line_eq in E. destruct E as [<- <-].
    apply no_line_of_pair in Hc. unfold lines_of_pair in Hc.
    rewrite Hc. cbn. lia.
  - now apply IH.
Qed.

Lemma length_filter_filter {A} (p f : A -> bool) (l : list A) :
  (length (filter p (filter f l)) <= length (filter p l))%nat.
Proof.
  induction l as [|a l IH]; cbn; [lia|].
  destruct (f a) eqn:Ef, (p a) eqn:Ep; cbn; rewrite ?Ep; cbn; lia.
Qed.

Lemma at_most_one_filter (f : Cart.t -> bool) (cs : list Cart.t) :
  at_most_one_line cs -> at_most_one_line (filter f cs).
Proof.
  unfold at_most_one_line, lines_of_pair. intros H user menuitem.
  specialize (H user menuitem).
  pose proof (length_filter_filter (same_line user menuitem) f cs). lia.
Qed.

Lemma at_most_one_snoc (c : Cart.t) (cs : list Cart.t) :
  at_most_one_line cs ->
  existsb (same_line (Cart.user c) (Cart.menuitem_id c)) cs = false ->
  at_most_one_line (cs ++ [c]).
Proof.
  unfold at_most_one_line, lines_of_pair. intros H Hc user menuitem.
  rewrite filter_app, length_app. cbn.
  destruct (same_line user menuitem c) eqn:E; cbn.
  - apply same_line_eq in E. destruct E as [<- <-].
    apply no_line_of_pair in Hc. unfold lines_of_pair in Hc.
    rewrite Hc. cbn. lia.
  - specialize (H user menuitem). lia.
Qed.

Lemma filter_all {A} (l : list A) : filter (fun _ => true) l = l.
Proof.
  induction l as [|a l IH]; cbn; [reflexivity|now rewrite IH].
Qed.

Lemma cart_delete_carts (db : DB) (u : User.t) (d : Customer_Cart.Data) :
  exists f, carts (exec (Customer_Cart.delete u d) db) = filter f (carts db).
Proof.
  unfold exec, Customer_Cart.delete,
    Customer_Cart.RemoveFromCartSerializer_is_valid, get_Cart_or_404,
    Cart_delete, Cart_objects_filter_delete, bind, query, modify, ret, raise.
  destruct (Customer_Cart.menuitem d) as [m|]; cbn.
  - destruct (Customer_Cart.valid_menuitem d db); cbn;
      [|exists (fun _ => true); now rewrite filter_all].
    destruct (filter (same_line (User.id u) m) (carts db)) as [|c [|c' l]]; cbn;
      try (exists (fun _ => true); now rewrite filter_all).
    eexists. reflexivity.
  - eexists. reflexivity.
Qed.

Lemma create_items_carts (order : Order.t) (values : list Cart.t) (db : DB) :
  carts (exec (OrdersView.create_items order values) db) = carts db.
Proof.
  unfold exec. revert db. induction values as [|i rest IH]; intros db;
    [reflexivity|].
  cbn [OrdersView.create_items].
  unfold bind at 1. unfold get_MenuItem_or_404, bind at 1, query at 1.
  destruct (find _ (menuitems db)) as [m|]; [|reflexivity].
  unfold ret at 1. unfold bind at 1. unfold OrderItem_objects_create.
  unfold bind at 1, query at 1, bind at 1, modify at 1, ret at 1.
  unfold bind at 1. unfold OrderItem_save, modify at 1.
  rewrite IH. reflexivity.
Qed.

Lemma orders_post_carts (db : DB) (u : User.t) (today : Z) :
  exists f, carts (exec (OrdersView.post u today) db) = filter f (carts db).
Proof.
  unfold exec, OrdersView.post, Cart_objects_filter,
    Cart_objects_filter_delete.
  unfold bind at 1, query at 1.
  unfold bind at 1. rewrite Order_objects_create_run.
  destruct (fits_decimal _);
    [|exists (fun _ => true); cbn; now rewrite filter_all].
  unfold bind at 1, query at 1.
  unfold bind at 1.
  match goal with
  | |- context [OrdersView.create_items ?o ?v ?d] =>
      pose proof (create_items_carts o v d) as Hc;
      unfold exec in Hc;
      destruct (OrdersView.create_items o v d) as [[[]|e] db1]
  end; cbn in *.
  - exists (fun c => negb (Cart.user c =? User.id u)). now rewrite Hc.
  - exists (fun _ => true). now rewrite filter_all.
Qed.

(** C8.  Starting from a cart table with at most one line per user
    and menu item, every sequence of cart requests (add, remove or clear,
    place an order) leaves at most one line per user and menu item.  A
    request to add a line for a pair that has a line adds no line and is
    never answered with the 201 of a line added: when it returns, it is
    with status 200 and the text of the exception that the creation
    raised, the integrity error of the constraint or, for a price that
    does not fit its column, the invalid operation of the decimal. *)
Theorem cart_line_unique (db : DB) :
  at_most_one_line (carts db) ->
  (forall rs, at_most_one_line (carts (fold_left handle rs db))) /\
  (forall u d m,
     Customer_Cart.menuitem d = Some m ->
     lines_of_pair (User.id u) m (carts db) <> [] ->
     carts (exec (Customer_Cart.post u d) db) = carts db /\
     (forall r,
        result (Customer_Cart.post u d) db = Returned r ->
        r = mkJsonResponse 200 (ExceptionText IntegrityError) \/
        r = mkJsonResponse 200 (ExceptionText InvalidOperation))).
Proof.
  intros Hinv. split.
  - intros rs. revert db Hinv. induction rs as [|r rs IH]; intros db Hinv;
      [exact Hinv|].
    cbn [fold_left]. apply IH. destruct r as [u d|u d|u today]; cbn [handle].
    + unfold exec. rewrite cart_post_run.
      destruct (Customer_Cart.menuitem d) as [id|]; [|exact Hinv].
      destruct (Customer_Cart.quantity d) as [q|]; [|exact Hinv].
      destruct (find _ (menuitems db)) as [item|]; [|exact Hinv].
      destruct (Customer_Cart.quantity_int d); [|exact Hinv].
      destruct (fits_decimal _ && fits_decimal _); [|exact Hinv].
      destruct (Cart_unique_together (carts db) (User.id u) id) eqn:E;
        [|exact Hinv].
      cbn. apply at_most_one_snoc; [exact Hinv|].
      cbn. unfold Cart_unique_together in E. now apply negb_true_iff in E.
    + destruct (cart_delete_carts db u d) as [f ->].
      now apply at_most_one_filter.
    + destruct (orders_post_carts db u today) as [f ->].
      now apply at_most_one_filter.
  - intros u d m Hm Hline. apply some_line_of_pair in Hline.
    unfold exec, result. rewrite cart_post_run, Hm.
    destruct (Customer_Cart.quantity d) as [q|];
      [|split; [reflexivity|discriminate]].
    destruct (find _ (menuitems db)) as [item|];
      [|split; [reflexivity|discriminate]].
    destruct (Customer_Cart.quantity_int d);
      [|split; [reflexivity|discriminate]].
    unfold Cart_unique_together. rewrite Hline. cbn [negb].
    destruct (fits_decimal _ && fits_decimal _); cbn [fst snd];
      (split; [reflexivity|]); intros r Hr; inversion Hr; auto.
Qed.

Lemma cart_line_unique_witness :
  at_most_one_line (carts db_cart) /\
  at_most_one_line
    (carts (fold_left handle
              [AddLine alice (Customer_Cart.mkData (Some 1) (Some 5));
               AddLine bob (Customer_Cart.mkData (Some 1) (Some 1));
               RemoveLines alice (Customer_Cart.mkData (Some 2) None);
               PlaceOrder bob 20000]
              db_cart)) /\
  carts (exec (Customer_Cart.post alice
                 (Customer_Cart.mkData (Some 1) (Some 5))) db_cart)
    = carts db_cart.
Proof.
  assert (H : at_most_one_line (carts db_cart))
    by (apply one_line_per_pair_sound; reflexivity).
  split; [exact H|].
  destruct (cart_line_unique db_cart H) as [Hseq Hadd].
  split; [apply Hseq|].
  apply (Hadd alice (Customer_Cart.mkData (Some 1) (Some 5)) 1 eq_refl).
  discriminate.
Defined.

(** ** C2: the prices in the detail of an order *)

Lemma to_representation_run (db : DB) (oi : OrderItem.t) :
  SingleOrderSerializer.to_representation oi db =
    match find (fun m => MenuItem.id m =? OrderItem.menuitem_id oi)
               (menuitems db) with
    | Some m =>
        (Returned (SingleOrderSerializer.mk
                     (OrderItem.quantity oi)
                     (MenuItem.title m, MenuItem.price m)
                     (MenuItem.price m)
                     (OrderItem.quantity oi * MenuItem.price m)
                     (MenuItem.title m)), db)
    | None => (Raised DoesNotExist, db)
    end.
Proof.
  unfold SingleOrderSerializer.to_representation,
    SingleOrderSerializer.get_price, SingleOrderSerializer.obj_menuitem,
    bind, query, ret, raise. cbn.
  destruct (find _ (menuitems db)) as [m|] eqn:E; cbn; [|reflexivity].
  rewrite E. reflexivity.
Qed.


Lemma repriced_id (id : Z) (p : Decimal) (m : MenuItem.t) :
  MenuItem.id (repriced id p m) = MenuItem.id m.
Proof.
  unfold repriced. destruct (MenuItem.id m =? id); reflexivity.
Qed.

Lemma find_repriced (id x : Z) (p : Decimal) (ms : list MenuItem.t) :
  find (fun m => MenuItem.id m =? x) (map (repriced id p) ms)
  = option_map (repriced id p) (find (fun m => MenuItem.id m =? x) ms).
Proof.
  induction ms as [|m ms IH]; cbn; [reflexivity|].
  rewrite repriced_id. destruct (MenuItem.id m =? x); [reflexivity|exact IH].
Qed.

Lemma menu_has_repriced (id x : Z) (p : Decimal) (ms : list MenuItem.t) :
  menu_has (map (repriced id p) ms) x = menu_has ms x.
Proof.
  unfold menu_has. induction ms as [|m ms IH]; cbn; [reflexivity|].
  now rewrite repriced_id, IH.
Qed.







Lemma get_run (db : DB) (pk : Z) :
  SingleOrderView.get pk db
  = for_each SingleOrderSerializer.to_representation (order_items pk db) db.
Proof. reflexivity. Qed.




(** ** The conditions on keys, and the requests that keep them *)

Lemma cart_remove_run (db : DB) (u : User.t) (d : Customer_Cart.Data) (m : Z) :
  Customer_Cart.menuitem d = Some m ->
  Customer_Cart.delete u d db =
    if menu_has (menuitems db) m
    then match lines_of_pair (User.id u) m (carts db) with
         | [] => (Raised Http404, db)
         | [c] =>
             (Returned (mkJsonResponse 200 ItemRemovedFromCart),
              set_carts
                (filter (fun r => negb (Cart.id r =? Cart.id c)) (carts db))
                (cart_seq db) db)
         | _ => (Raised MultipleObjectsReturned, db)
         end
    else (Raised ValidationError, db).
Proof.
  intros Hm.
  unfold Customer_Cart.delete,
    Customer_Cart.RemoveFromCartSerializer_is_valid,
    Customer_Cart.valid_menuitem, get_Cart_or_404, Cart_delete,
    bind, query, modify, ret, raise, menu_has, lines_of_pair.
  rewrite Hm. cbn.
  destruct (existsb _ (menuitems db)); cbn; [|reflexivity].
  destruct (filter (same_line (User.id u) m) (carts db)) as [|c [|c' l]];
    reflexivity.
Qed.

Lemma distinct_cart_ids_filter (f : Cart.t -> bool) (cs : list Cart.t) :
  distinct_cart_ids cs = true -> distinct_cart_ids (filter f cs) = true.
Proof.
  induction cs as [|c cs IH]; cbn; [reflexivity|].
  intros H. apply andb_true_iff in H. destruct H as [Hc H].
  apply negb_true_iff in Hc.
  destruct (f c); cbn; [|now apply IH].
  apply andb_true_iff. split; [|now apply IH].
  apply negb_true_iff.
  destruct (existsb (fun r => Cart.id r =? Cart.id c) (filter f cs)) eqn:E;
    [|reflexivity].
  apply existsb_exists in E. destruct E as (r & Hin & Hr).
  apply filter_In in Hin. destruct Hin as [Hin _].
  assert (existsb (fun r => Cart.id r =? Cart.id c) cs = true)
    by (apply existsb_exists; now exists r).
  congruence.
Qed.

Lemma forallb_filter {A} (p f : A -> bool) (l : list A) :
  forallb p l = true -> forallb p (filter f l) = true.
Proof.
  rewrite !forallb_forall. intros H a Ha. apply filter_In in Ha.
  now apply H.
Qed.

Lemma distinct_cart_ids_snoc (seq : Z) (c : Cart.t) (cs : list Cart.t) :
  forallb (fun r => Cart.id r <? seq) cs = true ->
  distinct_cart_ids cs = true -> Cart.id c = seq ->
  distinct_cart_ids (cs ++ [c]) = true.
Proof.
  intros Hf Hd Hid. induction cs as [|x cs IH]; cbn in *; [reflexivity|].
  apply andb_true_iff in Hf. destruct Hf as [Hx Hf].
  apply andb_true_iff in Hd. destruct Hd as [Hnx Hd].
  apply negb_true_iff in Hnx. apply Z.ltb_lt in Hx.
  rewrite existsb_app, Hnx. cbn.
  replace (Cart.id c =? Cart.id x) with false
    by (symmetry; apply Z.eqb_neq; lia).
  cbn. now apply IH.
Qed.

Lemma fresh_cart_snoc (seq : Z) (c : Cart.t) (cs : list Cart.t) :
  forallb (fun r => Cart.id r <? seq) cs = true -> Cart.id c = seq ->
  forallb (fun r => Cart.id r <? seq + 1) (cs ++ [c]) = true.
Proof.
  intros Hf Hid. rewrite forallb_app. apply andb_true_iff. split.
  - rewrite forallb_forall in *. intros r Hr. specialize (Hf r Hr).
    apply Z.ltb_lt in Hf. apply Z.ltb_lt. lia.
  - cbn. rewrite andb_true_r. apply Z.ltb_lt. lia.
Qed.

Lemma keys_well_formed_iff (db : DB) :
  keys_well_formed db = true <->
  fresh_cart_seq db = true /\ distinct_cart_ids (carts db) = true /\
  fresh_order_keys db = true /\ distinct_order_ids (orders db) = true /\
  fresh_orderitem_seq db = true /\
  distinct_orderitem_ids (orderitems db) = true /\
  fresh_order_seq db = true /\ carts_in_menu db = true.
Proof.
  unfold keys_well_formed. rewrite !andb_true_iff. tauto.
Qed.

Lemma distinct_order_ids_NoDup (os : list Order.t) :
  distinct_order_ids os = true <-> NoDup (map Order.id os).
Proof.
  induction os as [|o os IH]; cbn.
  - split; [constructor|reflexivity].
  - rewrite andb_true_iff, negb_true_iff, IH. split.
    + intros [Hn Hd]. constructor; [|exact Hd].
      intros Hin. apply in_map_iff in Hin. destruct Hin as (r & Hr & Hin).
      assert (E : existsb (fun r0 => Order.id r0 =? Order.id o) os = true)
        by (apply existsb_exists; exists r; split;
            [exact Hin|now apply Z.eqb_eq]).
      congruence.
    + intros H. inversion H as [|x l Hn Hd]; subst. split; [|exact Hd].
      destruct (existsb (fun r => Order.id r =? Order.id o) os) eqn:E;
        [|reflexivity].
      exfalso. apply Hn. apply existsb_exists in E.
      destruct E as (r & Hin & Hr). apply Z.eqb_eq in Hr. rewrite <- Hr.
      now apply in_map.
Qed.

Lemma distinct_orderitem_ids_NoDup (ois : list OrderItem.t) :
  distinct_orderitem_ids ois = true <-> NoDup (map OrderItem.id ois).
Proof.
  induction ois as [|o os IH]; cbn.
  - split; [constructor|reflexivity].
  - rewrite andb_true_iff, negb_true_iff, IH. split.
    + intros [Hn Hd]. constructor; [|exact Hd].
      intros Hin. apply in_map_iff in Hin. destruct Hin as (r & Hr & Hin).
      assert (E : existsb (fun r0 => OrderItem.id r0 =? OrderItem.id o) os
                  = true)
        by (apply existsb_exists; exists r; split;
            [exact Hin|now apply Z.eqb_eq]).
      congruence.
    + intros H. inversion H as [|x l Hn Hd]; subst. split; [|exact Hd].
      destruct (existsb (fun r => OrderItem.id r =? OrderItem.id o) os)
        eqn:E; [|reflexivity].
      exfalso. apply Hn. apply existsb_exists in E.
      destruct E as (r & Hin & Hr). apply Z.eqb_eq in Hr. rewrite <- Hr.
      now apply in_map.
Qed.

Lemma forallb_below {A} (key : A -> Z) (s : Z) (l : list A) :
  forallb (fun a => key a <? s) l = true <->
  Forall (fun i => i < s) (map key l).
Proof.
  induction l as [|a l IH]; cbn.
  - split; [constructor|reflexivity].
  - rewrite andb_true_iff, Z.ltb_lt, IH. split.
    + intros [Ha Hl]. now constructor.
    + intros H. inversion H; subst. now split.
Qed.

Lemma NoDup_app_sep (s : Z) (l l' : list Z) :
  NoDup l -> NoDup l' ->
  Forall (fun i => i < s) l -> Forall (fun i => s <= i) l' ->
  NoDup (l ++ l').
Proof.
  induction l as [|a l IH]; cbn; intros Hl Hl' Hlt Hge; [exact Hl'|].
  inversion Hl; inversion Hlt; subst. constructor.
  - rewrite in_app_iff. intros [H|H]; [contradiction|].
    rewrite Forall_forall in Hge. specialize (Hge _ H). lia.
  - now apply IH.
Qed.

Lemma items_from_ids_ge (pk seq : Z) (lines : list Cart.t) :
  Forall (fun i => seq <= i) (map OrderItem.id (items_from pk seq lines)).
Proof.
  revert seq. induction lines as [|c lines IH]; intros seq; cbn;
    constructor; [lia|].
  eapply Forall_impl; [|apply (IH (seq + 1))]. cbn. intros; lia.
Qed.

Lemma items_from_ids_NoDup (pk seq : Z) (lines : list Cart.t) :
  NoDup (map OrderItem.id (items_from pk seq lines)).
Proof.
  revert seq. induction lines as [|c lines IH]; intros seq; cbn;
    constructor; [|apply IH].
  intros Hin. pose proof (items_from_ids_ge pk (seq + 1) lines) as H.
  rewrite Forall_forall in H. specialize (H _ Hin). cbn in H. lia.
Qed.

Lemma map_id_saved (o : Order.t) (os : list Order.t) :
  map Order.id (saved o os) = map Order.id os.
Proof.
  unfold saved. rewrite map_map. apply map_ext. intros r.
  destruct (Order.id r =? Order.id o) eqn:E; [|reflexivity].
  apply Z.eqb_eq in E. now symmetry.
Qed.

Lemma user_lines_in_menu (db : DB) (user : Z) :
  carts_in_menu db = true ->
  menu_complete (menuitems db) (user_lines user (carts db)) = true.
Proof.
  unfold carts_in_menu, menu_complete, user_lines. apply forallb_filter.
Qed.

(** One cart request keeps the conditions. *)
Lemma handle_keeps_keys (db : DB) (r : CartRequest) :
  keys_well_formed db = true -> keys_well_formed (handle db r) = true.
Proof.
  intros H.
  apply keys_well_formed_iff in H.
  destruct H as (Hfc & Hd & Hok & Hdo & Hfi & Hdi & Hfo & Hcm).
  apply keys_well_formed_iff.
  destruct r as [u d|u d|u today]; cbn [handle].
  - unfold exec. rewrite cart_post_run.
    destruct (Customer_Cart.menuitem d) as [id|]; [|now repeat split].
    destruct (Customer_Cart.quantity d) as [q|]; [|now repeat split].
    pose proof (find_menu_has (menuitems db) id) as Hmenu.
    destruct (find _ (menuitems db)) as [item|]; [|now repeat split].
    destruct Hmenu as [Hmenu _].
    destruct (Customer_Cart.quantity_int d); [|now repeat split].
    destruct (fits_decimal _ && fits_decimal _); [|now repeat split].
    destruct (Cart_unique_together (carts db) (User.id u) id);
      [|now repeat split].
    cbn [snd]. unfold fresh_cart_seq, carts_in_menu in *.
    cbn [carts cart_seq menuitems set_carts].
    split; [now apply fresh_cart_snoc|].
    split; [now apply (distinct_cart_ids_snoc (cart_seq db))|].
    do 5 (split; [assumption|]).
    unfold menu_complete in *. rewrite forallb_app, Hcm. cbn.
    now rewrite Hmenu.
  - assert (Hf : forall f,
               let db' := set_carts (filter f (carts db)) (cart_seq db) db in
               fresh_cart_seq db' = true /\
               distinct_cart_ids (carts db') = true /\
               fresh_order_keys db' = true /\
               distinct_order_ids (orders db') = true /\
               fresh_orderitem_seq db' = true /\
               distinct_orderitem_ids (orderitems db') = true /\
               fresh_order_seq db' = true /\ carts_in_menu db' = true).
    { intros f. cbn zeta. unfold fresh_cart_seq, carts_in_menu in *.
      cbn [carts cart_seq menuitems set_carts].
      split; [now apply forallb_filter|].
      split; [now apply distinct_cart_ids_filter|].
      do 5 (split; [assumption|]).
      unfold menu_complete in *. now apply forallb_filter. }
    destruct (Customer_Cart.menuitem d) as [m|] eqn:Hm.
    + unfold exec. rewrite (cart_remove_run db u d m Hm).
      destruct (menu_has (menuitems db) m); [|now repeat split].
      destruct (lines_of_pair (User.id u) m (carts db)) as [|c [|c' l]];
        try (now repeat split).
      apply Hf.
    + unfold exec, Customer_Cart.delete. rewrite Hm. apply Hf.
  - destruct (post_keeps_sequences db u today Hfi Hfo) as [Hi Ho].
    pose proof (post_run db u today Hfi) as R. cbn zeta in R.
    set (done := placed (menuitems db) (user_lines (User.id u) (carts db)))
      in *.
    set (db' := exec (OrdersView.post u today) db) in *.
    assert (Hrest : fresh_cart_seq db' = true /\
                    distinct_cart_ids (carts db') = true /\
                    fresh_order_keys db' = true /\
                    distinct_order_ids (orders db') = true /\
                    distinct_orderitem_ids (orderitems db') = true /\
                    carts_in_menu db' = true).
    { unfold db', exec. rewrite R.
      destruct (fits_decimal _); [|now repeat split].
      assert (Hko : forallb (fun o => Order.id o <? order_seq db + 1)
                      (orders db
                         ++ [Order.mk (order_seq db) (User.id u) None false
                               (OrdersView.calculate_total
                                  (user_lines (User.id u) (carts db)))
                               today]) = true).
      { rewrite forallb_app. apply andb_true_iff. split.
        - unfold fresh_order_keys in Hok. rewrite forallb_forall in *.
          intros o Ho'. specialize (Hok o Ho').
          apply Z.ltb_lt in Hok. apply Z.ltb_lt. lia.
        - cbn. rewrite andb_true_r. apply Z.ltb_lt. lia. }
      assert (Hno : distinct_order_ids
                      (orders db
                         ++ [Order.mk (order_seq db) (User.id u) None false
                               (OrdersView.calculate_total
                                  (user_lines (User.id u) (carts db)))
                               today]) = true).
      { apply distinct_order_ids_NoDup. rewrite map_app.
        apply (NoDup_app_sep (order_seq db)).
        - now apply distinct_order_ids_NoDup.
        - cbn. constructor; [intros []|constructor].
        - now apply forallb_below.
        - cbn. constructor; [lia|constructor]. }
      assert (Hni : distinct_orderitem_ids
                      (orderitems db
                         ++ items_from (order_seq db) (orderitem_seq db) done)
                    = true).
      { apply distinct_orderitem_ids_NoDup. rewrite map_app.
        apply (NoDup_app_sep (orderitem_seq db)).
        - now apply distinct_orderitem_ids_NoDup.
        - apply items_from_ids_NoDup.
        - now apply forallb_below.
        - apply items_from_ids_ge. }
      unfold fresh_cart_seq, fresh_order_keys, carts_in_menu, menu_complete
        in *.
      destruct (length _ =? length _)%nat;
        cbn [snd carts cart_seq orders order_seq orderitems menuitems].
      - split; [now apply forallb_filter|].
        split; [now apply distinct_cart_ids_filter|].
        split; [exact Hko|]. split; [exact Hno|]. split; [exact Hni|].
        now apply forallb_filter.
      - repeat split; assumption. }
    destruct Hrest as (H1 & H2 & H3 & H4 & H5 & H6).
    repeat split; assumption.
Qed.

(** A save of a row of the order table keeps the conditions. *)
Lemma saved_keeps_keys (db : DB) (o : Order.t) :
  keys_well_formed db = true ->
  keys_well_formed (set_orders (saved o (orders db)) (order_seq db) db) = true.
Proof.
  intros H.
  apply keys_well_formed_iff in H.
  destruct H as (Hfc & Hd & Hok & Hdo & Hfi & Hdi & Hfo & Hcm).
  apply keys_well_formed_iff.
  split; [assumption|]. split; [assumption|].
  split; [|split; [|repeat split; assumption]].
  - unfold fresh_order_keys in *. cbn [orders order_seq set_orders].
    apply forallb_below. rewrite map_id_saved. now apply forallb_below.
  - cbn [orders set_orders]. apply distinct_order_ids_NoDup.
    rewrite map_id_saved. now apply distinct_order_ids_NoDup.
Qed.

(** ** C1: placing an order is all or nothing *)



(** * Further properties *)

(** ** The cart: adding a line *)

(** X1.  When [post] of [Customer_Cart] answers 201, the body named a
    menu item of the menu and a quantity, the user had no line for that
    item, and the store differs from the one before by exactly one new
    cart line, the last of the table: its unit price is the price the
    menu item has now and its price is the quantity times that. *)
Theorem add_line_stores_snapshot (db : DB) (u : User.t)
    (d : Customer_Cart.Data) :
  result (Customer_Cart.post u d) db
    = Returned (mkJsonResponse 201 ItemAddedToCart) ->
  exists id q item,
    Customer_Cart.menuitem d = Some id /\
    Customer_Cart.quantity d = Some q /\
    find (fun m => MenuItem.id m =? id) (menuitems db) = Some item /\
    lines_of_pair (User.id u) id (carts db) = [] /\
    exec (Customer_Cart.post u d) db
      = set_carts
          (carts db ++ [Cart.mk (cart_seq db) (User.id u) id q
                                (MenuItem.price item)
                                (q * MenuItem.price item)])
          (cart_seq db + 1) db.
Proof.
  unfold result, exec. rewrite cart_post_run.
  destruct (Customer_Cart.menuitem d) as [id|]; [|discriminate].
  destruct (Customer_Cart.quantity d) as [q|]; [|discriminate].
  destruct (find _ (menuitems db)) as [item|] eqn:Hfind; [|discriminate].
  destruct (Customer_Cart.quantity_int d); [|discriminate].
  destruct (fits_decimal _ && fits_decimal _); [|discriminate].
  destruct (Cart_unique_together (carts db) (User.id u) id) eqn:Hu;
    [|discriminate].
  intros _. exists id, q, item.
  split; [reflexivity|]. split; [reflexivity|]. split; [exact Hfind|].
  split; [|reflexivity].
  apply no_line_of_pair. unfold Cart_unique_together in Hu.
  now apply negb_true_iff in Hu.
Qed.

Lemma add_line_stores_snapshot_witness :
  result (Customer_Cart.post bob (Customer_Cart.mkData (Some 2) (Some 3)))
         db_cart
    = Returned (mkJsonResponse 201 ItemAddedToCart) /\
  exists id q item,
    Some 2 = Some id /\ Some 3 = Some q /\
    find (fun m => MenuItem.id m =? id) (menuitems db_cart) = Some item /\
    lines_of_pair (User.id bob) id (carts db_cart) = [] /\
    exec (Customer_Cart.post bob (Customer_Cart.mkData (Some 2) (Some 3)))
         db_cart
      = set_carts
          (carts db_cart ++ [Cart.mk (cart_seq db_cart) (User.id bob) id q
                                     (MenuItem.price item)
                                     (q * MenuItem.price item)])
          (cart_seq db_cart + 1) db_cart.
Proof.
  split; [reflexivity|].
  exact (add_line_stores_snapshot db_cart bob
           (Customer_Cart.mkData (Some 2) (Some 3)) eq_refl).
Defined.

(** X2.  [post] of [Customer_Cart] raises nothing but a validation
    error, from the serializer, or a value error, from [int(quantity)],
    which runs outside the [try]: the serializer has checked the menu
    item before [get_object_or_404] looks it up, so no 404 comes out of
    it, and what the insert raises is caught.  A request that does not
    add a line leaves the store as it is; a refused insert is answered
    with status 200 and the text of its exception, the integrity error of
    a second line for a pair or the invalid operation of a price that
    does not fit its column.  So alice, with her cart of two lines, gets
    the value error for one of item A when the quantity is sent as a text
    that [int()] does not read, and the text of the invalid operation for
    two thousand of item A, which come to 19000.00. *)
Theorem add_line_failures :
  (forall (db : DB) (u : User.t) (d : Customer_Cart.Data),
     match result (Customer_Cart.post u d) db with
     | Returned r =>
         r = mkJsonResponse 201 ItemAddedToCart \/
         ((r = mkJsonResponse 200 (ExceptionText IntegrityError) \/
           r = mkJsonResponse 200 (ExceptionText InvalidOperation)) /\
          exec (Customer_Cart.post u d) db = db)
     | Raised e =>
         (e = ValidationError \/ e = ValueError) /\
         exec (Customer_Cart.post u d) db = db
     end) /\
  Customer_Cart.post alice (Customer_Cart.mk (Some 1) (Some 1) false) db_cart
    = (Raised ValueError, db_cart) /\
  Customer_Cart.post alice (Customer_Cart.mkData (Some 1) (Some 2000)) db_cart
    = (Returned (mkJsonResponse 200 (ExceptionText InvalidOperation)),
       db_cart).
Proof.
  split; [|split; reflexivity].
  intros db u d. unfold result, exec. rewrite cart_post_run.
  destruct (Customer_Cart.menuitem d) as [id|]; [|split; auto].
  destruct (Customer_Cart.quantity d) as [q|]; [|split; auto].
  destruct (find _ (menuitems db)) as [item|]; [|split; auto].
  destruct (Customer_Cart.quantity_int d); [|split; auto].
  destruct (fits_decimal _ && fits_decimal _); cbn; [|right; split; auto].
  destruct (Cart_unique_together (carts db) (User.id u) id); cbn.
  - now left.
  - right. split; auto.
Qed.

(** ** The cart: removing a line *)

Lemma distinct_cart_ids_inj (cs : list Cart.t) (c r : Cart.t) :
  distinct_cart_ids cs = true -> In c cs -> In r cs ->
  Cart.id r = Cart.id c -> r = c.
Proof.
  induction cs as [|x cs IH]; cbn; [contradiction|].
  intros H Hc Hr Hid. apply andb_true_iff in H. destruct H as [Hx H].
  apply negb_true_iff in Hx.
  assert (Hno : forall y, In y cs -> Cart.id y <> Cart.id x).
  { intros y Hy Heq.
    assert (E : existsb (fun r0 => Cart.id r0 =? Cart.id x) cs = true)
      by (apply existsb_exists; exists y; split;
          [exact Hy|now apply Z.eqb_eq]).
    congruence. }
  destruct Hc as [<-|Hc], Hr as [<-|Hr].
  - reflexivity.
  - exfalso. now apply (Hno r Hr).
  - exfalso. apply (Hno c Hc). congruence.
  - now apply IH.
Qed.

Lemma filter_filter_drop {A} (p g : A -> bool) (l : list A) :
  (forall a, In a l -> g a = false -> p a = false) ->
  filter p (filter g l) = filter p l.
Proof.
  induction l as [|a l IH]; cbn; intros H; [reflexivity|].
  destruct (g a) eqn:Eg; cbn.
  - destruct (p a); rewrite IH; auto.
  - rewrite (H a (or_introl eq_refl) Eg). apply IH. auto.
Qed.

Lemma filter_comm {A} (p g : A -> bool) (l : list A) :
  filter p (filter g l) = filter g (filter p l).
Proof.
  induction l as [|a l IH]; cbn; [reflexivity|].
  destruct (g a) eqn:Eg, (p a) eqn:Ep; cbn; rewrite ?Eg, ?Ep, IH;
    reflexivity.
Qed.

(** X3.  [delete] of [Customer_Cart] on a body that names a menu item
    (RemoveLine): a menu item that is not in the menu is a validation
    error, no line of the user for the item is a 404, and both leave the
    store as it is.  With one line per pair and distinct primary keys in
    the cart table, a line that is there is removed with status 200, and
    the lines of every other user or menu item stay. *)
Theorem remove_line (db : DB) (u : User.t) (d : Customer_Cart.Data) (m : Z) :
  Customer_Cart.menuitem d = Some m ->
  (menu_has (menuitems db) m = false ->
   Customer_Cart.delete u d db = (Raised ValidationError, db)) /\
  (menu_has (menuitems db) m = true ->
   lines_of_pair (User.id u) m (carts db) = [] ->
   Customer_Cart.delete u d db = (Raised Http404, db)) /\
  (menu_has (menuitems db) m = true ->
   at_most_one_line (carts db) ->
   distinct_cart_ids (carts db) = true ->
   lines_of_pair (User.id u) m (carts db) <> [] ->
   let db' := exec (Customer_Cart.delete u d) db in
   result (Customer_Cart.delete u d) db
     = Returned (mkJsonResponse 200 ItemRemovedFromCart) /\
   lines_of_pair (User.id u) m (carts db') = [] /\
   forall user menuitem,
     user <> User.id u \/ menuitem <> m ->
     lines_of_pair user menuitem (carts db')
       = lines_of_pair user menuitem (carts db)).
Proof.
  intros Hm. rewrite (cart_remove_run db u d m Hm). split; [|split].
  - intros ->. reflexivity.
  - intros -> ->. reflexivity.
  - intros Hmenu Hone Hids Hline. cbn zeta. unfold exec, result.
    rewrite (cart_remove_run db u d m Hm), Hmenu.
    pose proof (Hone (User.id u) m) as Hlen.
    destruct (lines_of_pair (User.id u) m (carts db)) as [|c [|c' l]] eqn:E;
      [contradiction| |cbn in Hlen; lia].
    cbn [fst snd carts set_carts].
    assert (Hc : In c (carts db) /\ same_line (User.id u) m c = true).
    { apply filter_In. unfold lines_of_pair in E. rewrite E. now left. }
    destruct Hc as [Hin Hsame].
    split; [reflexivity|]. split.
    + unfold lines_of_pair in *. rewrite filter_comm, E. cbn.
      now rewrite Z.eqb_refl.
    + intros user menuitem Hne. unfold lines_of_pair.
      apply filter_filter_drop. intros r Hr Hg.
      apply negb_false_iff, Z.eqb_eq in Hg.
      rewrite (distinct_cart_ids_inj _ c r Hids Hin Hr Hg).
      apply same_line_eq in Hsame. destruct Hsame as [Hu Hi].
      unfold same_line. rewrite Hu, Hi.
      destruct Hne as [Hne|Hne].
      * replace (User.id u =? user) with false
          by (symmetry; apply Z.eqb_neq; congruence).
        reflexivity.
      * replace (m =? menuitem) with false
          by (symmetry; apply Z.eqb_neq; congruence).
        apply andb_false_r.
Qed.

Lemma remove_line_witness :
  Customer_Cart.delete alice (Customer_Cart.mkData (Some 7) None) db_cart
    = (Raised ValidationError, db_cart) /\
  Customer_Cart.delete bob (Customer_Cart.mkData (Some 1) None) db_cart
    = (Raised Http404, db_cart) /\
  result (Customer_Cart.delete alice (Customer_Cart.mkData (Some 1) None))
         db_cart
    = Returned (mkJsonResponse 200 ItemRemovedFromCart) /\
  lines_of_pair (User.id alice) 1
    (carts (exec (Customer_Cart.delete alice
                    (Customer_Cart.mkData (Some 1) None)) db_cart)) = [].
Proof.
  split; [|split].
  - apply (remove_line db_cart alice (Customer_Cart.mkData (Some 7) None) 7
             eq_refl). reflexivity.
  - apply (remove_line db_cart bob (Customer_Cart.mkData (Some 1) None) 1
             eq_refl); reflexivity.
  - destruct (remove_line db_cart alice (Customer_Cart.mkData (Some 1) None) 1
                eq_refl) as (_ & _ & H).
    destruct H as (H1 & H2 & _);
      [reflexivity
      |apply one_line_per_pair_sound; reflexivity
      |reflexivity
      |discriminate
      |].
    split; [exact H1|exact H2].
Defined.

Lemma filter_fresh_ids (seq : Z) (cs : list Cart.t) :
  forallb (fun c => Cart.id c <? seq) cs = true ->
  filter (fun r => negb (Cart.id r =? seq)) cs = cs.
Proof.
  induction cs as [|c cs IH]; cbn; [reflexivity|].
  intros H. apply andb_true_iff in H. destruct H as [Hc H].
  apply Z.ltb_lt in Hc.
  replace (Cart.id c =? seq) with false by (symmetry; apply Z.eqb_neq; lia).
  cbn. now rewrite IH.
Qed.

(** X4.  Adding a line and removing it again is a round trip on the
    cart table: when [post] of [Customer_Cart] has answered 201, [delete]
    with the same body answers 200 and the cart table is the one from
    before the two requests; only the sequence of primary keys has moved
    on by one. *)
Theorem add_then_remove (db : DB) (u : User.t) (d : Customer_Cart.Data) :
  fresh_cart_seq db = true ->
  result (Customer_Cart.post u d) db
    = Returned (mkJsonResponse 201 ItemAddedToCart) ->
  let db1 := exec (Customer_Cart.post u d) db in
  let db2 := exec (Customer_Cart.delete u d) db1 in
  result (Customer_Cart.delete u d) db1
    = Returned (mkJsonResponse 200 ItemRemovedFromCart) /\
  carts db2 = carts db /\
  cart_seq db2 = cart_seq db + 1.
Proof.
  intros Hfresh. unfold result, exec. rewrite cart_post_run.
  destruct (Customer_Cart.menuitem d) as [id|] eqn:Hm; [|discriminate].
  destruct (Customer_Cart.quantity d) as [q|]; [|discriminate].
  pose proof (find_menu_has (menuitems db) id) as Hmenu.
  destruct (find _ (menuitems db)) as [item|]; [|discriminate].
  destruct Hmenu as [Hmenu _].
  destruct (Customer_Cart.quantity_int d); [|discriminate].
  destruct (fits_decimal _ && fits_decimal _); [|discriminate].
  destruct (Cart_unique_together (carts db) (User.id u) id) eqn:Hu;
    [|discriminate].
  intros _. cbn zeta. cbn [snd].
  rewrite (cart_remove_run _ u d id Hm). cbn [menuitems set_carts carts].
  rewrite Hmenu.
  unfold Cart_unique_together in Hu. apply negb_true_iff in Hu.
  apply no_line_of_pair in Hu.
  unfold lines_of_pair in *. rewrite filter_app, Hu. cbn.
  unfold same_line. cbn. rewrite !Z.eqb_refl. cbn.
  split; [reflexivity|]. split; [|reflexivity].
  rewrite filter_app. cbn. rewrite Z.eqb_refl. cbn.
  rewrite app_nil_r. now apply filter_fresh_ids.
Qed.

Lemma add_then_remove_witness :
  fresh_cart_seq db_cart = true /\
  result (Customer_Cart.post bob (Customer_Cart.mkData (Some 2) (Some 3)))
         db_cart
    = Returned (mkJsonResponse 201 ItemAddedToCart) /\
  carts (exec (Customer_Cart.delete bob
                 (Customer_Cart.mkData (Some 2) (Some 3)))
           (exec (Customer_Cart.post bob
                    (Customer_Cart.mkData (Some 2) (Some 3))) db_cart))
    = carts db_cart.
Proof.
  split; [reflexivity|]. split; [reflexivity|].
  apply (add_then_remove db_cart bob (Customer_Cart.mkData (Some 2) (Some 3))
           eq_refl eq_refl).
Defined.

(** ** The cart: one user's requests and another user's lines *)

Lemma orders_post_carts_cases (db : DB) (u : User.t) (today : Z) :
  carts (exec (OrdersView.post u today) db) = carts db \/
  carts (exec (OrdersView.post u today) db)
    = other_lines (User.id u) (carts db).
Proof.
  remember (carts (exec (OrdersView.post u today) db)) as l eqn:Hl.
  unfold exec, OrdersView.post, Cart_objects_filter,
    Cart_objects_filter_delete in Hl.
  unfold bind at 1, query at 1 in Hl.
  unfold bind at 1 in Hl. rewrite Order_objects_create_run in Hl.
  destruct (fits_decimal _); [|left; now rewrite Hl].
  unfold bind at 1, query at 1 in Hl.
  unfold bind at 1 in Hl.
  match type of Hl with
  | context [OrdersView.create_items ?o ?v ?d] =>
      pose proof (create_items_carts o v d) as Hc;
      unfold exec in Hc;
      destruct (OrdersView.create_items o v d) as [[[]|e] db1]
  end; cbn in *.
  - right. unfold other_lines. now rewrite Hl, Hc.
  - left. now rewrite Hl.
Qed.

Lemma user_lines_other_lines (u v : Z) (cs : list Cart.t) :
  v <> u -> user_lines v (other_lines u cs) = user_lines v cs.
Proof.
  intros Hne. unfold user_lines, other_lines.
  apply filter_filter_drop. intros c _ Hg.
  apply negb_false_iff, Z.eqb_eq in Hg. apply Z.eqb_neq. congruence.
Qed.

(** X5.  The cart requests of one user never touch the lines of
    another: whatever a user adds, removes, clears or orders, and
    whether the request succeeds or fails, every other user lists the
    same cart lines as before (primary keys of the cart table being
    distinct). *)
Theorem cart_requests_isolated (db : DB) (r : CartRequest) (w : User.t) :
  distinct_cart_ids (carts db) = true ->
  User.id w <> User.id (request_user r) ->
  result (Customer_Cart.get_queryset w) (handle db r)
    = result (Customer_Cart.get_queryset w) db.
Proof.
  intros Hids Hne.
  unfold result, Customer_Cart.get_queryset, Cart_objects_filter, query.
  cbn [fst]. set (v := User.id w) in *.
  f_equal. destruct r as [u d|u d|u today]; cbn [handle request_user] in *.
  - unfold exec. rewrite cart_post_run.
    destruct (Customer_Cart.menuitem d) as [id|]; [|reflexivity].
    destruct (Customer_Cart.quantity d) as [q|]; [|reflexivity].
    destruct (find _ (menuitems db)) as [item|]; [|reflexivity].
    destruct (Customer_Cart.quantity_int d); [|reflexivity].
    destruct (fits_decimal _ && fits_decimal _); [|reflexivity].
    destruct (Cart_unique_together (carts db) (User.id u) id); [|reflexivity].
    cbn. unfold user_lines. rewrite filter_app. cbn.
    replace (User.id u =? v) with false
      by (symmetry; apply Z.eqb_neq; congruence).
    apply app_nil_r.
  - destruct (Customer_Cart.menuitem d) as [m|] eqn:Hm.
    + unfold exec. rewrite (cart_remove_run db u d m Hm).
      destruct (menu_has (menuitems db) m); [|reflexivity].
      destruct (lines_of_pair (User.id u) m (carts db)) as [|c [|c' l]] eqn:E;
        try reflexivity.
      cbn [snd carts set_carts].
      assert (Hc : In c (carts db) /\ same_line (User.id u) m c = true).
      { apply filter_In. unfold lines_of_pair in E. rewrite E. now left. }
      destruct Hc as [Hin Hsame]. apply same_line_eq in Hsame.
      destruct Hsame as [Hu _].
      unfold user_lines. apply filter_filter_drop. intros x Hx Hg.
      apply negb_false_iff, Z.eqb_eq in Hg.
      rewrite (distinct_cart_ids_inj _ c x Hids Hin Hx Hg).
      apply Z.eqb_neq. congruence.
    + unfold exec, Customer_Cart.delete. rewrite Hm.
      cbn. now apply user_lines_other_lines.
  - destruct (orders_post_carts_cases db u today) as [-> | ->];
      [reflexivity|now apply user_lines_other_lines].
Qed.

Lemma cart_requests_isolated_witness :
  distinct_cart_ids (carts db_cart) = true /\
  User.id alice
    <> User.id (request_user
                  (AddLine bob (Customer_Cart.mkData (Some 1) (Some 4)))) /\
  result (Customer_Cart.get_queryset alice)
         (handle db_cart
            (AddLine bob (Customer_Cart.mkData (Some 1) (Some 4))))
    = result (Customer_Cart.get_queryset alice) db_cart.
Proof.
  split; [reflexivity|]. split; [discriminate|].
  apply (cart_requests_isolated db_cart
           (AddLine bob (Customer_Cart.mkData (Some 1) (Some 4)))
           alice eq_refl).
  discriminate.
Defined.

(** ** Orders: the total *)

Lemma calculate_total_sum (lines : list Cart.t) (a : Decimal) :
  fold_left (fun total item => total + Cart.price item) lines a
  = a + fold_right Z.add 0 (map Cart.price lines).
Proof.
  revert a. induction lines as [|c lines IH]; intros a; cbn; [lia|].
  rewrite IH. lia.
Qed.

(** X6.  [calculate_total] does not depend on the order in which the
    queryset yields the cart lines, it is additive over two parts of a
    cart, and the total of no lines is 0. *)
Theorem calculate_total_order_free :
  (forall l1 l2, Permutation l1 l2 ->
     OrdersView.calculate_total l1 = OrdersView.calculate_total l2) /\
  (forall l1 l2,
     OrdersView.calculate_total (l1 ++ l2)
     = OrdersView.calculate_total l1 + OrdersView.calculate_total l2) /\
  OrdersView.calculate_total [] = 0.
Proof.
  unfold OrdersView.calculate_total. split; [|split; [|reflexivity]].
  - intros l1 l2 H. rewrite !calculate_total_sum. f_equal.
    induction H; cbn; lia.
  - intros l1 l2. rewrite !calculate_total_sum, map_app.
    induction l1 as [|c l1 IH]; cbn in *; lia.
Qed.

Lemma calculate_total_order_free_witness :
  Permutation [Cart.mk 1 1 1 2 950 1900; Cart.mk 2 1 2 1 300 300]
              [Cart.mk 2 1 2 1 300 300; Cart.mk 1 1 1 2 950 1900] /\
  OrdersView.calculate_total
    [Cart.mk 1 1 1 2 950 1900; Cart.mk 2 1 2 1 300 300]
  = OrdersView.calculate_total
      [Cart.mk 2 1 2 1 300 300; Cart.mk 1 1 1 2 950 1900].
Proof.
  assert (H : Permutation [Cart.mk 1 1 1 2 950 1900; Cart.mk 2 1 2 1 300 300]
                          [Cart.mk 2 1 2 1 300 300; Cart.mk 1 1 1 2 950 1900])
    by apply perm_swap.
  split; [exact H|].
  exact (proj1 calculate_total_order_free _ _ H).
Defined.

(** ** Orders: permissions of the list endpoint *)

(** X7.  The test [method == 'GET' or 'POST'] of [get_permissions] of
    [OrdersView] holds for every method, so the list with the manager
    check is never used: whatever the method, an authenticated user with
    no role passes the permission check of the orders endpoint, and only
    an anonymous requester is refused, with 401. *)
Theorem orders_permissions_every_method (method : Method) (db : DB) :
  OrdersView.get_permissions method = [IsAuthenticated] /\
  (forall u,
     check_permissions (OrdersView.get_permissions method) (Authenticated u) db
     = (Returned tt, db)) /\
  check_permissions (OrdersView.get_permissions method) AnonymousUser db
  = (Raised NotAuthenticated, db).
Proof.
  destruct method; repeat split.
Qed.

(** ** Orders: placing, and placing again *)

(** X8.  Placing an order twice in a row: when the first [post] of
    [OrdersView] has returned, it was with 201, the cart of the user is
    empty, and a second [post] is answered with 201 all the same; it makes
    a second order with the next number, total 0 and no item. *)
Theorem place_order_twice (db : DB) (u : User.t) (day1 day2 : Z)
    (resp : JsonResponse) :
  fresh_orderitem_seq db = true ->
  result (OrdersView.post u day1) db = Returned resp ->
  let db1 := exec (OrdersView.post u day1) db in
  let db2 := exec (OrdersView.post u day2) db1 in
  resp = mkJsonResponse 201 (OrderPlaced (order_seq db)) /\
  user_lines (User.id u) (carts db1) = [] /\
  result (OrdersView.post u day2) db1
    = Returned (mkJsonResponse 201 (OrderPlaced (order_seq db + 1))) /\
  orders db2
    = orders db1
        ++ [Order.mk (order_seq db + 1) (User.id u) None false 0 day2] /\
  orderitems db2 = orderitems db1 /\
  carts db2 = carts db1.
Proof.
  intros Hf Hret. cbn zeta.
  destruct (post_returned db u day1 resp Hf Hret) as (_ & _ & R).
  unfold result in Hret. rewrite R in Hret. cbn [fst] in Hret.
  injection Hret as <-.
  unfold exec, result. rewrite R. cbn [fst snd].
  match goal with
  | |- context [OrdersView.post u day2 ?d] => set (db1 := d)
  end.
  assert (He : user_lines (User.id u) (carts db1) = [])
    by apply user_lines_others.
  rewrite (post_empty_run db1 u day2 He).
  split; [reflexivity|]. split; [exact He|]. repeat split.
Qed.

Lemma place_order_twice_witness :
  fresh_orderitem_seq db_cart = true /\
  result (OrdersView.post alice 20000) db_cart
    = Returned (mkJsonResponse 201 (OrderPlaced 1)) /\
  result (OrdersView.post alice 20001) db_order
    = Returned (mkJsonResponse 201 (OrderPlaced (order_seq db_cart + 1))) /\
  orders (exec (OrdersView.post alice 20001) db_order)
    = orders db_order
        ++ [Order.mk (order_seq db_cart + 1) (User.id alice) None false 0
                     20001].
Proof.
  split; [reflexivity|]. split; [reflexivity|].
  destruct (place_order_twice db_cart alice 20000 20001 _ eq_refl eq_refl)
    as (_ & _ & H2 & H3 & _).
  split; [exact H2|exact H3].
Defined.

(** ** Orders: a new order in the lists *)

Lemma create_items_frame (order : Order.t) (values : list Cart.t) (db : DB) :
  exists ois seq,
    exec (OrdersView.create_items order values) db = set_orderitems ois seq db.
Proof.
  unfold exec. revert db. induction values as [|i rest IH]; intros db.
  - exists (orderitems db), (orderitem_seq db). now destruct db.
  - cbn [OrdersView.create_items].
    unfold bind at 1. unfold get_MenuItem_or_404, bind at 1, query at 1.
    destruct (find _ (menuitems db)) as [m|].
    + unfold ret at 1. unfold bind at 1. unfold OrderItem_objects_create.
      unfold bind at 1, query at 1, bind at 1, modify at 1, ret at 1.
      unfold bind at 1. unfold OrderItem_save, modify at 1.
      match goal with
      | |- context [OrdersView.create_items order rest ?d] =>
          destruct (IH d) as (ois & seq & ->)
      end.
      exists ois, seq. reflexivity.
    + exists (orderitems db), (orderitem_seq db). now destruct db.
Qed.

Lemma post_orders (db : DB) (u : User.t) (today : Z) :
  orders (exec (OrdersView.post u today) db)
  = if fits_decimal
         (OrdersView.calculate_total (user_lines (User.id u) (carts db)))
    then orders db
           ++ [Order.mk (order_seq db) (User.id u) None false
                 (OrdersView.calculate_total
                    (user_lines (User.id u) (carts db)))
                 today]
    else orders db.
Proof.
  remember (orders (exec (OrdersView.post u today) db)) as l eqn:Hl.
  unfold exec, OrdersView.post, Cart_objects_filter,
    Cart_objects_filter_delete in Hl.
  unfold bind at 1, query at 1 in Hl.
  unfold bind at 1 in Hl. rewrite Order_objects_create_run in Hl.
  destruct (fits_decimal _); [|exact Hl].
  unfold bind at 1, query at 1 in Hl.
  unfold bind at 1 in Hl.
  match type of Hl with
  | context [OrdersView.create_items ?o ?v ?d] =>
      destruct (create_items_frame o v d) as (ois & seq & Hc);
      unfold exec in Hc;
      destruct (OrdersView.create_items o v d) as [[[]|e] db1]
  end; cbn in Hc; subst db1; exact Hl.
Qed.

(** X9.  When the total of the cart fits its column, [post] of
    [OrdersView] appends an order, whether it then returns or raises on a
    line whose menu item is gone, and that order shows up at the end of
    the list of its owner when the owner is a manager, a superuser or a
    user with no role.  An owner who is in the Delivery Crew group and
    neither manager nor superuser lists the orders assigned to that user,
    and the new order, which has no delivery crew, is not among them.  The
    list of any other user who is neither manager nor superuser is as it
    was.  When the total does not fit, no order is made and every list is
    as it was. *)
Theorem placed_order_in_lists (db : DB) (u : User.t) (today : Z) :
  let total :=
    OrdersView.calculate_total (user_lines (User.id u) (carts db)) in
  let o := Order.mk (order_seq db) (User.id u) None false total today in
  let db' := exec (OrdersView.post u today) db in
  (fits_decimal total = true ->
   (is_manager u = true \/ User.is_superuser u = true ->
    result (OrdersView.get_queryset u) db' = Returned (orders db ++ [o])) /\
   (is_manager u = false -> User.is_superuser u = false ->
    is_delivery_crew u = true ->
    result (OrdersView.get_queryset u) db'
      = result (OrdersView.get_queryset u) db) /\
   (is_manager u = false -> User.is_superuser u = false ->
    is_delivery_crew u = false ->
    exists l, result (OrdersView.get_queryset u) db = Returned l /\
              result (OrdersView.get_queryset u) db' = Returned (l ++ [o])) /\
   (forall v, is_manager v = false -> User.is_superuser v = false ->
    User.id v <> User.id u ->
    result (OrdersView.get_queryset v) db'
      = result (OrdersView.get_queryset v) db)) /\
  (fits_decimal total = false ->
   orders db' = orders db /\
   forall v, result (OrdersView.get_queryset v) db'
             = result (OrdersView.get_queryset v) db).
Proof.
  cbn zeta. pose proof (post_orders db u today) as Ho.
  split.
  - intros Hfit. rewrite Hfit in Ho.
    unfold OrdersView.get_queryset, is_manager, is_delivery_crew, result.
    split; [|split; [|split]].
    + intros H.
      replace (in_group "Manager" u || Bool.eqb (User.is_superuser u) true)
        with true.
      * cbn. now rewrite Ho.
      * destruct H as [-> | ->]; [reflexivity|].
        cbn. now rewrite orb_true_r.
    + intros -> -> ->. cbn. rewrite Ho, filter_app. cbn.
      now rewrite app_nil_r.
    + intros -> -> ->. cbn. eexists. split; [reflexivity|].
      rewrite Ho, filter_app. cbn. now rewrite Z.eqb_refl.
    + intros v -> -> Hne. cbn.
      destruct (in_group "Delivery Crew" v); cbn; rewrite Ho, filter_app; cbn.
      * now rewrite app_nil_r.
      * replace (User.id u =? User.id v) with false
          by (symmetry; apply Z.eqb_neq; congruence).
        now rewrite app_nil_r.
  - intros Hfit. unfold exec.
    rewrite (post_overflow_run db u today Hfit).
    split; reflexivity.
Qed.

Lemma placed_order_in_lists_witness :
  fits_decimal
    (OrdersView.calculate_total (user_lines (User.id mallory) (carts db_cart)))
    = true /\
  result (OrdersView.get_queryset mallory)
         (exec (OrdersView.post mallory 20000) db_cart)
    = Returned (orders db_cart ++ [Order.mk 1 5 None false 0 20000]) /\
  result (OrdersView.get_queryset carol)
         (exec (OrdersView.post carol 20000) db_cart)
    = result (OrdersView.get_queryset carol) db_cart /\
  result (OrdersView.get_queryset bob)
         (exec (OrdersView.post alice 20000) db_cart)
    = result (OrdersView.get_queryset bob) db_cart /\
  fits_decimal
    (OrdersView.calculate_total (user_lines (User.id alice) (carts db_bulk)))
    = false /\
  orders (exec (OrdersView.post alice 20000) db_bulk) = orders db_bulk.
Proof.
  split; [reflexivity|]. split; [|split; [|split; [|split]]].
  - apply (proj1 (placed_order_in_lists db_cart mallory 20000) eq_refl).
    left. reflexivity.
  - apply (proj1 (proj2 (proj1 (placed_order_in_lists db_cart carol 20000)
                           eq_refl)));
      reflexivity.
  - apply (proj2 (proj2 (proj2 (proj1
             (placed_order_in_lists db_cart alice 20000) eq_refl))));
      [reflexivity|reflexivity|discriminate].
  - reflexivity.
  - exact (proj1 (proj2 (placed_order_in_lists db_bulk alice 20000) eq_refl)).
Defined.

(** ** One order: an order that is not there *)

Lemma initial_missing (db : DB) (method : Method) (r : Requester) (pk : Z) :
  find_order pk (orders db) = None ->
  SingleOrderView.initial method r pk db = (Raised DoesNotExist, db).
Proof.
  intros H.
  unfold SingleOrderView.initial, SingleOrderView.get_permissions,
    Order_objects_get, bind, query, raise. cbn.
  now rewrite H.
Qed.

(** X10.  For a primary key that no order has, [get_permissions] of
    [SingleOrderView] raises the [DoesNotExist] of [Order.objects.get],
    which nothing handles: every request to the endpoint, whatever the
    method and whoever asks, an anonymous requester too, ends in that
    error and leaves the store as it is.  The 404 that [put] itself
    answers for such a key is never reached through the endpoint. *)
Theorem single_order_missing (db : DB) (pk : Z) (r : Requester) :
  find_order pk (orders db) = None ->
  (forall method,
     SingleOrderView.initial method r pk db = (Raised DoesNotExist, db)) /\
  SingleOrderView.GetOrderDetail r pk db = (Raised DoesNotExist, db) /\
  SingleOrderView.ToggleDeliveryStatus r pk db = (Raised DoesNotExist, db) /\
  (forall d,
     SingleOrderView.AssignDeliveryCrew r pk d db = (Raised DoesNotExist, db)) /\
  (forall crew,
     In crew (users db) ->
     SingleOrderView.put pk (SingleOrderView.mkData (Some (User.id crew))) db
       = (Raised Http404, db)).
Proof.
  intros H. split; [|split; [|split; [|split]]].
  - intros method. now apply initial_missing.
  - unfold SingleOrderView.GetOrderDetail, bind.
    now rewrite initial_missing.
  - unfold SingleOrderView.ToggleDeliveryStatus, bind.
    now rewrite initial_missing.
  - intros d. unfold SingleOrderView.AssignDeliveryCrew, bind.
    now rewrite initial_missing.
  - intros crew Hin.
    unfold SingleOrderView.put, SingleOrderView.OrderPutSerializer_is_valid,
      get_Order_or_404, Order_objects_get, data_item, try_except, bind, query,
      ret, raise. cbn.
    assert (E : existsb (fun u => User.id u =? User.id crew) (users db) = true)
      by (apply existsb_exists; exists crew; split;
          [exact Hin|apply Z.eqb_refl]).
    rewrite E. cbn. now rewrite H.
Qed.

Lemma single_order_missing_witness :
  find_order 9 (orders db_order) = None /\
  SingleOrderView.GetOrderDetail (Authenticated mallory) 9 db_order
    = (Raised DoesNotExist, db_order) /\
  SingleOrderView.put 9 (SingleOrderView.mkData (Some (User.id carol)))
    db_order
    = (Raised Http404, db_order).
Proof.
  split; [reflexivity|].
  destruct (single_order_missing db_order 9 (Authenticated mallory) eq_refl)
    as (_ & Hget & _ & _ & Hput).
  split; [exact Hget|].
  apply (Hput carol). right. right. left. reflexivity.
Defined.

(** ** One order: who may do what *)

(** X11.  The permissions of [SingleOrderView] for an order that is
    there.  An anonymous requester is refused with 401 for every method.
    A manager or a staff user passes for every method.  A user of the
    Delivery Crew group who is neither passes for every method but PUT
    and DELETE.  A user with none of these passes only for GET of an
    order that user owns: the owner of an order may read it, and may
    neither toggle, assign nor delete it.  Being a superuser plays no
    part. *)
Theorem single_order_policy (db : DB) (pk : Z) (o : Order.t) :
  find_order pk (orders db) = Some o ->
  (forall method,
     result (SingleOrderView.initial method AnonymousUser pk) db
       = Raised NotAuthenticated) /\
  (forall method u,
     is_manager u = true \/ User.is_staff u = true ->
     result (SingleOrderView.initial method (Authenticated u) pk) db
       = Returned tt) /\
  (forall method u,
     is_delivery_crew u = true ->
     is_manager u = false -> User.is_staff u = false ->
     result (SingleOrderView.initial method (Authenticated u) pk) db
       = if Method_eqb method PUT || Method_eqb method DELETE
         then Raised PermissionDenied else Returned tt) /\
  (forall method u,
     is_delivery_crew u = false ->
     is_manager u = false -> User.is_staff u = false ->
     result (SingleOrderView.initial method (Authenticated u) pk) db
       = if (User.id u =? Order.user o) && Method_eqb method GET
         then Returned tt else Raised PermissionDenied).
Proof.
  intros H. split; [|split; [|split]].
  - intros method. unfold result. rewrite (initial_run db method _ pk o H).
    destruct method; reflexivity.
  - intros method u Hrole. unfold result. rewrite (initial_run db method _ pk o H).
    unfold check_permissions.
    destruct (is_owner (Authenticated u) o), method;
      cbn -[is_manager is_delivery_crew];
      destruct Hrole as [Hr|Hr]; rewrite ?Hr;
      cbn -[is_manager is_delivery_crew];
      rewrite ?orb_true_r; reflexivity.
  - intros method u Hd Hm Hs. unfold result. rewrite (initial_run db method _ pk o H).
    unfold check_permissions.
    destruct (is_owner (Authenticated u) o), method;
      cbn -[is_manager is_delivery_crew];
      rewrite ?Hd, ?Hm, ?Hs; reflexivity.
  - intros method u Hd Hm Hs. unfold result. rewrite (initial_run db method _ pk o H).
    unfold check_permissions. cbn [is_owner].
    destruct (User.id u =? Order.user o), method;
      cbn -[is_manager is_delivery_crew];
      rewrite ?Hd, ?Hm, ?Hs; reflexivity.
Qed.

Lemma single_order_policy_witness :
  find_order 1 (orders db_assigned)
    = Some (Order.mk 1 1 (Some 3) false 2200 20000) /\
  result (SingleOrderView.initial PATCH (Authenticated alice) 1) db_assigned
    = Raised PermissionDenied /\
  result (SingleOrderView.initial PATCH (Authenticated dave) 1) db_assigned
    = Returned tt /\
  result (SingleOrderView.initial DELETE (Authenticated mallory) 1) db_assigned
    = Returned tt.
Proof.
  split; [reflexivity|].
  destruct (single_order_policy db_assigned 1
              (Order.mk 1 1 (Some 3) false 2200 20000) eq_refl)
    as (_ & Hadmin & Hcrew & Hnone).
  split; [exact (Hnone PATCH alice eq_refl eq_refl eq_refl)|].
  split; [exact (Hcrew PATCH dave eq_refl eq_refl eq_refl)|].
  apply (Hadmin DELETE mallory). left. reflexivity.
Defined.

(** ** One order: assigning a delivery crew *)

Lemma saved_saved (o1 o2 : Order.t) (os : list Order.t) :
  Order.id o1 = Order.id o2 ->
  saved o2 (saved o1 os) = saved o2 os.
Proof.
  intros Hid. unfold saved. rewrite map_map. apply map_ext. intros r.
  rewrite Hid. destruct (Order.id r =? Order.id o2) eqn:E.
  - now rewrite Hid, Z.eqb_refl.
  - now rewrite E.
Qed.

Lemma put_run (db : DB) (pk : Z) (o : Order.t) (crew : User.t) :
  find_order pk (orders db) = Some o ->
  find (fun u => User.id u =? User.id crew) (users db) = Some crew ->
  SingleOrderView.put pk (SingleOrderView.mkData (Some (User.id crew))) db
  = (Returned (mkJsonResponse 201 (CrewAssigned (User.username crew) pk)),
     set_orders
       (saved (SingleOrderView.set_delivery_crew o (Some (User.id crew)))
              (orders db))
       (order_seq db) db).
Proof.
  intros Ho Hc. pose proof (find_order_id _ _ _ Ho) as Hid.
  unfold SingleOrderView.put, SingleOrderView.OrderPutSerializer_is_valid,
    get_Order_or_404, get_User_or_404, Order_objects_get, Order_save, data_item,
    try_except, bind, query, modify, ret, raise. cbn.
  assert (E : existsb (fun u => User.id u =? User.id crew) (users db) = true).
  { apply find_some in Hc. apply existsb_exists. exists crew. exact Hc. }
  rewrite E. cbn. rewrite Ho. cbn. rewrite Hc. cbn. now rewrite Hid.
Qed.

(** X12.  [put] of [SingleOrderView] assigns whatever user the body
    names: it looks the user up by primary key and does not look at the
    groups of that user, so a customer is assigned like a member of the
    delivery crew.  Assigning is idempotent: a second [put] with the same
    body answers 201 again and leaves the store as the first one did. *)
Theorem assign_any_user (db : DB) (pk : Z) (o : Order.t) (crew : User.t) :
  find_order pk (orders db) = Some o ->
  find (fun u => User.id u =? User.id crew) (users db) = Some crew ->
  let d := SingleOrderView.mkData (Some (User.id crew)) in
  let db1 := exec (SingleOrderView.put pk d) db in
  result (SingleOrderView.put pk d) db
    = Returned (mkJsonResponse 201 (CrewAssigned (User.username crew) pk)) /\
  option_map Order.delivery_crew (find_order pk (orders db1))
    = Some (Some (User.id crew)) /\
  SingleOrderView.put pk d db1
    = (Returned (mkJsonResponse 201 (CrewAssigned (User.username crew) pk)),
       db1).
Proof.
  intros Ho Hc. cbn zeta.
  pose proof (put_run db pk o crew Ho Hc) as R.
  pose proof (find_order_id _ _ _ Ho) as Hid.
  set (o1 := SingleOrderView.set_delivery_crew o (Some (User.id crew))) in *.
  unfold result, exec. rewrite R. cbn [fst snd].
  set (db1 := set_orders (saved o1 (orders db)) (order_seq db) db).
  assert (H1 : find_order pk (orders db1) = Some o1)
    by (apply (find_order_saved pk o); [exact Ho|exact Hid]).
  split; [reflexivity|]. split; [now rewrite H1|].
  rewrite (put_run db1 pk o1 crew H1 Hc). f_equal.
  unfold db1. cbn [orders order_seq set_orders].
  replace (SingleOrderView.set_delivery_crew o1 (Some (User.id crew)))
    with o1 by reflexivity.
  rewrite saved_saved by reflexivity.
  reflexivity.
Qed.

Lemma assign_any_user_witness :
  find_order 1 (orders db_order) = Some (Order.mk 1 1 None false 2200 20000) /\
  find (fun u => User.id u =? User.id bob) (users db_order) = Some bob /\
  is_delivery_crew bob = false /\
  option_map Order.delivery_crew
    (find_order 1
       (orders (exec (SingleOrderView.put 1
                        (SingleOrderView.mkData (Some (User.id bob))))
                     db_order)))
    = Some (Some (User.id bob)).
Proof.
  split; [reflexivity|]. split; [reflexivity|]. split; [reflexivity|].
  apply (assign_any_user db_order 1 (Order.mk 1 1 None false 2200 20000) bob
           eq_refl eq_refl).
Defined.

(** ** One order: toggling twice *)

Lemma saved_absent (o : Order.t) (os : list Order.t) :
  existsb (fun r => Order.id r =? Order.id o) os = false ->
  saved o os = os.
Proof.
  unfold saved. induction os as [|r os IH]; cbn; [reflexivity|].
  intros H. apply orb_false_iff in H. destruct H as [Hr H].
  rewrite Hr. now rewrite IH.
Qed.

Lemma saved_same (o : Order.t) (os : list Order.t) :
  distinct_order_ids os = true ->
  find_order (Order.id o) os = Some o ->
  saved o os = os.
Proof.
  unfold find_order. induction os as [|r os IH]; cbn; [reflexivity|].
  intros Hd Hf. apply andb_true_iff in Hd. destruct Hd as [Hr Hd].
  apply negb_true_iff in Hr.
  destruct (Order.id r =? Order.id o) eqn:E.
  - injection Hf as ->. f_equal. now apply saved_absent.
  - f_equal. now apply IH.
Qed.

Lemma set_orders_same (db : DB) :
  set_orders (orders db) (order_seq db) db = db.
Proof. now destruct db. Qed.

(** X13.  With distinct primary keys in the order table, two [patch]
    requests in a row on an order undo each other on the whole store:
    not only the status is back, every table is as it was. *)
Theorem toggle_twice_restores_store (db : DB) (pk : Z) (o : Order.t) :
  distinct_order_ids (orders db) = true ->
  find_order pk (orders db) = Some o ->
  exec (SingleOrderView.patch pk) (exec (SingleOrderView.patch pk) db) = db.
Proof.
  intros Hd H.
  pose proof (patch_run db pk o H) as R1. cbn zeta in R1.
  pose proof (find_order_id _ _ _ H) as Hid.
  set (o1 := SingleOrderView.set_status o (negb (Order.status o))) in *.
  unfold exec at 2. rewrite R1. cbn [snd].
  set (db1 := set_orders (saved o1 (orders db)) (order_seq db) db).
  assert (H1 : find_order pk (orders db1) = Some o1)
    by (apply (find_order_saved pk o); [exact H|exact Hid]).
  pose proof (patch_run db1 pk o1 H1) as R2. cbn zeta in R2.
  unfold exec. rewrite R2. cbn [snd].
  assert (Ho : SingleOrderView.set_status o1 (negb (Order.status o1)) = o)
    by (destruct o as [i us dc st tot dt]; cbn; now rewrite negb_involutive).
  rewrite Ho. unfold db1. cbn [orders order_seq set_orders].
  rewrite saved_saved by (cbn; reflexivity).
  rewrite saved_same; [|exact Hd|now rewrite Hid].
  unfold set_orders. cbn. now destruct db.
Qed.

Lemma toggle_twice_restores_store_witness :
  distinct_order_ids (orders db_assigned) = true /\
  find_order 1 (orders db_assigned)
    = Some (Order.mk 1 1 (Some 3) false 2200 20000) /\
  exec (SingleOrderView.patch 1) (exec (SingleOrderView.patch 1) db_assigned)
    = db_assigned.
Proof.
  split; [reflexivity|]. split; [reflexivity|].
  exact (toggle_twice_restores_store db_assigned 1
           (Order.mk 1 1 (Some 3) false 2200 20000) eq_refl eq_refl).
Defined.

(** ** Requests that fail, and the store *)

Lemma check_permissions_pure (ps : list Permission) (r : Requester) (db : DB) :
  exec (check_permissions ps r) db = db.
Proof.
  unfold exec, check_permissions.
  destruct (forallb _ ps); [reflexivity|]. destruct r; reflexivity.
Qed.

Lemma initial_pure (db : DB) (method : Method) (r : Requester) (pk : Z) :
  exec (SingleOrderView.initial method r pk) db = db.
Proof.
  destruct (find_order pk (orders db)) as [o|] eqn:H.
  - unfold exec. rewrite (initial_run db method r pk o H).
    apply check_permissions_pure.
  - unfold exec. now rewrite initial_missing.
Qed.

Lemma detail_pure (db : DB) (ois : list OrderItem.t) :
  exec (for_each SingleOrderSerializer.to_representation ois) db = db.
Proof.
  unfold exec. induction ois as [|oi ois IH]; [reflexivity|].
  cbn [for_each]. unfold bind at 1. rewrite to_representation_run.
  destruct (find _ (menuitems db)); [|reflexivity].
  unfold bind at 1.
  destruct (for_each SingleOrderSerializer.to_representation ois db)
    as [[rows|e] db1]; cbn in *; exact IH.
Qed.

Lemma after_initial {A} (db : DB) (method : Method) (r : Requester) (pk : Z)
    (handler : ORM A) :
  (SingleOrderView.initial method r pk ;;; handler) db = handler db \/
  exists e,
    (SingleOrderView.initial method r pk ;;; handler) db = (Raised e, db).
Proof.
  pose proof (initial_pure db method r pk) as Hp. unfold exec in Hp.
  unfold bind.
  destruct (SingleOrderView.initial method r pk db) as [[[]|e] db1];
    cbn in Hp; subst db1.
  - now left.
  - right. now exists e.
Qed.

Lemma patch_raised (db : DB) (pk : Z) (e : Exception) :
  result (SingleOrderView.patch pk) db = Raised e ->
  exec (SingleOrderView.patch pk) db = db.
Proof.
  unfold result, exec.
  destruct (find_order pk (orders db)) as [o|] eqn:H.
  - rewrite (patch_run db pk o H). discriminate.
  - now rewrite (patch_missing db pk H).
Qed.

Lemma put_raised (db : DB) (pk : Z) (d : SingleOrderView.Data)
    (e : Exception) :
  result (SingleOrderView.put pk d) db = Raised e ->
  exec (SingleOrderView.put pk d) db = db.
Proof.
  unfold result, exec, SingleOrderView.put,
    SingleOrderView.OrderPutSerializer_is_valid,
    get_Order_or_404, get_User_or_404, Order_objects_get, Order_save, data_item,
    try_except, bind, query, modify, ret, raise.
  destruct d as [[c|]]; cbn; [|reflexivity].
  destruct (existsb (fun u => User.id u =? c) (users db)); cbn; [|reflexivity].
  destruct (find_order pk (orders db)) as [o|]; cbn; [|reflexivity].
  destruct (find (fun u => User.id u =? c) (users db)) as [crew|]; cbn;
    [discriminate|reflexivity].
Qed.

(** X14.  The requests of the cart and of one order either do their
    work or change nothing: a [delete] of [Customer_Cart], a
    ToggleDeliveryStatus and an AssignDeliveryCrew that raise, on the
    permission check or in the handler, leave the store as it was, and
    GetOrderDetail never writes. *)
Theorem failed_request_changes_nothing (db : DB) :
  (forall u d e,
     result (Customer_Cart.delete u d) db = Raised e ->
     exec (Customer_Cart.delete u d) db = db) /\
  (forall r pk e,
     result (SingleOrderView.ToggleDeliveryStatus r pk) db = Raised e ->
     exec (SingleOrderView.ToggleDeliveryStatus r pk) db = db) /\
  (forall r pk d e,
     result (SingleOrderView.AssignDeliveryCrew r pk d) db = Raised e ->
     exec (SingleOrderView.AssignDeliveryCrew r pk d) db = db) /\
  (forall r pk, exec (SingleOrderView.GetOrderDetail r pk) db = db).
Proof.
  split; [|split; [|split]].
  - intros u d e. unfold result, exec.
    destruct (Customer_Cart.menuitem d) as [m|] eqn:Hm.
    + rewrite (cart_remove_run db u d m Hm).
      destruct (menu_has (menuitems db) m); [|reflexivity].
      destruct (lines_of_pair (User.id u) m (carts db)) as [|c [|c' l]];
        [reflexivity|discriminate|reflexivity].
    + unfold Customer_Cart.delete. rewrite Hm. discriminate.
  - intros r pk e. unfold SingleOrderView.ToggleDeliveryStatus.
    destruct (after_initial db PATCH r pk (SingleOrderView.patch pk))
      as [E|[e' E]]; unfold result, exec; rewrite E; [|reflexivity].
    apply patch_raised.
  - intros r pk d e. unfold SingleOrderView.AssignDeliveryCrew.
    destruct (after_initial db PUT r pk (SingleOrderView.put pk d))
      as [E|[e' E]]; unfold result, exec; rewrite E; [|reflexivity].
    apply put_raised.
  - intros r pk. unfold SingleOrderView.GetOrderDetail.
    destruct (after_initial db GET r pk (SingleOrderView.get pk))
      as [E|[e' E]]; unfold exec; rewrite E; [|reflexivity].
    rewrite get_run. apply detail_pure.
Qed.

Lemma failed_request_changes_nothing_witness :
  result (SingleOrderView.ToggleDeliveryStatus (Authenticated alice) 1)
         db_order
    = Raised PermissionDenied /\
  exec (SingleOrderView.ToggleDeliveryStatus (Authenticated alice) 1) db_order
    = db_order.
Proof.
  split; [reflexivity|].
  apply (proj1 (proj2 (failed_request_changes_nothing db_order))
           (Authenticated alice) 1 PermissionDenied).
  reflexivity.
Defined.

(** ** One order: the rows of the detail *)




(** ** The menu: the featured flag *)

Lemma find_map_keeps_id (f : MenuItem.t -> MenuItem.t) (x : Z)
    (ms : list MenuItem.t) :
  (forall r, MenuItem.id (f r) = MenuItem.id r) ->
  find (fun m => MenuItem.id m =? x) (map f ms)
  = option_map f (find (fun m => MenuItem.id m =? x) ms).
Proof.
  intros Hf. induction ms as [|m ms IH]; cbn; [reflexivity|].
  rewrite Hf. destruct (MenuItem.id m =? x); [reflexivity|exact IH].
Qed.

Lemma featured_saved_id (m' r : MenuItem.t) :
  MenuItem.id (featured_saved m' r) = MenuItem.id r.
Proof.
  unfold featured_saved. destruct (MenuItem.id r =? MenuItem.id m') eqn:E;
    [now apply Z.eqb_eq in E|reflexivity].
Qed.

Lemma item_patch_run (db : DB) (pk : Z) (m : MenuItem.t) :
  find (fun r => MenuItem.id r =? pk) (menuitems db) = Some m ->
  let m' := SingleItemView.set_featured m (negb (MenuItem.featured m)) in
  SingleItemView.patch pk db
  = (Returned (mkTextResponse 200
                 ("Featured status of " ++ MenuItem.title m
                  ++ " changed to "
                  ++ str_bool (negb (MenuItem.featured m)))),
     set_menuitems (map (featured_saved m') (menuitems db)) db).
Proof.
  intros H.
  unfold SingleItemView.patch, SingleItemView.MenuItem_objects_get,
    SingleItemView.MenuItem_save, bind, query, modify, ret. cbn.
  rewrite H. reflexivity.
Qed.

(** After the flag of [m] is saved, a lookup finds the same title and
    the same price as before. *)
Lemma find_after_featured (db : DB) (pk x : Z) (m : MenuItem.t) (f : bool) :
  find (fun r => MenuItem.id r =? pk) (menuitems db) = Some m ->
  match find (fun r => MenuItem.id r =? x)
             (map (featured_saved (SingleItemView.set_featured m f))
                  (menuitems db)),
        find (fun r => MenuItem.id r =? x) (menuitems db) with
  | Some r', Some r =>
      MenuItem.id r' = MenuItem.id r /\
      MenuItem.title r' = MenuItem.title r /\
      MenuItem.price r' = MenuItem.price r
  | None, None => True
  | _, _ => False
  end.
Proof.
  intros H. rewrite (find_map_keeps_id _ x _ (featured_saved_id _)).
  assert (Hpk : MenuItem.id m = pk)
    by (apply find_some in H; destruct H as [_ H]; now apply Z.eqb_eq in H).
  destruct (Z.eq_dec x pk) as [->|Hne].
  - rewrite H. cbn. unfold featured_saved. cbn. rewrite Z.eqb_refl.
    repeat split.
  - destruct (find (fun r => MenuItem.id r =? x) (menuitems db)) as [r|] eqn:E;
      cbn; [|exact I].
    apply find_some in E. destruct E as [_ E]. apply Z.eqb_eq in E.
    unfold featured_saved. cbn.
    replace (MenuItem.id r =? MenuItem.id m) with false
      by (symmetry; apply Z.eqb_neq; congruence).
    repeat split.
Qed.

Lemma detail_same_menu (db db1 : DB) (ois : list OrderItem.t) :
  (forall x,
     match find (fun r => MenuItem.id r =? x) (menuitems db1),
           find (fun r => MenuItem.id r =? x) (menuitems db) with
     | Some r', Some r =>
         MenuItem.id r' = MenuItem.id r /\
         MenuItem.title r' = MenuItem.title r /\
         MenuItem.price r' = MenuItem.price r
     | None, None => True
     | _, _ => False
     end) ->
  result (for_each SingleOrderSerializer.to_representation ois) db1
  = result (for_each SingleOrderSerializer.to_representation ois) db.
Proof.
  intros Hm. unfold result.
  induction ois as [|oi ois IH]; [reflexivity|].
  cbn [for_each]. unfold bind at 1 3. rewrite !to_representation_run.
  specialize (Hm (OrderItem.menuitem_id oi)).
  destruct (find _ (menuitems db1)) as [r'|],
           (find _ (menuitems db)) as [r|]; try contradiction;
    [|reflexivity].
  destruct Hm as (_ & -> & ->).
  unfold bind at 1 2.
  pose proof (detail_pure db1 ois) as P1. pose proof (detail_pure db ois) as P.
  unfold exec in P1, P.
  destruct (for_each SingleOrderSerializer.to_representation ois db1)
    as [[rows1|e1] d1],
    (for_each SingleOrderSerializer.to_representation ois db)
    as [[rows|e] d]; cbn in *; congruence.
Qed.

(** X16.  [patch] of [SingleItemView] on a primary key that no menu
    item has raises the unhandled [DoesNotExist] and changes nothing.  On
    a menu item that is there it answers 200 with the title and the new
    flag in the text and flips the flag; a lookup of any menu item finds
    the same title and price as before, so the detail of every order
    reads as before; and a second [patch] brings the flag back. *)
Theorem toggle_featured (db : DB) (pk : Z) :
  (find (fun r => MenuItem.id r =? pk) (menuitems db) = None ->
   SingleItemView.patch pk db = (Raised DoesNotExist, db)) /\
  (forall m,
     find (fun r => MenuItem.id r =? pk) (menuitems db) = Some m ->
     let db1 := exec (SingleItemView.patch pk) db in
     result (SingleItemView.patch pk) db
       = Returned (mkTextResponse 200
                     ("Featured status of " ++ MenuItem.title m
                      ++ " changed to "
                      ++ str_bool (negb (MenuItem.featured m)))) /\
     find (fun r => MenuItem.id r =? pk) (menuitems db1)
       = Some (SingleItemView.set_featured m (negb (MenuItem.featured m))) /\
     (forall order_pk,
        result (SingleOrderView.get order_pk) db1
        = result (SingleOrderView.get order_pk) db) /\
     option_map MenuItem.featured
       (find (fun r => MenuItem.id r =? pk)
             (menuitems (exec (SingleItemView.patch pk) db1)))
       = Some (MenuItem.featured m)).
Proof.
  split.
  - intros H.
    unfold SingleItemView.patch, SingleItemView.MenuItem_objects_get,
      bind, query, raise. cbn. now rewrite H.
  - intros m H. cbn zeta.
    pose proof (item_patch_run db pk m H) as R. cbn zeta in R.
    set (m1 := SingleItemView.set_featured m (negb (MenuItem.featured m))) in *.
    assert (Hpk : MenuItem.id m = pk)
      by (apply find_some in H; destruct H as [_ H]; now apply Z.eqb_eq in H).
    set (db1 := set_menuitems (map (featured_saved m1) (menuitems db)) db)
      in *.
    assert (E : exec (SingleItemView.patch pk) db = db1)
      by (unfold exec; now rewrite R).
    rewrite !E. unfold result at 1. rewrite R. cbn [fst].
    assert (H1 : find (fun r => MenuItem.id r =? pk) (menuitems db1) = Some m1).
    { unfold db1. cbn [menuitems set_menuitems].
      rewrite (find_map_keeps_id _ pk _ (featured_saved_id _)), H. cbn.
      unfold featured_saved. cbn. now rewrite Z.eqb_refl. }
    split; [reflexivity|]. split; [exact H1|]. split.
    + intros order_pk. unfold result. rewrite !get_run.
      replace (order_items order_pk db1) with (order_items order_pk db)
        by reflexivity.
      apply detail_same_menu. intros x.
      apply (find_after_featured db pk x m _ H).
    + pose proof (item_patch_run db1 pk m1 H1) as R2. cbn zeta in R2.
      unfold exec. rewrite R2. cbn [snd menuitems set_menuitems].
      rewrite (find_map_keeps_id _ pk _ (featured_saved_id _)), H1. cbn.
      unfold featured_saved. cbn. rewrite Z.eqb_refl. cbn.
      now rewrite negb_involutive.
Qed.

Lemma toggle_featured_witness :
  SingleItemView.patch 7 db_order = (Raised DoesNotExist, db_order) /\
  result (SingleItemView.patch 1) db_order
    = Returned (mkTextResponse 200
                  "Featured status of Item A changed to True") /\
  result (SingleOrderView.get 1) (exec (SingleItemView.patch 1) db_order)
    = result (SingleOrderView.get 1) db_order.
Proof.
  destruct (toggle_featured db_order 7) as [Hmissing _].
  destruct (toggle_featured db_order 1) as [_ Hthere].
  destruct (Hthere item_A eq_refl) as (Hr & _ & Hd & _).
  split; [exact (Hmissing eq_refl)|]. split; [exact Hr|exact (Hd 1)].
Defined.

(** ** The menu: who may write *)

(** X17.  The permissions of [SingleItemView]: PATCH asks for a
    manager or a staff user, DELETE for a staff user, and every other
    method, PUT among them, only for an authenticated user: a user with
    no role passes the permission check of the update of a menu item,
    and is refused its PATCH and its DELETE; a manager who is not staff
    passes PATCH and is refused DELETE. *)
Theorem single_item_policy (db : DB) (u : User.t) :
  (forall method,
     check_permissions (SingleItemView.get_permissions method) AnonymousUser db
       = (Raised NotAuthenticated, db)) /\
  (forall method,
     Method_eqb method PATCH = false -> Method_eqb method DELETE = false ->
     check_permissions (SingleItemView.get_permissions method)
                       (Authenticated u) db = (Returned tt, db)) /\
  check_permissions (SingleItemView.get_permissions PATCH) (Authenticated u) db
    = (if is_manager u || User.is_staff u
       then Returned tt else Raised PermissionDenied, db) /\
  check_permissions (SingleItemView.get_permissions DELETE) (Authenticated u) db
    = (if User.is_staff u then Returned tt else Raised PermissionDenied, db).
Proof.
  split; [|split; [|split]].
  - intros method. destruct method; reflexivity.
  - intros method Hp Hd. destruct method; try discriminate; reflexivity.
  - unfold check_permissions. cbn -[is_manager].
    destruct (is_manager u || User.is_staff u); reflexivity.
  - unfold check_permissions. cbn.
    destruct (User.is_staff u); reflexivity.
Qed.

Lemma single_item_policy_witness :
  check_permissions (SingleItemView.get_permissions PUT) (Authenticated alice)
                    db0 = (Returned tt, db0) /\
  check_permissions (SingleItemView.get_permissions PATCH)
                    (Authenticated alice) db0
    = (Raised PermissionDenied, db0) /\
  check_permissions (SingleItemView.get_permissions DELETE)
                    (Authenticated mallory) db0
    = (Raised PermissionDenied, db0).
Proof.
  destruct (single_item_policy db0 alice) as (_ & Hany & Hpatch & _).
  destruct (single_item_policy db0 mallory) as (_ & _ & _ & Hdelete).
  split; [exact (Hany PUT eq_refl eq_refl)|].
  split; [exact Hpatch|exact Hdelete].
Defined.

(** X18.  The permissions of [CategoryView] and of [MenuItemView] are
    the same: every method but POST is open to everybody, an anonymous
    requester too; POST passes for staff users only, a manager who is
    not staff is refused with 403 and an anonymous requester with 401. *)
Theorem menu_lists_policy (db : DB) (method : Method) (r : Requester) :
  MenuItemView.get_permissions method = CategoryView.get_permissions method /\
  (Method_eqb method POST = false ->
   check_permissions (MenuItemView.get_permissions method) r db
     = (Returned tt, db)) /\
  check_permissions (MenuItemView.get_permissions POST) r db
    = match r with
      | AnonymousUser => (Raised NotAuthenticated, db)
      | Authenticated u =>
          (if User.is_staff u then Returned tt else Raised PermissionDenied, db)
      end.
Proof.
  split; [reflexivity|]. split.
  - intros H. unfold MenuItemView.get_permissions. rewrite H. reflexivity.
  - destruct r as [|u]; [reflexivity|].
    unfold check_permissions. cbn. destruct (User.is_staff u); reflexivity.
Qed.

Lemma menu_lists_policy_witness :
  check_permissions (MenuItemView.get_permissions GET) AnonymousUser db0
    = (Returned tt, db0) /\
  check_permissions (MenuItemView.get_permissions POST)
                    (Authenticated mallory) db0
    = (Raised PermissionDenied, db0).
Proof.
  split.
  - apply (menu_lists_policy db0 GET AnonymousUser). reflexivity.
  - exact (proj2 (proj2 (menu_lists_policy db0 POST (Authenticated mallory)))).
Defined.

(** ** Groups: adding a user to a group *)

Lemma in_group_with_group (name : string) (u : User.t) :
  in_group name (with_group name u) = true.
Proof.
  unfold with_group. destruct (in_group name u) eqn:E; [exact E|].
  unfold in_group. cbn. rewrite existsb_app. cbn.
  now rewrite String.eqb_refl, orb_true_r.
Qed.

Lemma with_group_keeps (name g : string) (u : User.t) :
  User.id (with_group name u) = User.id u /\
  User.username (with_group name u) = User.username u /\
  User.is_staff (with_group name u) = User.is_staff u /\
  User.is_superuser (with_group name u) = User.is_superuser u /\
  (in_group g u = true -> in_group g (with_group name u) = true).
Proof.
  unfold with_group. destruct (in_group name u); cbn; repeat split; auto.
  unfold in_group. cbn. intros H. rewrite existsb_app, H. reflexivity.
Qed.

Lemma with_group_idem (name : string) (u : User.t) :
  with_group name (with_group name u) = with_group name u.
Proof.
  unfold with_group at 1. now rewrite in_group_with_group.
Qed.

Lemma granted_keeps (name : string) (user r : User.t) :
  User.id (granted name user r) = User.id r /\
  User.username (granted name user r) = User.username r.
Proof.
  unfold granted. destruct (User.id r =? User.id user); [|now split].
  destruct (with_group_keeps name name r) as (H1 & H2 & _). now split.
Qed.

Lemma find_username_granted (name uname : string) (user : User.t)
    (us : list User.t) :
  find_username uname (map (granted name user) us)
  = option_map (granted name user) (find_username uname us).
Proof.
  unfold find_username. induction us as [|r us IH]; cbn; [reflexivity|].
  rewrite (proj2 (granted_keeps name user r)).
  destruct (String.eqb (User.username r) uname); [reflexivity|exact IH].
Qed.

Lemma granted_idem (name : string) (user user' : User.t) (us : list User.t) :
  User.id user' = User.id user ->
  map (granted name user') (map (granted name user) us)
  = map (granted name user) us.
Proof.
  intros Hid. rewrite map_map. apply map_ext. intros r.
  unfold granted at 1. rewrite (proj1 (granted_keeps name user r)), Hid.
  unfold granted. destruct (User.id r =? User.id user); [|reflexivity].
  apply with_group_idem.
Qed.

Lemma granted_others (name : string) (user r : User.t) (us : list User.t) :
  User.id r <> User.id user ->
  In r (map (granted name user) us) <-> In r us.
Proof.
  intros Hne. rewrite in_map_iff. split.
  - intros (r0 & Hr & Hin). unfold granted in Hr.
    destruct (User.id r0 =? User.id user) eqn:E; [|now subst].
    exfalso. apply Z.eqb_eq in E. apply Hne. rewrite <- Hr.
    rewrite (proj1 (with_group_keeps name name r0)). exact E.
  - intros Hin. exists r. split; [|exact Hin]. unfold granted.
    now replace (User.id r =? User.id user) with false
      by (symmetry; now apply Z.eqb_neq).
Qed.

Lemma managers_post_run (db : DB) (auth_group : list string) (d : GroupData) :
  ManagerUsersView.post auth_group d db =
    match username d with
    | None => (Raised KeyError, db)
    | Some name =>
        if String.eqb name "" then (Returned None, db)
        else match find_username name (users db) with
             | None => (Raised Http404, db)
             | Some user =>
                 if existsb (String.eqb "Manager") auth_group
                 then (Returned
                         (Some (mkTextResponse 201
                                  "User added to Managers group")),
                       set_users (map (granted "Manager" user) (users db)) db)
                 else (Raised DoesNotExist, db)
             end
    end.
Proof.
  unfold ManagerUsersView.post, get_User_by_username_or_404, Group_objects_get,
    Group_user_set_add, data_item, find_username, bind, query, modify, ret,
    raise.
  destruct (username d) as [name|]; [|reflexivity].
  destruct (String.eqb name ""); cbn [negb]; [reflexivity|].
  destruct (find _ (users db)) as [user|]; [|reflexivity].
  destruct (existsb (String.eqb "Manager") auth_group); reflexivity.
Qed.

Lemma crew_post_run (db : DB) (auth_group : list string) (d : GroupData) :
  Delivery_crew_management.post auth_group d db =
    match username d with
    | None => (Raised KeyError, db)
    | Some name =>
        if String.eqb name "" then (Returned None, db)
        else match find_username name (users db) with
             | None => (Raised Http404, db)
             | Some user =>
                 if existsb (String.eqb "Delivery Crew") auth_group
                 then (Returned
                         (Some (mkTextResponse 201
                                  "User added to Delivery Crew")),
                       set_users
                         (map (granted "Delivery Crew" user) (users db)) db)
                 else (Raised DoesNotExist, db)
             end
    end.
Proof.
  unfold Delivery_crew_management.post, get_User_by_username_or_404,
    Group_objects_get, Group_user_set_add, data_item, find_username, bind,
    query, modify, ret, raise.
  destruct (username d) as [name|]; [|reflexivity].
  destruct (String.eqb name ""); cbn [negb]; [reflexivity|].
  destruct (find _ (users db)) as [user|]; [|reflexivity].
  destruct (existsb (String.eqb "Delivery Crew") auth_group); reflexivity.
Qed.

Lemma set_users_twice (us : list User.t) (db : DB) :
  set_users us (set_users us db) = set_users us db.
Proof. reflexivity. Qed.

(** X19.  [post] of [ManagerUsersView] for the username of a user
    that is there, the group Manager being in the group table: it answers
    201; the user is in the Manager group afterwards, listed by
    [get_queryset], with the same primary key, staff flag and other
    groups as before; the rows of all other users are as they were; and a
    second [post] with the same body answers 201 and changes nothing
    more. *)
Theorem grant_manager (db : DB) (auth_group : list string) (name : string)
    (user : User.t) :
  existsb (String.eqb "Manager") auth_group = true ->
  String.eqb name "" = false ->
  find_username name (users db) = Some user ->
  let d := mkGroupData (Some name) in
  let db1 := exec (ManagerUsersView.post auth_group d) db in
  let answer := Some (mkTextResponse 201 "User added to Managers group") in
  result (ManagerUsersView.post auth_group d) db = Returned answer /\
  (exists user1 l,
     find_username name (users db1) = Some user1 /\
     is_manager user1 = true /\
     User.id user1 = User.id user /\
     User.is_staff user1 = User.is_staff user /\
     (forall g, in_group g user = true -> in_group g user1 = true) /\
     result (ManagerUsersView.get_queryset auth_group) db1 = Returned l /\
     In user1 l) /\
  (forall r, User.id r <> User.id user ->
     (In r (users db1) <-> In r (users db))) /\
  ManagerUsersView.post auth_group d db1 = (Returned answer, db1).
Proof.
  intros Hg Hn Hu. cbn zeta.
  pose proof (managers_post_run db auth_group (mkGroupData (Some name))) as R.
  cbn [username] in R. rewrite Hn, Hu, Hg in R.
  set (db1 := set_users (map (granted "Manager" user) (users db)) db) in *.
  assert (E : exec (ManagerUsersView.post auth_group
                      (mkGroupData (Some name))) db = db1)
    by (unfold exec; now rewrite R).
  rewrite E. unfold result at 1. rewrite R. cbn [fst].
  assert (Hu1 : find_username name (users db1)
                = Some (with_group "Manager" user)).
  { unfold db1. cbn [users set_users]. rewrite find_username_granted, Hu.
    cbn. unfold granted. now rewrite Z.eqb_refl. }
  destruct (with_group_keeps "Manager" "Manager" user)
    as (Kid & _ & Kstaff & _ & _).
  split; [reflexivity|]. split; [|split].
  - exists (with_group "Manager" user).
    exists (filter (in_group "Manager") (users db1)).
    split; [exact Hu1|]. split; [apply in_group_with_group|].
    split; [exact Kid|]. split; [exact Kstaff|]. split.
    + intros g. apply with_group_keeps.
    + split.
      * unfold result, ManagerUsersView.get_queryset, Group_objects_get,
          User_objects_filter_groups, bind, query, ret.
        now rewrite Hg.
      * apply filter_In. split; [|apply in_group_with_group].
        unfold find_username in Hu1. now apply find_some in Hu1.
  - intros r Hne. unfold db1. cbn [users set_users].
    now apply granted_others.
  - rewrite managers_post_run. cbn [username]. rewrite Hn, Hu1, Hg.
    f_equal. unfold db1 at 1 2. cbn [users set_users].
    rewrite granted_idem by exact Kid. reflexivity.
Qed.

Lemma grant_manager_witness :
  existsb (String.eqb "Manager") ["Manager"; "Delivery Crew"] = true /\
  String.eqb "bob" "" = false /\
  find_username "bob" (users db0) = Some bob /\
  result (ManagerUsersView.post ["Manager"; "Delivery Crew"]
            (mkGroupData (Some "bob"))) db0
    = Returned (Some (mkTextResponse 201 "User added to Managers group")).
Proof.
  split; [reflexivity|]. split; [reflexivity|]. split; [reflexivity|].
  apply (grant_manager db0 ["Manager"; "Delivery Crew"] "bob" bob
           eq_refl eq_refl eq_refl).
Defined.

(** X20.  [post] of [Delivery_crew_management] for the username of a
    user that is there, the group Delivery Crew being in the group
    table: it answers 201, the user is in the Delivery Crew group
    afterwards, and from then on passes the permission check of GET and of
    PATCH for every order that is there, owned or assigned or neither. *)
Theorem grant_delivery_crew (db : DB) (auth_group : list string)
    (name : string) (user : User.t) :
  existsb (String.eqb "Delivery Crew") auth_group = true ->
  String.eqb name "" = false ->
  find_username name (users db) = Some user ->
  let d := mkGroupData (Some name) in
  let db1 := exec (Delivery_crew_management.post auth_group d) db in
  result (Delivery_crew_management.post auth_group d) db
    = Returned (Some (mkTextResponse 201 "User added to Delivery Crew")) /\
  exists user1,
    find_username name (users db1) = Some user1 /\
    is_delivery_crew user1 = true /\
    forall pk o,
      find_order pk (orders db1) = Some o ->
      result (SingleOrderView.initial GET (Authenticated user1) pk) db1
        = Returned tt /\
      result (SingleOrderView.initial PATCH (Authenticated user1) pk) db1
        = Returned tt.
Proof.
  intros Hg Hn Hu. cbn zeta.
  pose proof (crew_post_run db auth_group (mkGroupData (Some name))) as R.
  cbn [username] in R. rewrite Hn, Hu, Hg in R.
  set (db1 := set_users (map (granted "Delivery Crew" user) (users db)) db)
    in *.
  assert (E : exec (Delivery_crew_management.post auth_group
                      (mkGroupData (Some name))) db = db1)
    by (unfold exec; now rewrite R).
  rewrite E. unfold result at 1. rewrite R. cbn [fst].
  split; [reflexivity|].
  exists (with_group "Delivery Crew" user).
  assert (Hc : is_delivery_crew (with_group "Delivery Crew" user) = true)
    by apply in_group_with_group.
  split; [|split; [exact Hc|]].
  - unfold db1. cbn [users set_users]. rewrite find_username_granted, Hu.
    cbn. unfold granted. now rewrite Z.eqb_refl.
  - intros pk o Ho. unfold result.
    rewrite !(initial_run db1 _ _ pk o Ho). unfold check_permissions.
    split.
    + destruct (is_owner _ o); cbn -[is_manager is_delivery_crew];
        rewrite ?Hc; reflexivity.
    + rewrite andb_false_r. cbn -[is_manager is_delivery_crew].
      now rewrite Hc.
Qed.

Lemma grant_delivery_crew_witness :
  existsb (String.eqb "Delivery Crew") ["Manager"; "Delivery Crew"] = true /\
  String.eqb "bob" "" = false /\
  find_username "bob" (users db_order) = Some bob /\
  result (Delivery_crew_management.post ["Manager"; "Delivery Crew"]
            (mkGroupData (Some "bob"))) db_order
    = Returned (Some (mkTextResponse 201 "User added to Delivery Crew")).
Proof.
  split; [reflexivity|]. split; [reflexivity|]. split; [reflexivity|].
  apply (grant_delivery_crew db_order ["Manager"; "Delivery Crew"] "bob" bob
           eq_refl eq_refl eq_refl).
Defined.

(** X21.  What the two group [post] handlers do when they do not add:
    a body without the key [username] is a [KeyError]; an empty username
    makes the handler return nothing, no response at all; a username that
    no user has is a 404, looked up before the group is; and a group that
    is not in the group table is a [DoesNotExist].  None of them changes
    the store. *)
Theorem grant_failures (db : DB) (auth_group : list string) :
  (forall d, username d = None ->
     ManagerUsersView.post auth_group d db = (Raised KeyError, db) /\
     Delivery_crew_management.post auth_group d db = (Raised KeyError, db)) /\
  (forall d, username d = Some "" ->
     ManagerUsersView.post auth_group d db = (Returned None, db) /\
     Delivery_crew_management.post auth_group d db = (Returned None, db)) /\
  (forall d name,
     username d = Some name -> String.eqb name "" = false ->
     find_username name (users db) = None ->
     ManagerUsersView.post auth_group d db = (Raised Http404, db) /\
     Delivery_crew_management.post auth_group d db = (Raised Http404, db)) /\
  (forall d name user,
     username d = Some name -> String.eqb name "" = false ->
     find_username name (users db) = Some user ->
     (existsb (String.eqb "Manager") auth_group = false ->
      ManagerUsersView.post auth_group d db = (Raised DoesNotExist, db)) /\
     (existsb (String.eqb "Delivery Crew") auth_group = false ->
      Delivery_crew_management.post auth_group d db
        = (Raised DoesNotExist, db))).
Proof.
  split; [|split; [|split]].
  - intros d H. rewrite managers_post_run, crew_post_run, H. now split.
  - intros d H. rewrite managers_post_run, crew_post_run, H. now split.
  - intros d name H Hn Hu.
    rewrite managers_post_run, crew_post_run, H, Hn, Hu. now split.
  - intros d name user H Hn Hu.
    rewrite managers_post_run, crew_post_run, H, Hn, Hu.
    split; intros ->; reflexivity.
Qed.

Lemma grant_failures_witness :
  ManagerUsersView.post ["Manager"] (mkGroupData (Some "")) db0
    = (Returned None, db0) /\
  Delivery_crew_management.post ["Manager"] (mkGroupData (Some "nobody")) db0
    = (Raised Http404, db0) /\
  Delivery_crew_management.post ["Manager"] (mkGroupData (Some "bob")) db0
    = (Raised DoesNotExist, db0).
Proof.
  destruct (grant_failures db0 ["Manager"]) as (_ & Hempty & H404 & Hgroup).
  split; [exact (proj1 (Hempty (mkGroupData (Some "")) eq_refl))|].
  split.
  - exact (proj2 (H404 (mkGroupData (Some "nobody")) "nobody"
                    eq_refl eq_refl eq_refl)).
  - exact (proj2 (Hgroup (mkGroupData (Some "bob")) "bob" bob
                    eq_refl eq_refl eq_refl) eq_refl).
Defined.

(** ** Groups: who may manage them *)

(** X22.  The permission lists of the four group views differ.  The
    two list views ask for a manager or a staff user.  The single-user
    view of the managers asks for a staff user.  The single-user view of
    the delivery crew lists [IsAdminUser] and [IsManager], which both
    have to hold: a staff user who is not in the Manager group is
    refused there, and so is a manager who is not staff. *)
Theorem group_views_policy (db : DB) (u : User.t) :
  Delivery_crew_management.permission_classes
    = ManagerUsersView.permission_classes /\
  check_permissions ManagerUsersView.permission_classes (Authenticated u) db
    = (if is_manager u || User.is_staff u
       then Returned tt else Raised PermissionDenied, db) /\
  check_permissions ManagerSingleUserView.permission_classes
                    (Authenticated u) db
    = (if User.is_staff u then Returned tt else Raised PermissionDenied, db) /\
  check_permissions Delivery_crew_management_single_view.permission_classes
                    (Authenticated u) db
    = (if User.is_staff u && is_manager u
       then Returned tt else Raised PermissionDenied, db).
Proof.
  unfold check_permissions. split; [reflexivity|].
  cbn -[is_manager].
  destruct (is_manager u), (User.is_staff u); repeat split.
Qed.

(** ** Logging out everywhere *)

Lemma get_or_create_blacklisted (token : OutstandingToken.t) (tdb : TokenDB)
    (x : Z) :
  is_blacklisted x (snd (BlacklistedToken_objects_get_or_create token tdb))
  = is_blacklisted x tdb || (OutstandingToken.id token =? x).
Proof.
  unfold BlacklistedToken_objects_get_or_create, is_blacklisted.
  destruct (find _ (blacklisted tdb)) as [b|] eqn:E; cbn.
  - destruct (OutstandingToken.id token =? x) eqn:Ex;
      [|now rewrite orb_false_r].
    apply Z.eqb_eq in Ex. subst x. rewrite orb_true_r.
    apply find_some in E. apply existsb_exists. now exists b.
  - rewrite existsb_app. cbn. now rewrite orb_false_r.
Qed.

Lemma get_or_create_frame (token : OutstandingToken.t) (tdb : TokenDB) :
  let tdb' := snd (BlacklistedToken_objects_get_or_create token tdb) in
  outstanding tdb' = outstanding tdb /\
  (exists new, blacklisted tdb' = blacklisted tdb ++ new) /\
  (is_blacklisted (OutstandingToken.id token) tdb = true -> tdb' = tdb) /\
  (NoDup (map BlacklistedToken.token_id (blacklisted tdb)) ->
   NoDup (map BlacklistedToken.token_id (blacklisted tdb'))).
Proof.
  cbn zeta. unfold BlacklistedToken_objects_get_or_create, is_blacklisted.
  destruct (find _ (blacklisted tdb)) as [b|] eqn:E; cbn.
  - repeat split; auto. exists []. now rewrite app_nil_r.
  - split; [reflexivity|]. split; [now eexists|]. split.
    + intros H. apply existsb_exists in H. destruct H as (b & Hin & Hb).
      now rewrite (find_none _ _ E b Hin) in Hb.
    + intros Hnd. rewrite map_app. cbn.
      apply NoDup_rev in Hnd. rewrite <- (rev_involutive (_ ++ _)).
      apply NoDup_rev. rewrite rev_app_distr. cbn. constructor; [|exact Hnd].
      rewrite <- in_rev, in_map_iff. intros (b & Hb & Hin).
      pose proof (find_none _ _ E b Hin) as Hf. cbn in Hf.
      apply Z.eqb_neq in Hf. contradiction.
Qed.

Lemma blacklist_each_blacklisted (tokens : list OutstandingToken.t)
    (tdb : TokenDB) (x : Z) :
  is_blacklisted x (LogoutAllView.blacklist_each tokens tdb)
  = is_blacklisted x tdb
    || existsb (fun t => OutstandingToken.id t =? x) tokens.
Proof.
  revert tdb. induction tokens as [|t rest IH]; intros tdb; cbn.
  - now rewrite orb_false_r.
  - pose proof (get_or_create_blacklisted t tdb x) as H.
    destruct (BlacklistedToken_objects_get_or_create t tdb) as [[b c] tdb'].
    cbn in H. rewrite IH, H. now rewrite orb_assoc.
Qed.

Lemma blacklist_each_frame (tokens : list OutstandingToken.t) (tdb : TokenDB) :
  let tdb' := LogoutAllView.blacklist_each tokens tdb in
  outstanding tdb' = outstanding tdb /\
  (exists new, blacklisted tdb' = blacklisted tdb ++ new) /\
  (NoDup (map BlacklistedToken.token_id (blacklisted tdb)) ->
   NoDup (map BlacklistedToken.token_id (blacklisted tdb'))).
Proof.
  cbn zeta. revert tdb. induction tokens as [|t rest IH]; intros tdb; cbn.
  - repeat split; auto. exists []. now rewrite app_nil_r.
  - pose proof (get_or_create_frame t tdb) as H. cbn zeta in H.
    destruct (BlacklistedToken_objects_get_or_create t tdb) as [[b c] tdb'].
    cbn in H. destruct H as (Ho & (new & Hb) & _ & Hn).
    destruct (IH tdb') as (Ho' & (new' & Hb') & Hn').
    split; [congruence|]. split; [|auto].
    exists (new ++ new'). now rewrite Hb', Hb, app_assoc.
Qed.

Lemma blacklist_each_done (tokens : list OutstandingToken.t) (tdb : TokenDB) :
  forallb (fun t => is_blacklisted (OutstandingToken.id t) tdb) tokens = true ->
  LogoutAllView.blacklist_each tokens tdb = tdb.
Proof.
  induction tokens as [|t rest IH]; cbn; [reflexivity|].
  intros H. apply andb_true_iff in H. destruct H as [Ht H].
  pose proof (get_or_create_frame t tdb) as F. cbn zeta in F.
  destruct (BlacklistedToken_objects_get_or_create t tdb) as [[b c] tdb'].
  cbn in F. destruct F as (_ & _ & Fsame & _).
  rewrite (Fsame Ht). now apply IH.
Qed.

(** X23.  [post] of [LogoutAllView] answers 205 and blacklists every
    outstanding token of the user: afterwards each of them is
    blacklisted, a token that is not one of the user's is blacklisted
    exactly if it was before, the rows that were in the blacklist are
    still there, no outstanding token is removed, and a token is never
    blacklisted twice.  A second [post] finds nothing left to do and
    leaves the store as the first one did. *)
Theorem logout_all (u : User.t) (tdb : TokenDB) :
  let tokens := OutstandingToken_objects_filter (User.id u) tdb in
  let tdb1 := snd (LogoutAllView.post u tdb) in
  fst (LogoutAllView.post u tdb)
    = mkTextResponse 205 "Logout successful from all devices" /\
  outstanding tdb1 = outstanding tdb /\
  (forall t, In t tokens -> is_blacklisted (OutstandingToken.id t) tdb1 = true) /\
  (forall x,
     existsb (fun t => OutstandingToken.id t =? x) tokens = false ->
     is_blacklisted x tdb1 = is_blacklisted x tdb) /\
  (exists new, blacklisted tdb1 = blacklisted tdb ++ new) /\
  (NoDup (map BlacklistedToken.token_id (blacklisted tdb)) ->
   NoDup (map BlacklistedToken.token_id (blacklisted tdb1))) /\
  LogoutAllView.post u tdb1
    = (mkTextResponse 205 "Logout successful from all devices", tdb1).
Proof.
  cbn zeta. unfold LogoutAllView.post. cbn [fst snd].
  set (tokens := OutstandingToken_objects_filter (User.id u) tdb).
  set (tdb1 := LogoutAllView.blacklist_each tokens tdb).
  destruct (blacklist_each_frame tokens tdb) as (Ho & Hb & Hn).
  fold tdb1 in Ho, Hb, Hn.
  assert (Hall : forall t, In t tokens ->
                   is_blacklisted (OutstandingToken.id t) tdb1 = true).
  { intros t Hin. unfold tdb1. rewrite blacklist_each_blacklisted.
    apply orb_true_iff. right. apply existsb_exists. exists t.
    split; [exact Hin|apply Z.eqb_refl]. }
  split; [reflexivity|]. split; [exact Ho|]. split; [exact Hall|].
  split; [|split; [exact Hb|split; [exact Hn|]]].
  - intros x Hx. unfold tdb1. rewrite blacklist_each_blacklisted, Hx.
    apply orb_false_r.
  - f_equal.
    assert (Ht : OutstandingToken_objects_filter (User.id u) tdb1 = tokens)
      by (unfold OutstandingToken_objects_filter; now rewrite Ho).
    rewrite Ht. apply blacklist_each_done.
    apply forallb_forall. exact Hall.
Qed.

Lemma logout_all_witness :
  NoDup (map BlacklistedToken.token_id (blacklisted tokens0)) /\
  blacklisted (snd (LogoutAllView.post alice tokens0))
    = [BlacklistedToken.mk 1 3; BlacklistedToken.mk 2 1;
       BlacklistedToken.mk 3 4] /\
  NoDup (map BlacklistedToken.token_id
             (blacklisted (snd (LogoutAllView.post alice tokens0)))) /\
  is_blacklisted 2 (snd (LogoutAllView.post alice tokens0)) = false.
Proof.
  assert (H : NoDup (map BlacklistedToken.token_id (blacklisted tokens0)))
    by (repeat constructor; intros []).
  split; [exact H|]. split; [reflexivity|].
  destruct (logout_all alice tokens0) as (_ & _ & _ & Hother & _ & Hn & _).
  split; [exact (Hn H)|].
  exact (Hother 2 eq_refl).
Defined.

(** ** Prices: stored in the cart, read from the menu *)


Lemma menu_complete_repriced (id : Z) (p : Decimal) (ms : list MenuItem.t)
    (lines : list Cart.t) :
  menu_complete (map (repriced id p) ms) lines = menu_complete ms lines.
Proof.
  unfold menu_complete. induction lines as [|c lines IH]; cbn; [reflexivity|].
  now rewrite menu_has_repriced, IH.
Qed.



Lemma cart_row_run (db : DB) (c : Cart.t) :
  CartSerializer.to_representation c db =
    (Returned
       (CartSerializer.mk
          (option_map CartSerializer.CartHelpSerializer
             (find (fun m => MenuItem.id m =? Cart.menuitem_id c)
                   (menuitems db)))
          (Cart.quantity c) (Cart.price c)), db).
Proof. reflexivity. Qed.

Lemma cart_rows (db : DB) (lines : list Cart.t) :
  menu_complete (menuitems db) lines = true ->
  exists rows,
    for_each CartSerializer.to_representation lines db = (Returned rows, db) /\
    Forall2 (listed_with MenuItem.price (menuitems db)) lines rows.
Proof.
  unfold menu_complete.
  induction lines as [|c lines IH]; intros H.
  - exists []. split; [reflexivity|constructor].
  - cbn [forallb] in H. apply andb_true_iff in H. destruct H as [Hc H].
    destruct (IH H) as (rows & Hrows & Hall).
    pose proof (find_menu_has (menuitems db) (Cart.menuitem_id c)) as Hm.
    cbn [for_each]. unfold bind at 1. rewrite cart_row_run.
    destruct (find _ (menuitems db)) as [m|] eqn:E; [|congruence].
    unfold bind at 1. rewrite Hrows. unfold ret. cbn [option_map].
    eexists. split; [reflexivity|].
    constructor; [|exact Hall].
    exists m. cbn. repeat split. exact E.
Qed.

Lemma listed_with_repriced (id : Z) (p : Decimal) (ms : list MenuItem.t)
    (c : Cart.t) (row : CartSerializer.t) :
  listed_with MenuItem.price (map (repriced id p) ms) c row ->
  listed_with (price_after id p) ms c row.
Proof.
  intros (m' & Hfind & Hq & Hp & Hm). rewrite find_repriced in Hfind.
  destruct (find _ ms) as [m|] eqn:E; [|discriminate].
  cbn in Hfind. injection Hfind as <-. exists m.
  split; [exact E|]. split; [exact Hq|]. split; [exact Hp|].
  rewrite Hm. unfold repriced, price_after.
  destruct (MenuItem.id m =? id); reflexivity.
Qed.

(** X25.  The list of the cart, through [CartSerializer], shows for
    every line the price stored with the line and, nested, the menu item
    as the menu has it now.  After the price of a menu item has changed,
    the lines of that item are listed with the new price of the item and
    the old price of the line; adding to the cart again is not needed
    for the new price to show, and does not happen for the line price to
    follow. *)
Theorem cart_list_prices (db : DB) (u : User.t) :
  menu_complete (menuitems db) (user_lines (User.id u) (carts db)) = true ->
  (exists rows,
     Customer_Cart_get u db = (Returned rows, db) /\
     Forall2 (listed_with MenuItem.price (menuitems db))
             (user_lines (User.id u) (carts db)) rows) /\
  (forall id p, exists rows,
     result (Customer_Cart_get u) (exec (MenuItem_save_price id p) db)
       = Returned rows /\
     Forall2 (listed_with (price_after id p) (menuitems db))
             (user_lines (User.id u) (carts db)) rows).
Proof.
  intros Hm. split.
  - destruct (cart_rows db _ Hm) as (rows & R & Hall).
    exists rows. split; [|exact Hall].
    unfold Customer_Cart_get, Customer_Cart.get_queryset, Cart_objects_filter,
      bind, query. exact R.
  - intros id p. set (db1 := exec (MenuItem_save_price id p) db).
    assert (Hm1 : menu_complete (menuitems db1)
                    (user_lines (User.id u) (carts db1)) = true)
      by (change (menuitems db1) with (map (repriced id p) (menuitems db));
          change (carts db1) with (carts db);
          now rewrite menu_complete_repriced).
    destruct (cart_rows db1 _ Hm1) as (rows & R & Hall).
    exists rows. split.
    + unfold result, Customer_Cart_get, Customer_Cart.get_queryset,
        Cart_objects_filter, bind, query. now rewrite R.
    + change (menuitems db1) with (map (repriced id p) (menuitems db)) in Hall.
      change (carts db1) with (carts db) in Hall.
      eapply Forall2_impl; [|exact Hall].
      intros c row. apply listed_with_repriced.
Qed.

Lemma cart_list_prices_witness :
  menu_complete (menuitems db_cart)
    (user_lines (User.id alice) (carts db_cart)) = true /\
  result (Customer_Cart_get alice) (exec (MenuItem_save_price 1 1000) db_cart)
    = Returned [CartSerializer.mk (Some (1, "Item A", 1000)) 2 1900;
                CartSerializer.mk (Some (2, "Item B", 300)) 1 300] /\
  exists rows,
    result (Customer_Cart_get alice) (exec (MenuItem_save_price 1 1000) db_cart)
      = Returned rows /\
    Forall2 (listed_with (price_after 1 1000) (menuitems db_cart))
            (user_lines (User.id alice) (carts db_cart)) rows.
Proof.
  split; [reflexivity|]. split; [reflexivity|].
  exact (proj2 (cart_list_prices db_cart alice eq_refl) 1 1000).
Defined.

(** ** Assigning, and the lists of the delivery crew *)

Lemma saved_in (o o1 : Order.t) (os : list Order.t) :
  find_order (Order.id o1) os = Some o -> In o1 (saved o1 os).
Proof.
  unfold find_order, saved. induction os as [|r os IH]; cbn; [discriminate|].
  destruct (Order.id r =? Order.id o1); [now left|].
  intros H. right. now apply IH.
Qed.

Lemma saved_same_id (o1 r : Order.t) (os : list Order.t) :
  In r (saved o1 os) -> Order.id r = Order.id o1 -> r = o1.
Proof.
  unfold saved. rewrite in_map_iff. intros (r0 & Hr & _) Hid.
  destruct (Order.id r0 =? Order.id o1) eqn:E; [now subst|].
  subst r0. apply Z.eqb_neq in E. contradiction.
Qed.

(** X26.  After [put] has assigned an order to a user, the order list
    of that user as a member of the delivery crew holds the order, and
    the order list of every other member of the delivery crew does not,
    whoever it was assigned to before. *)
Theorem assignment_moves_order (db : DB) (pk : Z) (o : Order.t)
    (crew : User.t) :
  find_order pk (orders db) = Some o ->
  find (fun u => User.id u =? User.id crew) (users db) = Some crew ->
  let db1 :=
    exec (SingleOrderView.put pk (SingleOrderView.mkData (Some (User.id crew))))
         db in
  forall w,
    is_manager w = false -> User.is_superuser w = false ->
    is_delivery_crew w = true ->
    exists l,
      result (OrdersView.get_queryset w) db1 = Returned l /\
      (User.id w = User.id crew ->
       exists o1, In o1 l /\ Order.id o1 = pk /\
                  Order.delivery_crew o1 = Some (User.id crew)) /\
      (User.id w <> User.id crew ->
       forall r, In r l -> Order.id r <> pk).
Proof.
  intros Ho Hc. cbn zeta. intros w Hm Hs Hd.
  pose proof (put_run db pk o crew Ho Hc) as R.
  pose proof (find_order_id _ _ _ Ho) as Hid.
  set (o1 := SingleOrderView.set_delivery_crew o (Some (User.id crew))) in *.
  unfold exec. rewrite R. cbn [snd].
  unfold result, OrdersView.get_queryset, is_manager, is_delivery_crew in *.
  rewrite Hm, Hs, Hd. cbn [orb Bool.eqb fst query orders set_orders].
  eexists. split; [reflexivity|]. split.
  - intros Hw. exists o1. split; [|split; [exact Hid|reflexivity]].
    apply filter_In. split.
    + apply (saved_in o). now rewrite <- Hid in Ho.
    + cbn. rewrite Hw. apply Z.eqb_refl.
  - intros Hw r Hr Hpk. apply filter_In in Hr. destruct Hr as [Hin Hdc].
    assert (r = o1) by (apply (saved_same_id o1 r (orders db)); 
                        [exact Hin|cbn; congruence]).
    subst r. cbn in Hdc. apply Z.eqb_eq in Hdc. congruence.
Qed.

Lemma assignment_moves_order_witness :
  find_order 1 (orders db_assigned)
    = Some (Order.mk 1 1 (Some 3) false 2200 20000) /\
  find (fun u => User.id u =? User.id dave) (users db_assigned) = Some dave /\
  exists l,
    result (OrdersView.get_queryset carol)
      (exec (SingleOrderView.put 1
               (SingleOrderView.mkData (Some (User.id dave)))) db_assigned)
      = Returned l /\
    (User.id carol = User.id dave ->
     exists o1, In o1 l /\ Order.id o1 = 1 /\
                Order.delivery_crew o1 = Some (User.id dave)) /\
    (User.id carol <> User.id dave -> forall r, In r l -> Order.id r <> 1).
Proof.
  split; [reflexivity|]. split; [reflexivity|].
  exact (assignment_moves_order db_assigned 1
           (Order.mk 1 1 (Some 3) false 2200 20000) dave eq_refl eq_refl
           carol eq_refl eq_refl eq_refl).
Defined.

(** ** The conditions on keys are kept *)

(** X27.  The conditions on keys that the other properties assume
    (in each of the tables of cart lines, orders and order items the
    primary keys are distinct and below the next key of the sequence; no
    order item belongs to an order yet to be made; every cart line names
    an item of the menu) hold in every store whose tables of cart lines,
    orders and order items are empty, and each of them is kept by every
    request that writes to the cart or places an order, whether it
    succeeds or fails, so they hold after any sequence of such requests;
    they are kept as well by toggling the status of an order and by
    assigning it.  Together they give what the properties on carts and
    orders assume. *)
Theorem keys_stay_well_formed :
  (forall us ms s1 s2 s3,
     keys_well_formed (mkDB us ms [] [] [] s1 s2 s3) = true) /\
  (forall db rs,
     keys_well_formed db = true ->
     keys_well_formed (fold_left handle rs db) = true) /\
  (forall db pk,
     keys_well_formed db = true ->
     keys_well_formed (exec (SingleOrderView.patch pk) db) = true) /\
  (forall db pk d,
     keys_well_formed db = true ->
     keys_well_formed (exec (SingleOrderView.put pk d) db) = true) /\
  (forall db,
     keys_well_formed db = true ->
     fresh_cart_seq db = true /\
     distinct_cart_ids (carts db) = true /\
     distinct_order_ids (orders db) = true /\
     distinct_orderitem_ids (orderitems db) = true /\
     fresh_orderitem_seq db = true /\
     fresh_order_seq db = true /\
     forall u,
       menu_complete (menuitems db) (user_lines (User.id u) (carts db))
       = true).
Proof.
  split; [reflexivity|]. split; [|split; [|split]].
  - intros db rs. revert db.
    induction rs as [|r rs IH]; intros db H; [exact H|].
    cbn [fold_left]. apply IH. now apply handle_keeps_keys.
  - intros db pk H. unfold exec.
    destruct (find_order pk (orders db)) as [o|] eqn:E.
    + rewrite (patch_run db pk o E). cbn [snd]. now apply saved_keeps_keys.
    + now rewrite (patch_missing db pk E).
  - intros db pk d H.
    destruct (result (SingleOrderView.put pk d) db) as [resp|e] eqn:E.
    + destruct (put_returns db pk d resp E) as (o & crew & _ & _ & _ & R).
      unfold exec. rewrite R. cbn [snd]. now apply saved_keeps_keys.
    + now rewrite (put_raised db pk d e E).
  - intros db H. apply keys_well_formed_iff in H.
    destruct H as (Hfc & Hd & Hok & Hdo & Hfi & Hdi & Hfo & Hcm).
    repeat (split; [assumption|]).
    intros u. now apply user_lines_in_menu.
Qed.

Lemma keys_stay_well_formed_witness :
  keys_well_formed db0 = true /\
  keys_well_formed
    (fold_left handle
       [AddLine alice (Customer_Cart.mkData (Some 1) (Some 2));
        AddLine bob (Customer_Cart.mkData (Some 2) (Some 1));
        PlaceOrder alice 20000;
        RemoveLines bob (Customer_Cart.mkData (Some 2) None)]
       db0) = true /\
  keys_well_formed db_order = true /\
  keys_well_formed (exec (SingleOrderView.patch 1) db_order) = true.
Proof.
  split; [reflexivity|].
  split; [exact (proj1 (proj2 keys_stay_well_formed) db0 _ eq_refl)|].
  split; [reflexivity|].
  exact (proj1 (proj2 (proj2 keys_stay_well_formed)) db_order 1 eq_refl).
Defined.
